(** * ctools_lfu: a shallow embedding of the LFU cache of python-ctools

    The development follows [src/ctools_lfu.c].  C functions that only read
    or build values are Rocq functions; C functions that mutate the cache,
    set the interpreter's error indicator, read the clock or draw random
    numbers are computations in the monad [M] below.

    Modelling conventions.
    - [unsigned int] and [uint32_t] are 32 bits wide, [int] is a signed 32-bit
      integer, [Py_ssize_t] and [long long] are signed 64-bit integers.  They
      are represented in [Z]; unsigned arithmetic wraps explicitly, and so do
      the increments of the two signed counters and the conversions to
      [int] (two's complement).
    - [time(NULL)] and [rand()] are oracles: the [n]-th call returns
      [time n], respectively [rand n].
    - The dictionary [self->dict] is an association list in iteration
      (insertion) order.  Storing an existing key keeps its position, a new
      key goes to the end, deleting removes the entry.
    - Keys are hashable objects with a decidable equality.  Reference counts
      and allocation failure are not modelled.
    - A [LFUWrapper] is referenced by the dictionary only, so an in-place
      update through a wrapper pointer is a write-back at its key.
    - A C function returning [PyObject *] returns an [option]: [None] is
      [NULL].  The exception, if any, is in the error indicator [err].
    - Undefined behaviour (a null dereference, a division by zero, an
      unchecked list access out of range) is the outcome [Crash]. *)

From Stdlib Require Import String ZArith List Bool Lia.
Import ListNotations.
Local Open Scope Z_scope.

Set Implicit Arguments.
Set Default Proof Using "Type".

(** ** Machine integers *)

Definition UINT32_MAX : Z := 4294967295.
Definition INT_MAX : Z := 2147483647.
Definition PY_SSIZE_T_MAX : Z := 9223372036854775807.
Definition LLONG_MAX : Z := 9223372036854775807.
Definition LLONG_MIN : Z := -9223372036854775808.

(** Conversion to [unsigned int] / [uint32_t]. *)
Definition to_uint32 (z : Z) : Z := z mod 2 ^ 32.
(** Conversion to [uint64_t]. *)
Definition to_uint64 (z : Z) : Z := z mod 2 ^ 64.
(** Conversion to [int] (two's complement). *)
Definition to_int (z : Z) : Z := (z + 2 ^ 31) mod 2 ^ 32 - 2 ^ 31.
(** Conversion to [Py_ssize_t] (two's complement). *)
Definition to_ssize (z : Z) : Z := (z + 2 ^ 63) mod 2 ^ 64 - 2 ^ 63.

(** ** Constants of the source *)

Definition LFU_INIT_VAL : Z := 255.
Definition LFU_BUCKET : Z := 8.
Definition LFU_BUCKET_SIZE : Z := 256.

(** ** Python exceptions that the module raises or lets through *)

Inductive PyExc : Type :=
| PyExc_KeyError
| PyExc_TypeError
| PyExc_ValueError
| PyExc_OverflowError
| PyExc_IndexError
| PyExc_Raised (tag : nat). (* an exception raised by user code *)

(** The argument of [set_capacity] and of the constructor: a Python int,
    or any other object.  The host converts an object that is not an int
    through its [__index__] method (and through [__int__] in the versions of
    CPython that still consult it), so such an object is given by what that
    conversion produces: an integer, or the exception it ends with, which is
    [TypeError] when the object has no such method or the method returns
    something else than an int.  The method is assumed not to touch the
    cache. *)
Inductive PyArg : Type :=
| PyLong (n : Z)
| PyNotLong (index : Z + PyExc).

(** [PyNumber_Index]: the object as a Python int, or an exception. *)
Definition PyNumber_Index (o : PyArg) : Z + PyExc :=
  match o with
  | PyLong n => inl n
  | PyNotLong index => index
  end.

(** [PyLong_AsLongLong]: the value, or [-1] with an exception. *)
Definition PyLong_AsLongLong (o : PyArg) : Z * option PyExc :=
  match PyNumber_Index o with
  | inl n =>
      if (LLONG_MIN <=? n) && (n <=? LLONG_MAX) then (n, None)
      else (-1, Some PyExc_OverflowError)
  | inr e => (-1, Some e)
  end.

(** The truncation of [time(NULL)] to minutes, as an [unsigned int]. *)
Definition minutes_of (t : Z) : Z := Z.land (to_uint64 t / 60) UINT32_MAX.

Section LFU.

Context {K V : Type}.
(** Equality of keys. *)
Variable key_eq_dec : forall a b : K, {a = b} + {a <> b}.
(** The object [Py_None]. *)
Variable Py_None : V.
(** [time n] is what the [n]-th call of [time(NULL)] returns. *)
Variable time : nat -> Z.
(** [rand n] is what the [n]-th call of [rand()] returns. *)
Variable rand : nat -> Z.
Variable RAND_MAX : Z.
(** The loop of [rand_limit] has no bound in the source; the embedding gives
    up with [Timeout] after this many draws. *)
Variable rand_limit_fuel : nat.

(** ** Data model *)

Record LFUWrapper : Type := mkWrapper {
  wrapped : V;
  last_visit : Z;
  visit_count : Z
}.

Definition PyDict : Type := list (K * LFUWrapper).

Record LFUCache : Type := mkCache {
  dict : PyDict;
  capacity : Z;
  hits : Z;
  misses : Z
}.

(** The part of the process that the module's functions touch. *)
Record Interp : Type := mkInterp {
  self : LFUCache;
  err : option PyExc;   (* the error indicator *)
  time_calls : nat;     (* calls of [time(NULL)] so far *)
  rand_calls : nat      (* calls of [rand()] so far *)
}.

(** ** The monad of C computations *)

Inductive Outcome (A : Type) : Type :=
| Done (a : A) (s : Interp)
| Crash
| Timeout.

Arguments Crash {A}.
Arguments Timeout {A}.

Definition M (A : Type) : Type := Interp -> Outcome A.

Definition ret {A} (a : A) : M A := fun s => Done a s.

Definition bind {A B} (m : M A) (f : A -> M B) : M B :=
  fun s =>
    match m s with
    | Done a s' => f a s'
    | Crash => Crash
    | Timeout => Timeout
    end.

Notation "x <- m ;; k" := (bind m (fun x => k))
  (at level 100, m at next level, right associativity).
Notation "m ;; k" := (bind m (fun _ => k))
  (at level 100, right associativity).

Definition crash {A} : M A := fun _ => Crash.
Definition timeout {A} : M A := fun _ => Timeout.

Definition get_self : M LFUCache := fun s => Done (self s) s.

Definition put_self (c : LFUCache) : M unit :=
  fun s => Done tt (mkInterp c (err s) (time_calls s) (rand_calls s)).

Definition put_dict (d : PyDict) : M unit :=
  c <- get_self ;; put_self (mkCache d (capacity c) (hits c) (misses c)).

Definition PyErr_Set (e : PyExc) : M unit :=
  fun s => Done tt (mkInterp (self s) (Some e) (time_calls s) (rand_calls s)).

Definition PyErr_Clear : M unit :=
  fun s => Done tt (mkInterp (self s) None (time_calls s) (rand_calls s)).

Definition PyErr_Occurred : M (option PyExc) := fun s => Done (err s) s.

Definition c_time : M Z :=
  fun s => Done (time (time_calls s))
                (mkInterp (self s) (err s) (S (time_calls s)) (rand_calls s)).

Definition c_rand : M Z :=
  fun s => Done (rand (rand_calls s))
                (mkInterp (self s) (err s) (time_calls s) (S (rand_calls s))).

(** ** The dictionary API of CPython, on association lists *)

Fixpoint PyDict_GetItem (d : PyDict) (key : K) : option LFUWrapper :=
  match d with
  | [] => None
  | (k, w) :: d' => if key_eq_dec key k then Some w else PyDict_GetItem d' key
  end.

(** Storing at a key that is present: the entry keeps its place. *)
Fixpoint dict_store (d : PyDict) (key : K) (w : LFUWrapper) : PyDict :=
  match d with
  | [] => []
  | (k, w0) :: d' =>
      if key_eq_dec key k then (k, w) :: d'
      else (k, w0) :: dict_store d' key w
  end.

Definition PyDict_SetItem (d : PyDict) (key : K) (w : LFUWrapper) : PyDict :=
  match PyDict_GetItem d key with
  | Some _ => dict_store d key w
  | None => d ++ [(key, w)]
  end.

Fixpoint dict_remove (d : PyDict) (key : K) : PyDict :=
  match d with
  | [] => []
  | (k, w) :: d' =>
      if key_eq_dec key k then d' else (k, w) :: dict_remove d' key
  end.

(** [PyDict_DelItem]: [None] when the key is absent ([-1] and [KeyError]). *)
Definition PyDict_DelItem (d : PyDict) (key : K) : option PyDict :=
  match PyDict_GetItem d key with
  | Some _ => Some (dict_remove d key)
  | None => None
  end.

Definition PyDict_Keys (d : PyDict) : list K := map fst d.
Definition PyDict_Size (d : PyDict) : Z := Z.of_nat (length d).

(** ** LFUWrapper *)

Definition time_in_minutes : M Z :=
  t <- c_time ;; ret (minutes_of t).

(** [tp_new]: the two counters are not initialised yet. *)
Definition LFUWrapper_new (obj : V) : LFUWrapper := mkWrapper obj 0 0.

Definition LFUWrapper_init (w : LFUWrapper) : M LFUWrapper :=
  now <- time_in_minutes ;;
  ret (mkWrapper (wrapped w) now LFU_INIT_VAL).

Definition LFUWrapper_UPDATE_WEIGHT (w : LFUWrapper) : M LFUWrapper :=
  now <- time_in_minutes ;;
  ret (mkWrapper (wrapped w) now (to_uint32 (visit_count w + 1))).

(** [LFUWrapper_wrapped] on the wrapper stored at [key]: the updated wrapper
    is written back, the payload is returned.  A null wrapper is
    dereferenced. *)
Definition LFUWrapper_wrapped (key : K) : M V :=
  c <- get_self ;;
  match PyDict_GetItem (dict c) key with
  | None => crash
  | Some w =>
      w' <- LFUWrapper_UPDATE_WEIGHT w ;;
      put_dict (dict_store (dict c) key w') ;;
      ret (wrapped w')
  end.

Definition LFUWrapper_WEIGHT (w : LFUWrapper) (now : Z) : Z :=
  let counter := visit_count w in
  let num := to_uint32 (now - last_visit w) in
  if num >? counter then 0 else to_uint32 (counter - num).

(** ** LFUCache *)

Definition PyLFUCache_Size : M Z :=
  c <- get_self ;; ret (PyDict_Size (dict c)).

(** The loop of [rand_limit]: draw until the quotient is within the limit. *)
Fixpoint rand_limit_loop (fuel : nat) (divisor limit : Z) : M Z :=
  match fuel with
  | O => timeout
  | S fuel' =>
      r <- c_rand ;;
      let rv := Z.quot r divisor in
      if rv >? limit then rand_limit_loop fuel' divisor limit else ret rv
  end.

(** [limit + 1] overflows at [INT_MAX]; both divisions can be by zero. *)
Definition rand_limit (limit : Z) : M Z :=
  if (limit =? INT_MAX) || (limit + 1 =? 0) then crash
  else
    let divisor := Z.quot RAND_MAX (limit + 1) in
    if divisor =? 0 then crash
    else rand_limit_loop rand_limit_fuel divisor limit.

Definition LFUCache_Contains (key : K) : M Z :=
  c <- get_self ;;
  ret (match PyDict_GetItem (dict c) key with Some _ => 1 | None => 0 end).

Definition PyLFUCache_GetItem (key : K) : M (option LFUWrapper) :=
  c <- get_self ;; ret (PyDict_GetItem (dict c) key).

(** One comparison of [LFUCache_lfu]: the pair is [(min, rv)]. *)
Definition lfu_compare (now : Z) (key : K) (wrapper : LFUWrapper)
    (st : Z * option K) : Z * option K :=
  let weight := LFUWrapper_WEIGHT wrapper now in
  if (fst st =? 0) || (weight <? fst st) then (weight, Some key) else st.

(** The [PyDict_Next] loop of the exact scan. *)
Fixpoint lfu_scan (now : Z) (d : PyDict) (st : Z * option K) : Z * option K :=
  match d with
  | [] => st
  | (key, wrapper) :: d' => lfu_scan now d' (lfu_compare now key wrapper st)
  end.

(** [PyList_GET_ITEM] does not check its index. *)
Definition PyList_GET_ITEM (l : list K) (pos : Z) : M K :=
  if pos <? 0 then crash
  else match nth_error l (Z.to_nat pos) with
       | Some k => ret k
       | None => crash
       end.

(** [PyList_GetItem] checks its index. *)
Definition PyList_GetItem (l : list K) (pos : Z) : M (option K) :=
  if pos <? 0 then PyErr_Set PyExc_IndexError ;; ret None
  else match nth_error l (Z.to_nat pos) with
       | Some k => ret (Some k)
       | None => PyErr_Set PyExc_IndexError ;; ret None
       end.

(** The weight of the wrapper stored at a key; a null wrapper is
    dereferenced. *)
Definition weight_at (d : PyDict) (key : K) (now : Z) : M Z :=
  match PyDict_GetItem d key with
  | Some wrapper => ret (LFUWrapper_WEIGHT wrapper now)
  | None => crash
  end.

(** The [for] loop over the first [LFU_BUCKET - 1] buckets; [i] counts up,
    [todo] is the number of iterations left.  The result is [(min, rv)] and
    the variable [key]. *)
Fixpoint lfu_buckets (todo : nat) (i : Z) (now b_size : Z) (d : PyDict)
    (keylist : list K) (st : Z * option K) (key : option K)
    : M (Z * option K * option K) :=
  match todo with
  | O => ret (st, key)
  | S todo' =>
      r <- rand_limit (to_int b_size) ;;
      let pos := i * b_size + r in
      key' <- PyList_GET_ITEM keylist pos ;;
      match PyDict_GetItem d key' with
      | None => crash
      | Some wrapper =>
          lfu_buckets todo' (i + 1) now b_size d keylist
                      (lfu_compare now key' wrapper st) (Some key')
      end
  end.

(** The block after the loop, for the keys beyond the last bucket: it yields
    the final [rv].  The comparison assigns the variable [key], which still
    holds the key sampled last by the loop. *)
Definition lfu_remainder (now dict_len b_size : Z) (d : PyDict)
    (keylist : list K) (st : Z * option K) (key : option K)
    : M (option K) :=
  if Z.rem dict_len LFU_BUCKET =? 0 then ret (snd st)
  else
    let pos := LFU_BUCKET * b_size
               + Z.quot (dict_len - LFU_BUCKET * b_size) 2 in
    item <- PyList_GetItem keylist pos ;;
    match item with
    | None => crash
    | Some k =>
        weight <- weight_at d k now ;;
        if (fst st =? 0) || (weight <? fst st) then ret key
        else ret (snd st)
    end.

Definition LFUCache_lfu : M (option K) :=
  now <- time_in_minutes ;;
  dict_len <- PyLFUCache_Size ;;
  c <- get_self ;;
  if dict_len =? 0 then
    PyErr_Set PyExc_KeyError ;; ret None
  else if dict_len <? LFU_BUCKET_SIZE then
    match snd (lfu_scan now (dict c) (0, None)) with
    | Some rv => ret (Some rv)
    | None => crash
    end
  else
    let keylist := PyDict_Keys (dict c) in
    let b_size := Z.quot dict_len LFU_BUCKET in
    res <- lfu_buckets (Z.to_nat (LFU_BUCKET - 1)) 0 now b_size (dict c)
                       keylist (0, None) None ;;
    rv <- lfu_remainder now dict_len b_size (dict c) keylist
                        (fst res) (snd res) ;;
    match rv with
    | Some k => ret (Some k)
    | None => crash
    end.

Definition LFUCache_evict : M (option V) :=
  k <- LFUCache_lfu ;;
  match k with
  | None => PyErr_Clear ;; ret (Some Py_None)
  | Some k =>
      c <- get_self ;;
      match PyDict_DelItem (dict c) k with
      | None => PyErr_Set PyExc_KeyError ;; ret None
      | Some d' => put_dict d' ;; ret (Some Py_None)
      end
  end.

Definition PyLFUCache_DelItem (key : K) : M Z :=
  wrapper <- PyLFUCache_GetItem key ;;
  match wrapper with
  | None => PyErr_Set PyExc_TypeError ;; ret (-1)
  | Some _ =>
      c <- get_self ;;
      match PyDict_DelItem (dict c) key with
      | None => PyErr_Set PyExc_KeyError ;; ret (-1)
      | Some d' => put_dict d' ;; ret 0
      end
  end.

Definition PyLFUCache_SetItem (key : K) (value : V) : M Z :=
  c <- get_self ;;
  match PyDict_GetItem (dict c) key with
  | Some wrapper =>
      put_dict (dict_store (dict c) key
                  (mkWrapper value (last_visit wrapper) (visit_count wrapper))) ;;
      ret 0
  | None =>
      size <- PyLFUCache_Size ;;
      evicted <- (if size + 1 >? capacity c then LFUCache_evict
                  else ret (Some Py_None)) ;;
      match evicted with
      | None => ret (-1)
      | Some _ =>
          wrapper <- LFUWrapper_init (LFUWrapper_new value) ;;
          c' <- get_self ;;
          put_dict (PyDict_SetItem (dict c') key wrapper) ;;
          ret 0
      end
  end.

Definition PyLFUCache_Clear : M unit :=
  c <- get_self ;; put_self (mkCache [] (capacity c) 0 0).

(** [tp_new]: an empty dictionary; the three integers are whatever the
    allocator left there. *)
Definition LFUCache_new (c0 h0 m0 : Z) : LFUCache := mkCache [] c0 h0 m0.

(** [tp_init] with the argument [capacity].  The format [n] converts it
    with [PyNumber_Index] and then to a [Py_ssize_t]; nothing is stored when
    the conversion fails. *)
Definition LFUCache_init (arg : PyArg) : M Z :=
  match PyNumber_Index arg with
  | inr e => PyErr_Set e ;; ret (-1)
  | inl n =>
      if (- PY_SSIZE_T_MAX - 1 <=? n) && (n <=? PY_SSIZE_T_MAX) then
        c <- get_self ;;
        put_self (mkCache (dict c) n (hits c) (misses c)) ;;
        if n <=? 0 then PyErr_Set PyExc_ValueError ;; ret (-1)
        else put_self (mkCache (dict c) n 0 0) ;; ret 0
      else PyErr_Set PyExc_OverflowError ;; ret (-1)
  end.

Definition LFUCache_mp_subscript (key : K) : M (option V) :=
  wrapper <- PyLFUCache_GetItem key ;;
  c <- get_self ;;
  match wrapper with
  | None =>
      put_self (mkCache (dict c) (capacity c) (hits c)
                        (to_ssize (misses c + 1))) ;;
      PyErr_Set PyExc_KeyError ;; ret None
  | Some _ =>
      put_self (mkCache (dict c) (capacity c) (to_ssize (hits c + 1))
                        (misses c)) ;;
      v <- LFUWrapper_wrapped key ;; ret (Some v)
  end.

Definition LFUCache_mp_ass_sub (key : K) (value : option V) : M Z :=
  match value with
  | None => PyLFUCache_DelItem key
  | Some v => PyLFUCache_SetItem key v
  end.

(** [Py_BuildValue("iii", ...)]: each field is read as an [int]. *)
Definition LFUCache_hints : M (Z * Z * Z) :=
  c <- get_self ;;
  ret (to_int (capacity c), to_int (hits c), to_int (misses c)).

Definition LFUCache_keys : M (option (list K)) :=
  c <- get_self ;; ret (Some (PyDict_Keys (dict c))).

(** The loop shared by [values] and [items]: every wrapper of the snapshot
    goes through [LFUWrapper_wrapped]. *)
Fixpoint wrapped_each (keys : list K) : M (list (K * V)) :=
  match keys with
  | [] => ret []
  | k :: keys' =>
      v <- LFUWrapper_wrapped k ;;
      rest <- wrapped_each keys' ;;
      ret ((k, v) :: rest)
  end.

Definition LFUCache_values : M (option (list V)) :=
  c <- get_self ;;
  kvs <- wrapped_each (PyDict_Keys (dict c)) ;;
  ret (Some (map snd kvs)).

Definition LFUCache_items : M (option (list (K * V))) :=
  c <- get_self ;;
  kvs <- wrapped_each (PyDict_Keys (dict c)) ;;
  ret (Some kvs).

Definition LFUCache_get (key : K) (_default : option V) : M (option V) :=
  result <- PyLFUCache_GetItem key ;;
  match result with
  | None =>
      match _default with
      | None => ret (Some Py_None)
      | Some d => ret (Some d)
      end
  | Some w => ret (Some (wrapped w))
  end.

(** After a successful delete the source reads the wrapper once more
    (it is released by then) and returns [NULL]. *)
Definition LFUCache_pop (key : K) (_default : option V) : M (option V) :=
  result <- PyLFUCache_GetItem key ;;
  match result with
  | None =>
      match _default with
      | None => ret (Some Py_None)
      | Some d => ret (Some d)
      end
  | Some w =>
      r <- PyLFUCache_DelItem key ;;
      if r =? 0 then ret None else ret (Some (wrapped w))
  end.

Definition LFUCache_setdefault (key : K) (_default : option V) : M (option V) :=
  result <- PyLFUCache_GetItem key ;;
  match result with
  | None =>
      let d := match _default with Some d => d | None => Py_None end in
      r <- PyLFUCache_SetItem key d ;;
      if r =? 0 then ret (Some d) else ret None
  | Some _ => v <- LFUWrapper_wrapped key ;; ret (Some v)
  end.

(** The second argument of [setnx]: an object that is not callable, or a
    callable given by what calling it without arguments produces (the
    callable is assumed not to touch the cache). *)
Inductive PyCallback : Type :=
| NotCallable
| Callable (result : V + PyExc).

Definition PyObject_CallFunction (result : V + PyExc) : M (option V) :=
  match result with
  | inl v => ret (Some v)
  | inr e => PyErr_Set e ;; ret None
  end.

Definition LFUCache_setnx (key : K) (callback : PyCallback) : M (option V) :=
  match callback with
  | NotCallable => PyErr_Set PyExc_TypeError ;; ret None
  | Callable result =>
      found <- PyLFUCache_GetItem key ;;
      match found with
      | None =>
          _default <- PyObject_CallFunction result ;;
          match _default with
          | None => crash (* Py_INCREF(NULL) *)
          | Some d =>
              r <- PyLFUCache_SetItem key d ;;
              if r =? 0 then ret (Some d) else ret None
          end
      | Some _ => v <- LFUWrapper_wrapped key ;; ret (Some v)
      end
  end.

(** A [PyDict_Next] loop of [update]: [true] when a store failed. *)
Fixpoint update_loop (entries : list (K * V)) : M bool :=
  match entries with
  | [] => ret false
  | (key, value) :: rest =>
      r <- PyLFUCache_SetItem key value ;;
      if r =? 0 then update_loop rest else ret true
  end.

(** [update]: a positional dictionary and the keyword dictionary, each given
    by its entries in order (no deleted slots).  [pos] is not reset between
    the two loops. *)
Definition LFUCache_update (arg kwargs : option (list (K * V)))
    : M (option V) :=
  failed <- match arg with Some l => update_loop l | None => ret false end ;;
  if failed then ret None
  else
    let pos := match arg with Some l => length l | None => O end in
    failed' <- match kwargs with
               | Some l => update_loop (skipn pos l)
               | None => ret false
               end ;;
    if failed' then ret None else ret (Some Py_None).

(** The [for] loop of [set_capacity]: [false] when an eviction failed. *)
Fixpoint evict_loop (r : nat) : M bool :=
  match r with
  | O => ret true
  | S r' =>
      e <- LFUCache_evict ;;
      match e with
      | None => ret false
      | Some _ => evict_loop r'
      end
  end.

Definition LFUCache_set_capacity (arg : PyArg) : M (option V) :=
  let '(cap, e) := PyLong_AsLongLong arg in
  match e with Some x => PyErr_Set x | None => ret tt end ;;
  if cap <=? 0 then
    pending <- PyErr_Occurred ;;
    match pending with
    | None => PyErr_Set PyExc_ValueError
    | Some _ => ret tt
    end ;;
    ret None
  else
    c <- get_self ;;
    size <- PyLFUCache_Size ;;
    ok <- (if (cap <? capacity c) && (size >? cap)
           then evict_loop (Z.to_nat (to_int (size - cap)))
           else ret true) ;;
    if ok then
      c' <- get_self ;;
      put_self (mkCache (dict c') cap (hits c') (misses c')) ;;
      ret (Some Py_None)
    else ret None.

Definition LFUCache__store : M PyDict :=
  c <- get_self ;; ret (dict c).

Definition LFUCache_clear : M (option V) :=
  PyLFUCache_Clear ;; ret (Some Py_None).

(** [tp_iter]: an iterator over a snapshot of the keys. *)
Definition LFUCache_tp_iter : M (option (list K)) := LFUCache_keys.

(** ** The operations of a cache object, as the host calls them *)

Inductive Call : Type :=
| Call_len                                      (* len(c) *)
| Call_contains (key : K)                       (* key in c *)
| Call_getitem (key : K)                        (* c[key] *)
| Call_setitem (key : K) (value : V)            (* c[key] = value *)
| Call_delitem (key : K)                        (* del c[key] *)
| Call_iter                                     (* iter(c) *)
| Call_evict
| Call_set_capacity (arg : PyArg)
| Call_hints
| Call_lfu
| Call_get (key : K) (_default : option V)
| Call_setdefault (key : K) (_default : option V)
| Call_pop (key : K) (_default : option V)
| Call_keys
| Call_values
| Call_items
| Call_update (arg kwargs : option (list (K * V)))
| Call_clear
| Call_setnx (key : K) (callback : PyCallback)
| Call__store.

(** What a call hands back to the host. *)
Inductive PyResult : Type :=
| R_Obj (v : V)
| R_Key (k : K)
| R_Int (n : Z)
| R_Keys (l : list K)
| R_Values (l : list V)
| R_Items (l : list (K * V))
| R_Hints (h : Z * Z * Z)
| R_Store (d : PyDict).

Definition of_ptr {A} (f : A -> PyResult) (m : M (option A))
    : M (option PyResult) :=
  r <- m ;; ret (option_map f r).

(** An [int] status: [0] is success, anything else an error. *)
Definition of_status (m : M Z) : M (option PyResult) :=
  r <- m ;; ret (if r =? 0 then Some (R_Int 0) else None).

(** [exec call]: [None] when the call reports an error to the host. *)
Definition exec (call : Call) : M (option PyResult) :=
  match call with
  | Call_len => n <- PyLFUCache_Size ;; ret (Some (R_Int n))
  | Call_contains key => n <- LFUCache_Contains key ;; ret (Some (R_Int n))
  | Call_getitem key => of_ptr R_Obj (LFUCache_mp_subscript key)
  | Call_setitem key value => of_status (LFUCache_mp_ass_sub key (Some value))
  | Call_delitem key => of_status (LFUCache_mp_ass_sub key None)
  | Call_iter => of_ptr R_Keys LFUCache_tp_iter
  | Call_evict => of_ptr R_Obj LFUCache_evict
  | Call_set_capacity arg => of_ptr R_Obj (LFUCache_set_capacity arg)
  | Call_hints => h <- LFUCache_hints ;; ret (Some (R_Hints h))
  | Call_lfu => of_ptr R_Key LFUCache_lfu
  | Call_get key d => of_ptr R_Obj (LFUCache_get key d)
  | Call_setdefault key d => of_ptr R_Obj (LFUCache_setdefault key d)
  | Call_pop key d => of_ptr R_Obj (LFUCache_pop key d)
  | Call_keys => of_ptr R_Keys LFUCache_keys
  | Call_values => of_ptr R_Values LFUCache_values
  | Call_items => of_ptr R_Items LFUCache_items
  | Call_update arg kwargs => of_ptr R_Obj (LFUCache_update arg kwargs)
  | Call_clear => of_ptr R_Obj LFUCache_clear
  | Call_setnx key callback => of_ptr R_Obj (LFUCache_setnx key callback)
  | Call__store => d <- LFUCache__store ;; ret (Some (R_Store d))
  end.

(** ** Predicates used in the statements *)

(** [post m s Q]: if [m] returns from [s], the result and the final state
    satisfy [Q]. *)
Definition post {A} (m : M A) (s : Interp) (Q : A -> Interp -> Prop) : Prop :=
  match m s with
  | Done a s' => Q a s'
  | Crash | Timeout => True
  end.

(** Capacity and counters are the same in both states. *)
Definition frame (s s' : Interp) : Prop :=
  capacity (self s') = capacity (self s)
  /\ hits (self s') = hits (self s)
  /\ misses (self s') = misses (self s).

(** [None], or a key of the list. *)
Definition member (keys : list K) (o : option K) : Prop :=
  match o with
  | None => True
  | Some k => In k keys
  end.

(** The invariant of a cache: a positive capacity that bounds the number of
    entries. *)
Definition Inv (c : LFUCache) : Prop :=
  0 < capacity c /\ PyDict_Size (dict c) <= capacity c.

(** A step that leaves capacity and counters alone and keeps the invariant. *)
Definition keeps (s s' : Interp) : Prop :=
  frame s s' /\ (Inv (self s) -> Inv (self s')).

(** The state after one more call of [time(NULL)]. *)
Definition tick (s : Interp) : Interp :=
  mkInterp (self s) (err s) (S (time_calls s)) (rand_calls s).

(** The state with another dictionary. *)
Definition with_dict (d : PyDict) (s : Interp) : Interp :=
  mkInterp (mkCache d (capacity (self s)) (hits (self s)) (misses (self s)))
           (err s) (time_calls s) (rand_calls s).

(** The victim of the exact scan at clock reading [t]. *)
Definition exact_victim (t : nat) (d : PyDict) : option K :=
  snd (lfu_scan (minutes_of (time t)) d (0, None)).

(** [r] evictions in a row by the exact scan, the first one at clock
    reading [t]. *)
Fixpoint evictions (r : nat) (t : nat) (d : PyDict) : PyDict :=
  match r with
  | O => d
  | S r' =>
      match exact_victim t d with
      | Some k => evictions r' (S t) (dict_remove d k)
      | None => d
      end
  end.

(** [wp lenient m s Q]: from [s] the computation [m] does not crash and,
    when it returns, result and state satisfy [Q]; running out of draws in
    [rand_limit] is tolerated only when [lenient] is [true]. *)
Definition wp (lenient : bool) {A} (m : M A) (s : Interp)
    (Q : A -> Interp -> Prop) : Prop :=
  match m s with
  | Done a s' => Q a s'
  | Crash => False
  | Timeout => lenient = true
  end.

(** The dictionary after a visit on every entry in turn, the first one at
    clock reading [t]. *)
Fixpoint visit_all (t : nat) (d : PyDict) : PyDict :=
  match d with
  | [] => []
  | (k, w) :: d' =>
      (k, mkWrapper (wrapped w) (minutes_of (time t))
                    (to_uint32 (visit_count w + 1)))
      :: visit_all (S t) d'
  end.

(** The calls that only ask. *)
Definition is_query (call : Call) : bool :=
  match call with
  | Call_len | Call_contains _ | Call_iter | Call_hints | Call_get _ _
  | Call_keys | Call__store => true
  | _ => false
  end.

(** A key found at one of the first [bound + 1] places of a list. *)
Definition among_first (bound : Z) (keys : list K) (k : K) : Prop :=
  exists pos, 0 <= pos <= bound /\ nth_error keys (Z.to_nat pos) = Some k.

(** The part of the state that drawing random numbers leaves alone. *)
Definition same_but_draws (s s' : Interp) : Prop :=
  self s' = self s /\ err s' = err s /\ time_calls s' = time_calls s.

(** [None], or a key found at one of the first [bound + 1] places. *)
Definition sampled (bound : Z) (keys : list K) (o : option K) : Prop :=
  forall k, o = Some k -> among_first bound keys k.

(** The entry after a visit at clock reading [t]. *)
Definition visited (t : nat) (w : LFUWrapper) : LFUWrapper :=
  mkWrapper (wrapped w) (minutes_of (time t)) (to_uint32 (visit_count w + 1)).

(** The entry created for [value] at clock reading [t]. *)
Definition fresh (t : nat) (value : V) : LFUWrapper :=
  mkWrapper value (minutes_of (time t)) LFU_INIT_VAL.

(** The victim as the specification words it: the weight of every entry is
    evaluated, and the victim is the entry of strictly smallest weight, the
    first one met in iteration order when several share it.  [spec_scan]
    carries the least weight met so far and the key that has it. *)
Fixpoint spec_scan (now : Z) (d : PyDict) (best : option (Z * K))
    : option (Z * K) :=
  match d with
  | [] => best
  | (k, w) :: d' =>
      spec_scan now d'
        (match best with
         | None => Some (LFUWrapper_WEIGHT w now, k)
         | Some (m, _) =>
             if LFUWrapper_WEIGHT w now <? m
             then Some (LFUWrapper_WEIGHT w now, k) else best
         end)
  end.

Definition spec_victim (now : Z) (d : PyDict) : option K :=
  option_map snd (spec_scan now d None).

(** * Properties *)

(** ** Machine integers *)

Lemma to_uint32_small (z : Z) : 0 <= z <= UINT32_MAX -> to_uint32 z = z.
Proof. unfold to_uint32, UINT32_MAX. intros H. apply Z.mod_small. lia. Qed.

Lemma to_int_small (z : Z) : - INT_MAX - 1 <= z <= INT_MAX -> to_int z = z.
Proof.
  unfold to_int, INT_MAX. intros H.
  rewrite Z.mod_small by lia. lia.
Qed.

Lemma to_ssize_small (z : Z) :
  - PY_SSIZE_T_MAX - 1 <= z <= PY_SSIZE_T_MAX -> to_ssize z = z.
Proof.
  unfold to_ssize, PY_SSIZE_T_MAX. intros H.
  rewrite Z.mod_small by lia. lia.
Qed.

(** ** The dictionary *)

Lemma GetItem_store_same (d : PyDict) (key : K) (w w' : LFUWrapper) :
  PyDict_GetItem d key = Some w ->
  PyDict_GetItem (dict_store d key w') key = Some w'.
Proof.
  induction d as [|[k w0] d IH]; simpl; [discriminate|].
  destruct (key_eq_dec key k) as [E|N]; simpl.
  - intros _. destruct (key_eq_dec key k); [reflexivity|contradiction].
  - intros H. destruct (key_eq_dec key k); [contradiction|auto].
Qed.

Lemma GetItem_store_other (d : PyDict) (key k' : K) (w' : LFUWrapper) :
  k' <> key ->
  PyDict_GetItem (dict_store d key w') k' = PyDict_GetItem d k'.
Proof.
  intros N. induction d as [|[k w0] d IH]; simpl; [reflexivity|].
  destruct (key_eq_dec key k) as [E|N']; simpl.
  - subst k. destruct (key_eq_dec k' key); [contradiction|reflexivity].
  - destruct (key_eq_dec k' k); [reflexivity|exact IH].
Qed.

Lemma Keys_store (d : PyDict) (key : K) (w' : LFUWrapper) :
  PyDict_Keys (dict_store d key w') = PyDict_Keys d.
Proof.
  unfold PyDict_Keys. induction d as [|[k w0] d IH]; simpl; [reflexivity|].
  destruct (key_eq_dec key k); simpl; [reflexivity|now rewrite IH].
Qed.

Lemma length_store (d : PyDict) (key : K) (w' : LFUWrapper) :
  length (dict_store d key w') = length d.
Proof.
  rewrite <- (length_map fst (dict_store d key w')), <- (length_map fst d).
  fold (PyDict_Keys (dict_store d key w')). fold (PyDict_Keys d).
  now rewrite Keys_store.
Qed.

Lemma length_remove (d : PyDict) (key : K) (w : LFUWrapper) :
  PyDict_GetItem d key = Some w ->
  S (length (dict_remove d key)) = length d.
Proof.
  induction d as [|[k w0] d IH]; simpl; [discriminate|].
  destruct (key_eq_dec key k); simpl; [reflexivity|].
  intros H. now rewrite IH.
Qed.

Lemma GetItem_In (d : PyDict) (key : K) :
  In key (PyDict_Keys d) -> PyDict_GetItem d key <> None.
Proof.
  unfold PyDict_Keys. induction d as [|[k w0] d IH]; simpl; [intros []|].
  intros [E|I]; destruct (key_eq_dec key k); try discriminate; auto.
Qed.

Lemma length_SetItem_new (d : PyDict) (key : K) (w : LFUWrapper) :
  PyDict_GetItem d key = None ->
  length (PyDict_SetItem d key w) = S (length d).
Proof.
  intros H. unfold PyDict_SetItem. rewrite H, length_app. simpl. lia.
Qed.

(** ** C8: decay of the weight *)

(** C8.  For an entry that is not visited again (its [visit_count] and
    [last_visit] stay as they are), the weight at a later time is not larger
    than at an earlier one, it is never negative, and at every time [t] from
    [last_visit] on it is [visit_count - (t - last_visit)] when the elapsed
    time does not exceed [visit_count] and [0] otherwise.  Times and the
    counter are values of [unsigned int]. *)
Theorem LFUWrapper_WEIGHT_decay (w : LFUWrapper) (t1 t2 : Z) :
  0 <= visit_count w <= UINT32_MAX ->
  0 <= last_visit w <= t1 ->
  t1 < t2 <= UINT32_MAX ->
  LFUWrapper_WEIGHT w t2 <= LFUWrapper_WEIGHT w t1
  /\ 0 <= LFUWrapper_WEIGHT w t2
  /\ (forall t, last_visit w <= t <= UINT32_MAX ->
        LFUWrapper_WEIGHT w t =
        if t - last_visit w <=? visit_count w
        then visit_count w - (t - last_visit w) else 0).
Proof.
  intros Hc Hl Ht.
  assert (F : forall t, last_visit w <= t <= UINT32_MAX ->
                LFUWrapper_WEIGHT w t =
                if t - last_visit w <=? visit_count w
                then visit_count w - (t - last_visit w) else 0).
  { intros t Hr. unfold LFUWrapper_WEIGHT.
    rewrite (to_uint32_small (z := t - last_visit w)) by lia.
    destruct (Z.gtb_spec (t - last_visit w) (visit_count w));
      destruct (Z.leb_spec (t - last_visit w) (visit_count w)); try lia.
    apply to_uint32_small. lia. }
  split; [|split; [|exact F]].
  - rewrite (F t1), (F t2) by lia.
    destruct (Z.leb_spec (t1 - last_visit w) (visit_count w));
      destruct (Z.leb_spec (t2 - last_visit w) (visit_count w)); lia.
  - rewrite (F t2) by lia.
    destruct (Z.leb_spec (t2 - last_visit w) (visit_count w)); lia.
Qed.

(** ** C9: storing at a key that is present *)

(** C9.  When [key] is present, [PyLFUCache_SetItem key value] succeeds, the
    entry of [key] holds [value] with the [last_visit] and [visit_count] it
    had, every other key maps to what it did, the keys and their order (so
    the size) are the same, capacity and counters are the same, and neither
    the clock is read nor the error indicator touched: no visit is recorded
    and nothing is evicted, created or destroyed. *)
Theorem SetItem_present_in_place (s : Interp) (key : K) (value : V)
    (w : LFUWrapper) :
  PyDict_GetItem (dict (self s)) key = Some w ->
  exists s',
    PyLFUCache_SetItem key value s = Done 0 s'
    /\ PyDict_GetItem (dict (self s')) key
       = Some (mkWrapper value (last_visit w) (visit_count w))
    /\ (forall k', k' <> key ->
          PyDict_GetItem (dict (self s')) k' = PyDict_GetItem (dict (self s)) k')
    /\ PyDict_Keys (dict (self s')) = PyDict_Keys (dict (self s))
    /\ PyDict_Size (dict (self s')) = PyDict_Size (dict (self s))
    /\ capacity (self s') = capacity (self s)
    /\ hits (self s') = hits (self s)
    /\ misses (self s') = misses (self s)
    /\ err s' = err s
    /\ time_calls s' = time_calls s
    /\ rand_calls s' = rand_calls s.
Proof.
  intros H. unfold PyLFUCache_SetItem, bind, get_self. rewrite H.
  eexists. split; [reflexivity|]. simpl.
  split; [eapply GetItem_store_same; eassumption|].
  split; [intros k' N; now apply GetItem_store_other|].
  split; [apply Keys_store|].
  split; [unfold PyDict_Size; now rewrite length_store|].
  repeat split.
Qed.

(** ** C10: the read with a default *)

(** C10.  When [key] is present, [LFUCache_get key _default] returns the
    stored value and changes nothing at all: the entry keeps its
    [visit_count] and [last_visit], and the clock is not read. *)
Theorem get_present_records_no_visit (s : Interp) (key : K)
    (_default : option V) (w : LFUWrapper) :
  PyDict_GetItem (dict (self s)) key = Some w ->
  LFUCache_get key _default s = Done (Some (wrapped w)) s.
Proof.
  intros H. unfold LFUCache_get, PyLFUCache_GetItem, bind, get_self, ret.
  now rewrite H.
Qed.

(** ** Partial correctness of computations *)

Lemma post_ret {A} (a : A) (s : Interp) (Q : A -> Interp -> Prop) :
  Q a s -> post (ret a) s Q.
Proof. exact (fun H => H). Qed.

Lemma post_bind {A B} (m : M A) (f : A -> M B) (s : Interp)
    (Q : B -> Interp -> Prop) :
  post m s (fun a s1 => post (f a) s1 Q) -> post (bind m f) s Q.
Proof. unfold post, bind. destruct (m s); auto. Qed.

Lemma post_step {A B} (m : M A) (f : A -> M B) (s s1 : Interp) (a : A)
    (Q : B -> Interp -> Prop) :
  m s = Done a s1 -> post (f a) s1 Q -> post (bind m f) s Q.
Proof. unfold post, bind. intros E. now rewrite E. Qed.

Lemma post_weaken {A} (m : M A) (s : Interp) (Q Q' : A -> Interp -> Prop) :
  post m s Q -> (forall a s', Q a s' -> Q' a s') -> post m s Q'.
Proof. unfold post. destruct (m s); auto. Qed.

Lemma post_Done {A} (m : M A) (s s' : Interp) (a : A)
    (Q : A -> Interp -> Prop) :
  post m s Q -> m s = Done a s' -> Q a s'.
Proof. unfold post. intros H E. now rewrite E in H. Qed.

Lemma frame_refl (s : Interp) : frame s s.
Proof. repeat split. Qed.

Lemma frame_trans (s1 s2 s3 : Interp) :
  frame s1 s2 -> frame s2 s3 -> frame s1 s3.
Proof.
  unfold frame. intros (C1 & H1 & M1) (C2 & H2 & M2).
  repeat split; congruence.
Qed.

Lemma frame_self (s s' : Interp) : self s' = self s -> frame s s'.
Proof. unfold frame. intros E. now rewrite E. Qed.

(** A computation that starts with a straight-line step. *)
Ltac step :=
  eapply post_step; [reflexivity|];
  cbn [self err time_calls rand_calls dict capacity hits misses fst snd].

Lemma wrapped_spec (key : K) (s : Interp) :
  post (LFUWrapper_wrapped key) s (fun _ s' =>
    frame s s'
    /\ PyDict_Keys (dict (self s')) = PyDict_Keys (dict (self s))).
Proof.
  unfold post, LFUWrapper_wrapped, bind, get_self.
  destruct (PyDict_GetItem (dict (self s)) key); simpl; [|exact I].
  split; [repeat split|apply Keys_store].
Qed.

Lemma rand_limit_loop_spec (fuel : nat) (divisor limit : Z) (s : Interp) :
  post (rand_limit_loop fuel divisor limit) s (fun _ s' => self s' = self s).
Proof.
  revert s. induction fuel as [|fuel IH]; intros s; simpl; [exact I|].
  step. destruct (_ >? _); [|reflexivity].
  eapply post_weaken; [apply IH|]. now intros.
Qed.

Lemma rand_limit_spec (limit : Z) (s : Interp) :
  post (rand_limit limit) s (fun _ s' => self s' = self s).
Proof.
  unfold rand_limit. destruct (_ || _); [exact I|].
  destruct (_ =? 0); [exact I|]. apply rand_limit_loop_spec.
Qed.

(** ** Victim selection *)

Lemma lfu_compare_member (now : Z) (key : K) (w : LFUWrapper)
    (st : Z * option K) (keys : list K) :
  In key keys -> member keys (snd st) ->
  member keys (snd (lfu_compare now key w st)).
Proof.
  intros I Hm. unfold lfu_compare. destruct (_ || _); simpl; assumption.
Qed.

Lemma lfu_compare_some (now : Z) (key : K) (w : LFUWrapper)
    (st : Z * option K) :
  snd st <> None \/ fst st = 0 -> snd (lfu_compare now key w st) <> None.
Proof.
  unfold lfu_compare. intros [H|H].
  - destruct (_ || _); simpl; [discriminate|assumption].
  - rewrite H. simpl. discriminate.
Qed.

Lemma lfu_scan_member (now : Z) (keys : list K) (d : PyDict)
    (st : Z * option K) :
  (forall k, In k (PyDict_Keys d) -> In k keys) ->
  member keys (snd st) -> member keys (snd (lfu_scan now d st)).
Proof.
  revert st. induction d as [|[k w] d IH]; intros st Hin Hm; simpl; [assumption|].
  apply IH.
  - intros k' I. apply Hin. now right.
  - apply lfu_compare_member; [apply Hin; now left|assumption].
Qed.

Lemma lfu_scan_some (now : Z) (d : PyDict) (st : Z * option K) :
  snd st <> None -> snd (lfu_scan now d st) <> None.
Proof.
  revert st. induction d as [|[k w] d IH]; intros st H; simpl; [assumption|].
  apply IH, lfu_compare_some. now left.
Qed.

Lemma lfu_scan_nonempty (now : Z) (d : PyDict) :
  d <> [] -> snd (lfu_scan now d (0, None)) <> None.
Proof.
  destruct d as [|[k w] d]; [congruence|]. intros _. simpl.
  apply lfu_scan_some, lfu_compare_some. now right.
Qed.

Lemma lfu_buckets_spec (todo : nat) (i now b_size : Z) (d : PyDict)
    (keylist : list K) (st : Z * option K) (key : option K) (s : Interp) :
  member keylist (snd st) -> member keylist key ->
  post (lfu_buckets todo i now b_size d keylist st key) s (fun res s' =>
    self s' = self s
    /\ member keylist (snd (fst res)) /\ member keylist (snd res)).
Proof.
  revert i st key s.
  induction todo as [|todo IH]; intros i st key s Hst Hkey; simpl.
  - apply post_ret. auto.
  - apply post_bind. eapply post_weaken; [apply rand_limit_spec|].
    intros r s1 E1. simpl. apply post_bind.
    unfold PyList_GET_ITEM.
    destruct (_ <? 0); [exact I|].
    destruct (nth_error keylist _) as [k|] eqn:En; [|exact I].
    apply post_ret.
    destruct (PyDict_GetItem d k) as [w|]; [|exact I].
    eapply post_weaken.
    + apply IH; [|apply (nth_error_In _ _ En)].
      apply lfu_compare_member; [apply (nth_error_In _ _ En)|assumption].
    + intros res s2 (E2 & M1 & M2). rewrite E2, E1. auto.
Qed.

Lemma length_zero_nil (d : PyDict) : PyDict_Size d = 0 -> d = [].
Proof. unfold PyDict_Size. destruct d; simpl; [reflexivity|lia]. Qed.

Lemma lfu_remainder_spec (now dict_len b_size : Z) (d : PyDict)
    (keylist : list K) (st : Z * option K) (key : option K) (s : Interp) :
  member keylist (snd st) -> member keylist key ->
  post (lfu_remainder now dict_len b_size d keylist st key) s (fun rv s' =>
    self s' = self s /\ member keylist rv).
Proof.
  intros M1 M2. unfold lfu_remainder.
  destruct (_ =? 0); [apply post_ret; auto|].
  apply post_bind. unfold PyList_GetItem.
  destruct (_ <? 0); [step; apply post_ret; exact I|].
  destruct (nth_error _ _) as [k|]; [|step; apply post_ret; exact I].
  apply post_ret. apply post_bind. unfold weight_at.
  destruct (PyDict_GetItem _ k); [|exact I].
  apply post_ret. destruct (_ || _); apply post_ret; auto.
Qed.

Lemma lfu_spec (s : Interp) :
  post LFUCache_lfu s (fun r s' =>
    self s' = self s
    /\ match r with
       | None => dict (self s) = []
       | Some k => In k (PyDict_Keys (dict (self s)))
       end).
Proof.
  unfold LFUCache_lfu. step. step. step.
  destruct (Z.eqb_spec (PyDict_Size (dict (self s))) 0) as [E|N].
  - step. apply post_ret. split; [reflexivity|now apply length_zero_nil].
  - destruct (_ <? LFU_BUCKET_SIZE).
    + destruct (snd (lfu_scan _ _ _)) as [rv|] eqn:Es; [|exact I].
      apply post_ret. split; [reflexivity|].
      change (member (PyDict_Keys (dict (self s))) (Some rv)).
      rewrite <- Es. apply lfu_scan_member; simpl; auto.
    + cbv zeta. apply post_bind. eapply post_weaken.
      { apply lfu_buckets_spec; exact I. }
      intros [st key] s1 (E1 & M1 & M2).
      cbn [fst snd self] in *.
      apply post_bind. eapply post_weaken.
      { apply lfu_remainder_spec; assumption. }
      intros rv s2 (E2 & M).
      destruct rv as [k|]; [|exact I].
      apply post_ret. split; [congruence|exact M].
Qed.

(** ** Effect of each function on capacity, counters and size *)

Lemma keeps_refl (s : Interp) : keeps s s.
Proof. split; [apply frame_refl|auto]. Qed.

Lemma keeps_trans (s1 s2 s3 : Interp) :
  keeps s1 s2 -> keeps s2 s3 -> keeps s1 s3.
Proof.
  intros [F1 I1] [F2 I2]. split; [eapply frame_trans; eassumption|auto].
Qed.

Lemma keeps_self (s s' : Interp) : self s' = self s -> keeps s s'.
Proof. intros E. split; [now apply frame_self|now rewrite E]. Qed.

Lemma keeps_size (s s' : Interp) :
  frame s s' ->
  (length (dict (self s')) <= length (dict (self s)))%nat ->
  keeps s s'.
Proof.
  intros F L. split; [exact F|]. destruct F as (Fc & _ & _).
  unfold Inv, PyDict_Size. rewrite Fc. lia.
Qed.

Lemma Keys_length (d d' : PyDict) :
  PyDict_Keys d' = PyDict_Keys d -> length d' = length d.
Proof.
  unfold PyDict_Keys. intros E.
  rewrite <- (length_map fst d'), <- (length_map fst d). now rewrite E.
Qed.

Lemma length_SetItem_le (d : PyDict) (key : K) (w : LFUWrapper) :
  (length (PyDict_SetItem d key w) <= S (length d))%nat.
Proof.
  unfold PyDict_SetItem. destruct (PyDict_GetItem d key).
  - rewrite length_store. lia.
  - rewrite length_app. simpl. lia.
Qed.

Lemma evict_spec (s : Interp) :
  post LFUCache_evict s (fun r s' =>
    r = Some Py_None /\ frame s s'
    /\ length (dict (self s')) = pred (length (dict (self s)))).
Proof.
  unfold LFUCache_evict. apply post_bind.
  eapply post_weaken; [apply lfu_spec|].
  intros [k|] s1 [E H].
  - step. rewrite E.
    pose proof (GetItem_In _ _ H) as G. unfold PyDict_DelItem.
    destruct (PyDict_GetItem (dict (self s)) k) as [w|] eqn:Ew; [|congruence].
    step. apply post_ret. cbn. rewrite E.
    split; [reflexivity|]. split; [repeat split|].
    pose proof (length_remove _ _ Ew). lia.
  - step. apply post_ret. cbn. rewrite E, H.
    split; [reflexivity|]. split; [repeat split|reflexivity].
Qed.

Lemma evict_keeps (s : Interp) :
  post LFUCache_evict s (fun _ s' => keeps s s').
Proof.
  eapply post_weaken; [apply evict_spec|].
  intros r s' (_ & F & L). apply keeps_size; [exact F|lia].
Qed.

Lemma DelItem_spec (key : K) (s : Interp) :
  post (PyLFUCache_DelItem key) s (fun _ s' => keeps s s').
Proof.
  unfold PyLFUCache_DelItem. step.
  destruct (PyDict_GetItem (dict (self s)) key) as [w|] eqn:Ew.
  - step. unfold PyDict_DelItem. rewrite Ew. step. apply post_ret.
    apply keeps_size; [repeat split|]. cbn.
    pose proof (length_remove _ _ Ew). lia.
  - step. apply post_ret. now apply keeps_self.
Qed.

Lemma SetItem_spec (key : K) (value : V) (s : Interp) :
  post (PyLFUCache_SetItem key value) s (fun _ s' => keeps s s').
Proof.
  unfold PyLFUCache_SetItem. step.
  destruct (PyDict_GetItem (dict (self s)) key) as [w|] eqn:Ew.
  - step. apply post_ret. apply keeps_size; [repeat split|].
    cbn. rewrite length_store. lia.
  - step. apply post_bind.
    destruct (Z.gtb_spec (PyDict_Size (dict (self s)) + 1) (capacity (self s)))
      as [G|G].
    + eapply post_weaken; [apply evict_spec|].
      intros r s1 (Er & (Fc & Fh & Fm) & L). subst r.
      step. step. step. apply post_ret.
      split; [repeat split; cbn; assumption|].
      unfold Inv, PyDict_Size. cbn. rewrite Fc. intros [Hc Hs].
      split; [exact Hc|].
      pose proof (length_SetItem_le (dict (self s1)) key
        (mkWrapper value (minutes_of (time (time_calls s1))) LFU_INIT_VAL)).
      unfold PyDict_Size in *. lia.
    + apply post_ret. step. step. step. apply post_ret.
      split; [repeat split|].
      unfold Inv, PyDict_Size. cbn. intros [Hc Hs].
      split; [exact Hc|].
      pose proof (length_SetItem_le (dict (self s)) key
        (mkWrapper value (minutes_of (time (time_calls s))) LFU_INIT_VAL)).
      unfold PyDict_Size in *. lia.
Qed.

Lemma wrapped_keeps (key : K) (s : Interp) :
  post (LFUWrapper_wrapped key) s (fun _ s' => keeps s s').
Proof.
  eapply post_weaken; [apply wrapped_spec|].
  intros _ s' [F E]. apply keeps_size; [exact F|].
  rewrite (Keys_length _ _ E). lia.
Qed.

Lemma wrapped_each_keeps (keys : list K) (s : Interp) :
  post (wrapped_each keys) s (fun _ s' => keeps s s').
Proof.
  revert s. induction keys as [|k keys IH]; intros s; simpl.
  - apply post_ret, keeps_refl.
  - apply post_bind. eapply post_weaken; [apply wrapped_keeps|].
    intros v s1 K1. apply post_bind.
    eapply post_weaken; [apply IH|].
    intros rest s2 K2. apply post_ret. exact (keeps_trans K1 K2).
Qed.

Lemma update_loop_keeps (entries : list (K * V)) (s : Interp) :
  post (update_loop entries) s (fun _ s' => keeps s s').
Proof.
  revert s. induction entries as [|[k v] entries IH]; intros s; simpl.
  - apply post_ret, keeps_refl.
  - apply post_bind. eapply post_weaken; [apply SetItem_spec|].
    intros r s1 K1. destruct (r =? 0).
    + eapply post_weaken; [apply IH|].
      intros b s2 K2. exact (keeps_trans K1 K2).
    + apply post_ret. exact K1.
Qed.

Lemma evict_loop_spec (r : nat) (s : Interp) :
  post (evict_loop r) s (fun ok s' =>
    ok = true /\ frame s s'
    /\ length (dict (self s')) = (length (dict (self s)) - r)%nat).
Proof.
  revert s. induction r as [|r IH]; intros s; simpl.
  - apply post_ret. split; [reflexivity|]. split; [apply frame_refl|lia].
  - apply post_bind. eapply post_weaken; [apply evict_spec|].
    intros e s1 (Ee & F1 & L1). subst e.
    eapply post_weaken; [apply IH|].
    intros ok s2 (Eo & F2 & L2).
    split; [exact Eo|]. split; [exact (frame_trans F1 F2)|lia].
Qed.

Lemma post_of_ptr {A} (f : A -> PyResult) (m : M (option A)) (s : Interp)
    (Q : Interp -> Prop) :
  post m s (fun _ s' => Q s') -> post (of_ptr f m) s (fun _ s' => Q s').
Proof.
  intros H. unfold of_ptr. apply post_bind.
  eapply post_weaken; [exact H|]. intros a s' HQ. exact HQ.
Qed.

Lemma post_of_status (m : M Z) (s : Interp) (Q : Interp -> Prop) :
  post m s (fun _ s' => Q s') -> post (of_status m) s (fun _ s' => Q s').
Proof.
  intros H. unfold of_status. apply post_bind.
  eapply post_weaken; [exact H|]. intros a s' HQ. exact HQ.
Qed.

Lemma get_keeps (key : K) (d : option V) (s : Interp) :
  post (LFUCache_get key d) s (fun _ s' => keeps s s').
Proof.
  unfold LFUCache_get. step.
  destruct (PyDict_GetItem _ _); [|destruct d]; apply post_ret, keeps_refl.
Qed.

Lemma pop_keeps (key : K) (d : option V) (s : Interp) :
  post (LFUCache_pop key d) s (fun _ s' => keeps s s').
Proof.
  unfold LFUCache_pop. step.
  destruct (PyDict_GetItem _ _).
  - apply post_bind. eapply post_weaken; [apply DelItem_spec|].
    intros r s1 K1. destruct (r =? 0); apply post_ret; exact K1.
  - destruct d; apply post_ret, keeps_refl.
Qed.

Lemma setdefault_keeps (key : K) (d : option V) (s : Interp) :
  post (LFUCache_setdefault key d) s (fun _ s' => keeps s s').
Proof.
  unfold LFUCache_setdefault. step.
  destruct (PyDict_GetItem _ _).
  - apply post_bind. eapply post_weaken; [apply wrapped_keeps|].
    intros v s1 K1. apply post_ret. exact K1.
  - apply post_bind. eapply post_weaken; [apply SetItem_spec|].
    intros r s1 K1. destruct (r =? 0); apply post_ret; exact K1.
Qed.

Lemma setnx_keeps (key : K) (callback : PyCallback) (s : Interp) :
  post (LFUCache_setnx key callback) s (fun _ s' => keeps s s').
Proof.
  unfold LFUCache_setnx. destruct callback as [|[v|e]].
  - step. apply post_ret. now apply keeps_self.
  - step. destruct (PyDict_GetItem _ _).
    + apply post_bind. eapply post_weaken; [apply wrapped_keeps|].
      intros v' s1 K1. apply post_ret. exact K1.
    + step. apply post_bind. eapply post_weaken; [apply SetItem_spec|].
      intros r s1 K1. destruct (r =? 0); apply post_ret; exact K1.
  - step. destruct (PyDict_GetItem _ _).
    + apply post_bind. eapply post_weaken; [apply wrapped_keeps|].
      intros v' s1 K1. apply post_ret. exact K1.
    + step. exact I.
Qed.

Lemma update_keeps (arg kwargs : option (list (K * V))) (s : Interp) :
  post (LFUCache_update arg kwargs) s (fun _ s' => keeps s s').
Proof.
  unfold LFUCache_update. apply post_bind.
  apply post_weaken with (Q := fun _ s1 => keeps s s1).
  { destruct arg; [apply update_loop_keeps|apply post_ret, keeps_refl]. }
  intros failed s1 K1. destruct failed; [apply post_ret; exact K1|].
  apply post_bind.
  apply post_weaken with (Q := fun _ s2 => keeps s1 s2).
  { destruct kwargs; [apply update_loop_keeps|apply post_ret, keeps_refl]. }
  intros failed' s2 K2.
  destruct failed'; apply post_ret; exact (keeps_trans K1 K2).
Qed.

Lemma values_keeps (s : Interp) :
  post LFUCache_values s (fun _ s' => keeps s s').
Proof.
  unfold LFUCache_values. step. apply post_bind.
  eapply post_weaken; [apply wrapped_each_keeps|].
  intros kvs s1 K1. apply post_ret. exact K1.
Qed.

Lemma items_keeps (s : Interp) :
  post LFUCache_items s (fun _ s' => keeps s s').
Proof.
  unfold LFUCache_items. step. apply post_bind.
  eapply post_weaken; [apply wrapped_each_keeps|].
  intros kvs s1 K1. apply post_ret. exact K1.
Qed.

Lemma lfu_keeps (s : Interp) :
  post LFUCache_lfu s (fun _ s' => keeps s s').
Proof.
  eapply post_weaken; [apply lfu_spec|].
  intros r s' [E _]. now apply keeps_self.
Qed.

Lemma mp_subscript_spec (key : K) (s : Interp) :
  post (LFUCache_mp_subscript key) s (fun _ s' =>
    capacity (self s') = capacity (self s)
    /\ length (dict (self s')) = length (dict (self s))).
Proof.
  unfold LFUCache_mp_subscript. step. step.
  destruct (PyDict_GetItem _ _).
  - step. apply post_bind. eapply post_weaken; [apply wrapped_spec|].
    intros v s1 [(Fc & _ & _) E]. apply post_ret.
    cbn in Fc, E. split; [exact Fc|now apply Keys_length].
  - step. step. apply post_ret. split; reflexivity.
Qed.

Lemma set_capacity_spec (arg : PyArg) (s : Interp) :
  post (LFUCache_set_capacity arg) s (fun _ s' =>
    hits (self s') = hits (self s)
    /\ misses (self s') = misses (self s)
    /\ (Inv (self s) -> PyDict_Size (dict (self s)) <= INT_MAX ->
        Inv (self s'))).
Proof.
  unfold LFUCache_set_capacity.
  destruct (PyLong_AsLongLong arg) as [cap e].
  apply post_bind.
  apply post_weaken with (Q := fun _ s1 => self s1 = self s).
  { destruct e; reflexivity. }
  intros _ s1 E1.
  destruct (Z.leb_spec cap 0) as [Hle|Hgt].
  - step. apply post_bind.
    apply post_weaken with (Q := fun _ s2 => self s2 = self s).
    { destruct (err s1); exact E1. }
    intros _ s2 E2. apply post_ret. rewrite E2. auto.
  - step. step. apply post_bind. rewrite E1.
    destruct ((cap <? capacity (self s))
              && (PyDict_Size (dict (self s)) >? cap)) eqn:C.
    + eapply post_weaken; [apply evict_loop_spec|].
      intros ok s2 (Eo & (Fc & Fh & Fm) & L). subst ok.
      step. step. apply post_ret. cbn.
      rewrite E1 in *.
      split; [exact Fh|]. split; [exact Fm|].
      intros _ Hint. apply andb_prop in C. destruct C as [_ C].
      apply Z.gtb_lt in C. unfold Inv, PyDict_Size in *. cbn.
      split; [exact Hgt|].
      rewrite to_int_small in L by (unfold INT_MAX in *; lia). lia.
    + apply post_ret. step. step. apply post_ret. cbn. rewrite E1.
      split; [reflexivity|]. split; [reflexivity|].
      intros [Hc Hs] _. unfold Inv. cbn. split; [exact Hgt|].
      apply andb_false_iff in C. destruct C as [C|C].
      * apply Z.ltb_ge in C. lia.
      * rewrite Z.gtb_ltb in C. apply Z.ltb_ge in C. lia.
Qed.

(** The calls that leave capacity and counters alone. *)
Lemma exec_keeps (call : Call) (s : Interp) :
  (forall key, call <> Call_getitem key) ->
  (forall arg, call <> Call_set_capacity arg) ->
  call <> Call_clear ->
  post (exec call) s (fun _ s' => keeps s s').
Proof.
  intros N1 N2 N3.
  destruct call; cbn [exec];
    try (exfalso; congruence);
    try (apply post_of_ptr with (Q := keeps s));
    try (apply post_of_status with (Q := keeps s)).
  - step. apply post_ret, keeps_refl.
  - step. apply post_ret, keeps_refl.
  - apply SetItem_spec.
  - apply DelItem_spec.
  - unfold LFUCache_tp_iter, LFUCache_keys. step. apply post_ret, keeps_refl.
  - apply evict_keeps.
  - step. apply post_ret, keeps_refl.
  - apply lfu_keeps.
  - apply get_keeps.
  - apply setdefault_keeps.
  - apply pop_keeps.
  - unfold LFUCache_keys. step. apply post_ret, keeps_refl.
  - apply values_keeps.
  - apply items_keeps.
  - apply update_keeps.
  - apply setnx_keeps.
  - step. apply post_ret, keeps_refl.
Qed.

(** ** Runs of the exact scan *)

Lemma bind_Done {A B} (m : M A) (f : A -> M B) (s s1 : Interp) (a : A) :
  m s = Done a s1 -> bind m f s = f a s1.
Proof. unfold bind. intros E. now rewrite E. Qed.

(** Run the straight-line step at the head of a computation. *)
Ltac run := erewrite bind_Done; [|reflexivity].

Lemma GetItem_remove_None (d : PyDict) (key k : K) :
  PyDict_GetItem d key = None -> PyDict_GetItem (dict_remove d k) key = None.
Proof.
  induction d as [|[k0 w0] d IH]; simpl; [reflexivity|].
  destruct (key_eq_dec key k0); [discriminate|].
  intros H. destruct (key_eq_dec k k0); simpl; [exact H|].
  destruct (key_eq_dec key k0); [contradiction|auto].
Qed.

Lemma exact_victim_In (t : nat) (d : PyDict) :
  d <> [] -> exists k, exact_victim t d = Some k /\ In k (PyDict_Keys d).
Proof.
  intros N. unfold exact_victim.
  destruct (snd (lfu_scan (minutes_of (time t)) d (0, None))) as [k|] eqn:E.
  - exists k. split; [reflexivity|].
    change (member (PyDict_Keys d) (Some k)). rewrite <- E.
    apply lfu_scan_member; simpl; auto.
  - exfalso. now apply (lfu_scan_nonempty (minutes_of (time t)) N).
Qed.

Lemma lfu_exact (s : Interp) (k : K) :
  PyDict_Size (dict (self s)) < LFU_BUCKET_SIZE ->
  exact_victim (time_calls s) (dict (self s)) = Some k ->
  LFUCache_lfu s = Done (Some k) (tick s).
Proof.
  intros Hs Ev. unfold LFUCache_lfu.
  run. run. run. cbn [self dict].
  destruct (Z.eqb_spec (PyDict_Size (dict (self s))) 0) as [E|N].
  - apply length_zero_nil in E. rewrite E in Ev. discriminate.
  - destruct (Z.ltb_spec (PyDict_Size (dict (self s))) LFU_BUCKET_SIZE);
      [|lia].
    unfold exact_victim in Ev. rewrite Ev. reflexivity.
Qed.

Lemma evict_exact (s : Interp) (k : K) :
  PyDict_Size (dict (self s)) < LFU_BUCKET_SIZE ->
  exact_victim (time_calls s) (dict (self s)) = Some k ->
  In k (PyDict_Keys (dict (self s))) ->
  LFUCache_evict s
  = Done (Some Py_None) (tick (with_dict (dict_remove (dict (self s)) k) s)).
Proof.
  intros Hs Ev Hin. unfold LFUCache_evict.
  rewrite (@bind_Done _ _ _ _ _ _ _ (lfu_exact s Hs Ev)).
  run. cbn [self dict tick].
  unfold PyDict_DelItem.
  destruct (PyDict_GetItem (dict (self s)) k) eqn:G.
  - reflexivity.
  - exfalso. now apply (GetItem_In _ _ Hin).
Qed.

Lemma evict_loop_exact (r : nat) (s : Interp) :
  PyDict_Size (dict (self s)) < LFU_BUCKET_SIZE ->
  (r <= length (dict (self s)))%nat ->
  evict_loop r s
  = Done true
      (mkInterp (mkCache (evictions r (time_calls s) (dict (self s)))
                         (capacity (self s)) (hits (self s)) (misses (self s)))
                (err s) (r + time_calls s) (rand_calls s))
    /\ length (evictions r (time_calls s) (dict (self s)))
       = (length (dict (self s)) - r)%nat.
Proof.
  revert s. induction r as [|r IH]; intros s Hs Hr.
  - simpl. split; [destruct s as [[d c h m] e t n]; reflexivity|lia].
  - assert (N : dict (self s) <> []).
    { intros E. rewrite E in Hr. simpl in Hr. lia. }
    destruct (exact_victim_In (time_calls s) N) as (k & Ev & Hin).
    destruct (PyDict_GetItem (dict (self s)) k) as [w|] eqn:G;
      [|exfalso; now apply (GetItem_In _ _ Hin)].
    pose proof (length_remove _ _ G) as L.
    cbn [evict_loop evictions]. rewrite Ev.
    rewrite (@bind_Done _ _ _ _ _ _ _ (evict_exact s Hs Ev Hin)).
    destruct (IH (tick (with_dict (dict_remove (dict (self s)) k) s)))
      as [E1 E2].
    + unfold PyDict_Size in *. cbn. lia.
    + cbn. lia.
    + cbn in E1, E2. rewrite E1. split.
      * f_equal. f_equal. lia.
      * rewrite E2. lia.
Qed.

Lemma PyLong_AsLongLong_index (arg : PyArg) (n : Z) :
  PyNumber_Index arg = inl n ->
  LLONG_MIN <= n <= LLONG_MAX -> PyLong_AsLongLong arg = (n, None).
Proof.
  intros E [H1 H2]. unfold PyLong_AsLongLong. rewrite E.
  destruct (Z.leb_spec LLONG_MIN n); [|lia].
  destruct (Z.leb_spec n LLONG_MAX); [reflexivity|lia].
Qed.

Lemma PyLong_AsLongLong_in_range (n : Z) :
  LLONG_MIN <= n <= LLONG_MAX -> PyLong_AsLongLong (PyLong n) = (n, None).
Proof. apply PyLong_AsLongLong_index. reflexivity. Qed.

(** ** The exact scan when no weight is zero *)

Lemma lfu_scan_positive (now : Z) (d : PyDict) (min : Z) (rv : option K) :
  0 < min ->
  (forall k w, In (k, w) d -> 0 < LFUWrapper_WEIGHT w now) ->
  (lfu_scan now d (min, rv) = (min, rv)
   /\ forall k w, In (k, w) d -> min <= LFUWrapper_WEIGHT w now)
  \/ exists d1 k w d2,
       d = d1 ++ (k, w) :: d2
       /\ lfu_scan now d (min, rv) = (LFUWrapper_WEIGHT w now, Some k)
       /\ LFUWrapper_WEIGHT w now < min
       /\ (forall k' w', In (k', w') d1 ->
             LFUWrapper_WEIGHT w now < LFUWrapper_WEIGHT w' now)
       /\ (forall k' w', In (k', w') d2 ->
             LFUWrapper_WEIGHT w now <= LFUWrapper_WEIGHT w' now).
Proof.
  revert min rv. induction d as [|[k1 w1] d IH]; intros min rv Hmin Hpos.
  - left. split; [reflexivity|]. intros k w [].
  - assert (Hpos' : forall k w, In (k, w) d -> 0 < LFUWrapper_WEIGHT w now).
    { intros k w I. apply (Hpos k w). now right. }
    assert (H1 : 0 < LFUWrapper_WEIGHT w1 now).
    { apply (Hpos k1 w1). now left. }
    cbn [lfu_scan]. unfold lfu_compare. cbn [fst snd].
    destruct (Z.eqb_spec min 0) as [E|_]; [lia|]. cbn [orb].
    destruct (Z.ltb_spec (LFUWrapper_WEIGHT w1 now) min) as [L|G].
    + right.
      destruct (IH (LFUWrapper_WEIGHT w1 now) (Some k1) H1 Hpos')
        as [[E A]|(d1 & k & w & d2 & Ed & E & Lt & B & A)].
      * exists [], k1, w1, d. split; [reflexivity|]. split; [exact E|].
        split; [exact L|]. split; [intros k' w' []|exact A].
      * exists ((k1, w1) :: d1), k, w, d2. rewrite Ed.
        split; [reflexivity|]. rewrite <- Ed. split; [exact E|].
        split; [lia|]. split; [|exact A].
        intros k' w' [I|I]; [injection I as _ <-; exact Lt|now apply (B k')].
    + destruct (IH min rv Hmin Hpos')
        as [[E A]|(d1 & k & w & d2 & Ed & E & Lt & B & A)].
      * left. split; [exact E|].
        intros k w [I|I]; [injection I as _ <-; exact G|now apply (A k)].
      * right. exists ((k1, w1) :: d1), k, w, d2. rewrite Ed.
        split; [reflexivity|]. rewrite <- Ed. split; [exact E|].
        split; [exact Lt|]. split; [|exact A].
        intros k' w' [I|I]; [injection I as _ <-; lia|now apply (B k')].
Qed.

(** When every entry has a weight above zero, the exact scan selects the
    first entry of least weight. *)
Lemma exact_victim_first_minimum (t : nat) (d : PyDict) :
  d <> [] ->
  (forall k w, In (k, w) d -> 0 < LFUWrapper_WEIGHT w (minutes_of (time t))) ->
  exists d1 k w d2,
    d = d1 ++ (k, w) :: d2
    /\ exact_victim t d = Some k
    /\ (forall k' w', In (k', w') d1 ->
          LFUWrapper_WEIGHT w (minutes_of (time t))
          < LFUWrapper_WEIGHT w' (minutes_of (time t)))
    /\ (forall k' w', In (k', w') d2 ->
          LFUWrapper_WEIGHT w (minutes_of (time t))
          <= LFUWrapper_WEIGHT w' (minutes_of (time t))).
Proof.
  destruct d as [|[k1 w1] d]; [congruence|]. intros _ Hpos.
  assert (H1 : 0 < LFUWrapper_WEIGHT w1 (minutes_of (time t))).
  { apply (Hpos k1 w1). now left. }
  assert (Hpos' : forall k w, In (k, w) d ->
                    0 < LFUWrapper_WEIGHT w (minutes_of (time t))).
  { intros k w I. apply (Hpos k w). now right. }
  unfold exact_victim. cbn [lfu_scan]. unfold lfu_compare at 1.
  cbn [fst snd Z.eqb orb].
  destruct (@lfu_scan_positive (minutes_of (time t)) d _ (Some k1) H1 Hpos')
    as [[E A]|(d1 & k & w & d2 & Ed & E & Lt & B & A)].
  - exists [], k1, w1, d. rewrite E. split; [reflexivity|].
    split; [reflexivity|]. split; [intros k' w' []|exact A].
  - exists ((k1, w1) :: d1), k, w, d2. rewrite E, Ed.
    split; [reflexivity|]. split; [reflexivity|]. split; [|exact A].
    intros k' w' [I|I]; [injection I as _ <-; exact Lt|now apply (B k')].
Qed.

(** ** Shrinking the capacity in the exact regime *)

(** X30.  In the exact-scan regime (fewer than 256 entries), for a cache
    within its capacity and a positive [cap] below its size,
    [set_capacity cap] succeeds; the dictionary it leaves is the one obtained
    by [size - cap] evictions in a row, each removing the key that
    [LFUCache_lfu] returns at that moment, with a clock reading of its own;
    its size is [cap]; the capacity is [cap]; the counters are as before. *)
Theorem set_capacity_shrinks_exact (s : Interp) (cap : Z) :
  0 < cap ->
  cap < PyDict_Size (dict (self s)) ->
  PyDict_Size (dict (self s)) < LFU_BUCKET_SIZE ->
  PyDict_Size (dict (self s)) <= capacity (self s) ->
  exists s',
    LFUCache_set_capacity (PyLong cap) s = Done (Some Py_None) s'
    /\ dict (self s')
       = evictions (Z.to_nat (PyDict_Size (dict (self s)) - cap))
                   (time_calls s) (dict (self s))
    /\ PyDict_Size (dict (self s')) = cap
    /\ capacity (self s') = cap
    /\ hits (self s') = hits (self s)
    /\ misses (self s') = misses (self s).
Proof.
  intros Hpos Hlt Hsmall Hinv.
  assert (Hb : PyDict_Size (dict (self s)) < 256) by exact Hsmall.
  unfold LFUCache_set_capacity.
  rewrite PyLong_AsLongLong_in_range
    by (unfold LLONG_MIN, LLONG_MAX; lia).
  run. destruct (Z.leb_spec cap 0); [lia|].
  run. run. cbn [self dict].
  destruct (Z.ltb_spec cap (capacity (self s))); [|lia].
  destruct (Z.gtb_spec (PyDict_Size (dict (self s))) cap); [|lia].
  cbn [andb].
  rewrite to_int_small by (unfold INT_MAX; lia).
  destruct (@evict_loop_exact
              (Z.to_nat (PyDict_Size (dict (self s)) - cap)) s Hsmall)
    as [E L].
  { unfold PyDict_Size. lia. }
  rewrite (@bind_Done _ _ _ _ _ _ _ E).
  run. run. eexists. split; [reflexivity|]. cbn.
  split; [reflexivity|]. split; [|repeat split].
  unfold PyDict_Size in *. rewrite L. lia.
Qed.

(** ** The size within the capacity *)

Lemma clear_Done (s : Interp) :
  LFUCache_clear s
  = Done (Some Py_None)
      (mkInterp (mkCache [] (capacity (self s)) 0 0)
                (err s) (time_calls s) (rand_calls s)).
Proof. reflexivity. Qed.

Lemma SetItem_full_exact (s : Interp) (key : K) (value : V) :
  PyDict_GetItem (dict (self s)) key = None ->
  Inv (self s) ->
  PyDict_Size (dict (self s)) + 1 > capacity (self s) ->
  PyDict_Size (dict (self s)) < LFU_BUCKET_SIZE ->
  exists victim,
    exact_victim (time_calls s) (dict (self s)) = Some victim
    /\ PyLFUCache_SetItem key value s
       = Done 0
           (tick (tick (with_dict
              (dict_remove (dict (self s)) victim
               ++ [(key, mkWrapper value
                           (minutes_of (time (S (time_calls s))))
                           LFU_INIT_VAL)]) s))).
Proof.
  intros G [Hc Hs] Hfull Hsmall.
  assert (N : dict (self s) <> []).
  { intros E. rewrite E in Hfull. unfold PyDict_Size in Hfull.
    simpl in Hfull. lia. }
  destruct (exact_victim_In (time_calls s) N) as (k & Ev & Hin).
  exists k. split; [exact Ev|].
  unfold PyLFUCache_SetItem. run. rewrite G. run. cbn [self dict].
  destruct (Z.gtb_spec (PyDict_Size (dict (self s)) + 1) (capacity (self s)));
    [|lia].
  rewrite (@bind_Done _ _ _ _ _ _ _ (evict_exact s Hsmall Ev Hin)).
  run. run. run. cbn.
  unfold PyDict_SetItem. rewrite (@GetItem_remove_None _ _ k G). reflexivity.
Qed.

(** X29.  The constructor leaves a cache with a positive capacity and no
    more entries than that; every call that returns from such a cache,
    with or without an error, leaves such a cache again (for
    [set_capacity], which keeps the number of evictions in a C [int],
    provided the number of entries fits in an [int]).  In particular,
    storing a new key into a full cache (exact-scan regime) first evicts the
    victim of the scan and then appends the new entry. *)
Theorem size_le_capacity_invariant :
  (forall (arg : PyArg) (s s' : Interp),
     dict (self s) = [] ->
     LFUCache_init arg s = Done 0 s' -> Inv (self s'))
  /\ (forall (call : Call) (s s' : Interp) (res : option PyResult),
        Inv (self s) ->
        (forall arg, call = Call_set_capacity arg ->
                     PyDict_Size (dict (self s)) <= INT_MAX) ->
        exec call s = Done res s' -> Inv (self s'))
  /\ (forall (s : Interp) (key : K) (value : V),
        PyDict_GetItem (dict (self s)) key = None ->
        Inv (self s) ->
        PyDict_Size (dict (self s)) + 1 > capacity (self s) ->
        PyDict_Size (dict (self s)) < LFU_BUCKET_SIZE ->
        exists victim s',
          exact_victim (time_calls s) (dict (self s)) = Some victim
          /\ exec (Call_setitem key value) s = Done (Some (R_Int 0)) s'
          /\ dict (self s')
             = dict_remove (dict (self s)) victim
               ++ [(key, mkWrapper value
                           (minutes_of (time (S (time_calls s))))
                           LFU_INIT_VAL)]).
Proof.
  split; [|split].
  - intros arg s s' Hd E. unfold LFUCache_init in E.
    destruct (PyNumber_Index arg) as [n|e]; [|discriminate E].
    destruct (_ && _); [|discriminate E].
    unfold bind, get_self, put_self in E. cbn in E.
    destruct (Z.leb_spec n 0); [discriminate E|].
    injection E as E. subst s'. unfold Inv, PyDict_Size. cbn.
    rewrite Hd. simpl. lia.
  - intros call s s' res HI Hm E.
    assert (P : post (exec call) s (fun _ s1 => Inv (self s1))).
    { destruct call;
        try (eapply post_weaken;
             [apply exec_keeps; congruence
             |intros ? ? [_ HK]; exact (HK HI)]).
      - cbn [exec]. apply post_of_ptr with (Q := fun s1 => Inv (self s1)).
        eapply post_weaken; [apply mp_subscript_spec|].
        intros v s1 [Ec El]. unfold Inv, PyDict_Size in *.
        rewrite Ec, El. exact HI.
      - cbn [exec]. apply post_of_ptr with (Q := fun s1 => Inv (self s1)).
        eapply post_weaken; [apply set_capacity_spec|].
        intros v s1 (_ & _ & HK). exact (HK HI (Hm arg eq_refl)).
      - cbn [exec]. apply post_of_ptr with (Q := fun s1 => Inv (self s1)).
        unfold post. rewrite clear_Done. unfold Inv, PyDict_Size. cbn.
        destruct HI. lia. }
    exact (@post_Done _ _ _ _ _ _ P E).
  - intros s key value G HI Hfull Hsmall.
    destruct (@SetItem_full_exact s key value G HI Hfull Hsmall) as (k & Ev & E).
    exists k. eexists. split; [exact Ev|].
    cbn [exec LFUCache_mp_ass_sub]. unfold of_status.
    rewrite (@bind_Done _ _ _ _ _ _ _ E). split; reflexivity.
Qed.

(** ** C5: the hit and miss counters *)

Lemma mp_subscript_hit (s : Interp) (key : K) (w : LFUWrapper) :
  PyDict_GetItem (dict (self s)) key = Some w ->
  LFUCache_mp_subscript key s
  = Done (Some (wrapped w))
      (mkInterp
         (mkCache
            (dict_store (dict (self s)) key
               (mkWrapper (wrapped w) (minutes_of (time (time_calls s)))
                          (to_uint32 (visit_count w + 1))))
            (capacity (self s)) (to_ssize (hits (self s) + 1))
            (misses (self s)))
         (err s) (S (time_calls s)) (rand_calls s)).
Proof.
  intros G. unfold LFUCache_mp_subscript. run. run. rewrite G. run.
  unfold LFUWrapper_wrapped, bind, get_self. cbn [self dict]. rewrite G.
  reflexivity.
Qed.

Lemma mp_subscript_miss (s : Interp) (key : K) :
  PyDict_GetItem (dict (self s)) key = None ->
  LFUCache_mp_subscript key s
  = Done None
      (mkInterp
         (mkCache (dict (self s)) (capacity (self s)) (hits (self s))
                  (to_ssize (misses (self s) + 1)))
         (Some PyExc_KeyError) (time_calls s) (rand_calls s)).
Proof.
  intros G. unfold LFUCache_mp_subscript. run. run. rewrite G. reflexivity.
Qed.

(** C5, as the code has it.  The indexed read [c[key]] adds one to [hits]
    on a hit, records a visit on the entry (the count goes up by one modulo
    2^32, [last_visit] becomes the current minute) and returns the stored
    value; on a miss it adds one to [misses] and raises [KeyError] (each
    counter below [PY_SSIZE_T_MAX]).  [clear] sets both counters to zero.
    Every other call, whatever it returns, leaves both counters as they
    were. *)
Theorem counters_change_in_getitem_and_clear (s : Interp) :
  (forall (key : K) (w : LFUWrapper),
     PyDict_GetItem (dict (self s)) key = Some w ->
     0 <= hits (self s) < PY_SSIZE_T_MAX ->
     exists s',
       exec (Call_getitem key) s = Done (Some (R_Obj (wrapped w))) s'
       /\ hits (self s') = hits (self s) + 1
       /\ misses (self s') = misses (self s)
       /\ PyDict_GetItem (dict (self s')) key
          = Some (mkWrapper (wrapped w) (minutes_of (time (time_calls s)))
                            (to_uint32 (visit_count w + 1))))
  /\ (forall key : K,
        PyDict_GetItem (dict (self s)) key = None ->
        0 <= misses (self s) < PY_SSIZE_T_MAX ->
        exists s',
          exec (Call_getitem key) s = Done None s'
          /\ err s' = Some PyExc_KeyError
          /\ misses (self s') = misses (self s) + 1
          /\ hits (self s') = hits (self s)
          /\ dict (self s') = dict (self s))
  /\ (forall (call : Call) (res : option PyResult) (s' : Interp),
        (forall key, call <> Call_getitem key) ->
        call <> Call_clear ->
        exec call s = Done res s' ->
        hits (self s') = hits (self s) /\ misses (self s') = misses (self s))
  /\ (exists s',
        exec Call_clear s = Done (Some (R_Obj Py_None)) s'
        /\ hits (self s') = 0 /\ misses (self s') = 0).
Proof.
  split; [|split; [|split]].
  - intros key w G Hh. eexists. split.
    + cbn [exec]. unfold of_ptr.
      rewrite (@bind_Done _ _ _ _ _ _ _ (mp_subscript_hit s key G)).
      reflexivity.
    + cbn. split; [apply to_ssize_small; lia|].
      split; [reflexivity|]. eapply GetItem_store_same. exact G.
  - intros key G Hm. eexists. split.
    + cbn [exec]. unfold of_ptr.
      rewrite (@bind_Done _ _ _ _ _ _ _ (mp_subscript_miss s key G)).
      reflexivity.
    + cbn. split; [reflexivity|].
      split; [apply to_ssize_small; lia|]. split; reflexivity.
  - intros call res s' N1 N2 E.
    assert (P : post (exec call) s (fun _ s1 =>
              hits (self s1) = hits (self s)
              /\ misses (self s1) = misses (self s))).
    { destruct call;
        try (eapply post_weaken;
             [apply exec_keeps; congruence
             |intros ? ? [(_ & Fh & Fm) _]; split; assumption]).
      cbn [exec].
        apply post_of_ptr with (Q := fun s1 =>
          hits (self s1) = hits (self s)
          /\ misses (self s1) = misses (self s)).
        eapply post_weaken; [apply set_capacity_spec|].
        intros v s1 (Fh & Fm & _). split; assumption. }
    exact (@post_Done _ _ _ _ _ _ P E).
  - eexists. split.
    + cbn [exec]. unfold of_ptr. rewrite (@bind_Done _ _ _ _ _ _ _ (clear_Done s)).
      reflexivity.
    + split; reflexivity.
Qed.

(** ** C3: deleting an absent key *)

(** C3, as the code has it.  Deleting a key that is absent fails with status
    [-1] and leaves the cache as it was, but the exception set is
    [TypeError], not [KeyError]. *)
Theorem DelItem_absent_sets_TypeError (s : Interp) (key : K) :
  PyDict_GetItem (dict (self s)) key = None ->
  PyLFUCache_DelItem key s
  = Done (-1) (mkInterp (self s) (Some PyExc_TypeError)
                        (time_calls s) (rand_calls s))
  /\ exec (Call_delitem key) s
     = Done None (mkInterp (self s) (Some PyExc_TypeError)
                           (time_calls s) (rand_calls s)).
Proof.
  intros G.
  assert (E : PyLFUCache_DelItem key s
              = Done (-1) (mkInterp (self s) (Some PyExc_TypeError)
                                    (time_calls s) (rand_calls s))).
  { unfold PyLFUCache_DelItem. run. rewrite G. reflexivity. }
  split; [exact E|].
  cbn [exec LFUCache_mp_ass_sub]. unfold of_status.
  rewrite (@bind_Done _ _ _ _ _ _ _ E). reflexivity.
Qed.

(** ** C2: pop of a key that is present *)

Lemma DelItem_present (s : Interp) (key : K) (w : LFUWrapper) :
  PyDict_GetItem (dict (self s)) key = Some w ->
  PyLFUCache_DelItem key s
  = Done 0 (with_dict (dict_remove (dict (self s)) key) s).
Proof.
  intros G. unfold PyLFUCache_DelItem. run. rewrite G. run.
  unfold PyDict_DelItem. cbn [self dict]. rewrite G. reflexivity.
Qed.

Lemma GetItem_not_In (d : PyDict) (key : K) :
  ~ In key (PyDict_Keys d) -> PyDict_GetItem d key = None.
Proof.
  unfold PyDict_Keys. induction d as [|[k w] d IH]; simpl; [reflexivity|].
  intros N. destruct (key_eq_dec key k) as [E|_].
  - exfalso. apply N. left. now symmetry.
  - apply IH. intros I. apply N. now right.
Qed.

Lemma GetItem_remove_same (d : PyDict) (key : K) :
  NoDup (PyDict_Keys d) -> PyDict_GetItem (dict_remove d key) key = None.
Proof.
  unfold PyDict_Keys. induction d as [|[k w] d IH]; simpl; [reflexivity|].
  intros N. apply NoDup_cons_iff in N. destruct N as [Hk Hd].
  destruct (key_eq_dec key k) as [E|Ne].
  - subst k. now apply GetItem_not_In.
  - simpl. destruct (key_eq_dec key k); [contradiction|now apply IH].
Qed.

(** C2, as the code has it.  When [key] is present, [pop] removes its entry
    (with keys that are unique, as in a dictionary, the key is absent
    afterwards) and then returns [NULL] instead of the stored value; the
    error indicator is left as it was. *)
Theorem pop_present_returns_NULL (s : Interp) (key : K)
    (_default : option V) (w : LFUWrapper) :
  PyDict_GetItem (dict (self s)) key = Some w ->
  LFUCache_pop key _default s
  = Done None (with_dict (dict_remove (dict (self s)) key) s)
  /\ (NoDup (PyDict_Keys (dict (self s))) ->
      PyDict_GetItem (dict_remove (dict (self s)) key) key = None).
Proof.
  intros G. split; [|apply GetItem_remove_same].
  unfold LFUCache_pop. run. rewrite G.
  rewrite (@bind_Done _ _ _ _ _ _ _ (DelItem_present s key G)).
  reflexivity.
Qed.

(** ** C4: a producer that fails *)

(** C4, as the code has it.  On a miss, when the callback raises, [setnx]
    does not return: the null result of the call is dereferenced. *)
Theorem setnx_failing_callback_crashes (s : Interp) (key : K) (e : PyExc) :
  PyDict_GetItem (dict (self s)) key = None ->
  LFUCache_setnx key (Callable (inr e)) s = Crash.
Proof.
  intros G. unfold LFUCache_setnx. run. rewrite G. reflexivity.
Qed.

(** * Further properties of the code *)

(** ** Weights *)

Lemma minutes_of_range (t : Z) : 0 <= minutes_of t <= UINT32_MAX.
Proof.
  unfold minutes_of. change UINT32_MAX with (Z.ones 32).
  rewrite Z.land_ones by lia.
  pose proof (Z.mod_pos_bound (to_uint64 t / 60) (2 ^ 32) eq_refl) as H.
  change (Z.ones 32) with (2 ^ 32 - 1). lia.
Qed.

Lemma to_uint32_range (z : Z) : 0 <= to_uint32 z <= UINT32_MAX.
Proof.
  unfold to_uint32, UINT32_MAX.
  pose proof (Z.mod_pos_bound z (2 ^ 32) eq_refl). lia.
Qed.

(** X1.  A visit sets [last_visit] to the current minute and adds one to
    [visit_count] modulo 2^32; the weight at that minute is then exactly the
    new count (so it is 0 when the count wraps at [UINT32_MAX]).  A new
    entry has weight [LFU_INIT_VAL] at the minute it is created. *)
Theorem visit_then_weight (w : LFUWrapper) (obj : V) (s : Interp) :
  (exists w',
     LFUWrapper_UPDATE_WEIGHT w s = Done w' (tick s)
     /\ wrapped w' = wrapped w
     /\ last_visit w' = minutes_of (time (time_calls s))
     /\ visit_count w' = (visit_count w + 1) mod 2 ^ 32
     /\ LFUWrapper_WEIGHT w' (last_visit w') = visit_count w'
     /\ (visit_count w = UINT32_MAX ->
         LFUWrapper_WEIGHT w' (last_visit w') = 0))
  /\ (exists w0,
        LFUWrapper_init (LFUWrapper_new obj) s = Done w0 (tick s)
        /\ wrapped w0 = obj
        /\ LFUWrapper_WEIGHT w0 (last_visit w0) = LFU_INIT_VAL).
Proof.
  split.
  - eexists. split; [reflexivity|]. cbn [wrapped last_visit visit_count].
    split; [reflexivity|]. split; [reflexivity|]. split; [reflexivity|].
    assert (E : LFUWrapper_WEIGHT
                  (mkWrapper (wrapped w) (minutes_of (time (time_calls s)))
                             (to_uint32 (visit_count w + 1)))
                  (minutes_of (time (time_calls s)))
                = to_uint32 (visit_count w + 1)).
    { unfold LFUWrapper_WEIGHT. cbn [wrapped last_visit visit_count].
      rewrite Z.sub_diag. change (to_uint32 0) with 0.
      pose proof (to_uint32_range (visit_count w + 1)) as R.
      destruct (Z.gtb_spec 0 (to_uint32 (visit_count w + 1))); [lia|].
      rewrite Z.sub_0_r. apply to_uint32_small, to_uint32_range. }
    split; [exact E|]. intros Hmax. rewrite E, Hmax. reflexivity.
  - eexists. split; [reflexivity|]. cbn [wrapped last_visit visit_count].
    split; [reflexivity|].
    unfold LFUWrapper_WEIGHT. cbn [wrapped last_visit visit_count].
    rewrite Z.sub_diag. reflexivity.
Qed.

(** X2.  When the clock reads a minute before [last_visit], the elapsed
    time wraps around 2^32: the weight is 0 unless the count is within that
    distance of 2^32, and then it is what remains above. *)
Theorem weight_when_clock_is_behind (w : LFUWrapper) (now : Z) :
  0 <= now < last_visit w ->
  last_visit w <= UINT32_MAX ->
  0 <= visit_count w <= UINT32_MAX ->
  LFUWrapper_WEIGHT w now
  = if visit_count w + (last_visit w - now) <? 2 ^ 32 then 0
    else visit_count w + (last_visit w - now) - 2 ^ 32.
Proof.
  intros Hn Hl Hc. unfold LFUWrapper_WEIGHT, to_uint32, UINT32_MAX in *.
  assert (E : (now - last_visit w) mod 2 ^ 32
              = now - last_visit w + 2 ^ 32).
  { symmetry. apply Z.mod_unique with (q := -1); lia. }
  rewrite E.
  destruct (Z.gtb_spec (now - last_visit w + 2 ^ 32) (visit_count w));
    destruct (Z.ltb_spec (visit_count w + (last_visit w - now)) (2 ^ 32));
    try lia.
  rewrite Z.mod_small by lia. lia.
Qed.

(** ** Victim selection and eviction *)

Lemma WEIGHT_nonneg (w : LFUWrapper) (now : Z) : 0 <= LFUWrapper_WEIGHT w now.
Proof.
  unfold LFUWrapper_WEIGHT. destruct (_ >? _); [lia|].
  apply to_uint32_range.
Qed.

Lemma lfu_scan_app (now : Z) (d1 d2 : PyDict) (st : Z * option K) :
  lfu_scan now (d1 ++ d2) st = lfu_scan now d2 (lfu_scan now d1 st).
Proof.
  revert st. induction d1 as [|[k w] d1 IH]; intros st; simpl; auto.
Qed.

Lemma lfu_compare_fst_nonneg (now : Z) (k : K) (w : LFUWrapper)
    (st : Z * option K) :
  0 <= fst st -> 0 <= fst (lfu_compare now k w st).
Proof.
  intros H. unfold lfu_compare. destruct (_ || _); simpl; [|exact H].
  apply WEIGHT_nonneg.
Qed.

Lemma lfu_scan_fst_nonneg (now : Z) (d : PyDict) (st : Z * option K) :
  0 <= fst st -> 0 <= fst (lfu_scan now d st).
Proof.
  revert st. induction d as [|[k w] d IH]; intros st H; simpl; [exact H|].
  apply IH, lfu_compare_fst_nonneg, H.
Qed.

Lemma lfu_compare_zero_weight (now : Z) (k : K) (w : LFUWrapper)
    (st : Z * option K) :
  LFUWrapper_WEIGHT w now = 0 -> 0 <= fst st ->
  lfu_compare now k w st = (0, Some k).
Proof.
  intros E H. unfold lfu_compare. rewrite E.
  destruct (Z.eqb_spec (fst st) 0) as [Z0|NZ]; [reflexivity|].
  destruct (Z.ltb_spec 0 (fst st)); [reflexivity|lia].
Qed.

Lemma lfu_scan_from_zero (now : Z) (d : PyDict) (rv rv' : option K) :
  d <> [] -> lfu_scan now d (0, rv) = lfu_scan now d (0, rv').
Proof.
  destruct d as [|[k w] d]; [congruence|]. intros _. reflexivity.
Qed.

(** X3.  Exact scan (fewer than 256 entries), when every entry has a weight
    above zero at the minute of the call: [lfu] returns the key of the first
    entry of least weight, reads the clock once and changes nothing else. *)
Theorem lfu_exact_first_minimum (s : Interp) :
  dict (self s) <> [] ->
  PyDict_Size (dict (self s)) < LFU_BUCKET_SIZE ->
  (forall k w, In (k, w) (dict (self s)) ->
     0 < LFUWrapper_WEIGHT w (minutes_of (time (time_calls s)))) ->
  exists d1 k w d2,
    dict (self s) = d1 ++ (k, w) :: d2
    /\ LFUCache_lfu s = Done (Some k) (tick s)
    /\ (forall k' w', In (k', w') d1 ->
          LFUWrapper_WEIGHT w (minutes_of (time (time_calls s)))
          < LFUWrapper_WEIGHT w' (minutes_of (time (time_calls s))))
    /\ (forall k' w', In (k', w') d2 ->
          LFUWrapper_WEIGHT w (minutes_of (time (time_calls s)))
          <= LFUWrapper_WEIGHT w' (minutes_of (time (time_calls s)))).
Proof.
  intros N Hs Hpos.
  destruct (exact_victim_first_minimum (time_calls s) N Hpos)
    as (d1 & k & w & d2 & Ed & Ev & B & A).
  exists d1, k, w, d2. split; [exact Ed|].
  split; [exact (lfu_exact s Hs Ev)|]. split; assumption.
Qed.

(** X4.  Exact scan, when some entry has weight zero at the minute of the
    call: the entries before it and the entry itself do not count.  The
    victim is the one the scan would select among the entries after it
    alone; the zero-weight entry is selected only when it is the last
    one. *)
Theorem lfu_exact_forgets_up_to_zero_weight (s : Interp) (d1 d2 : PyDict)
    (k0 : K) (w0 : LFUWrapper) :
  dict (self s) = d1 ++ (k0, w0) :: d2 ->
  PyDict_Size (dict (self s)) < LFU_BUCKET_SIZE ->
  LFUWrapper_WEIGHT w0 (minutes_of (time (time_calls s))) = 0 ->
  LFUCache_lfu s
  = Done (match d2 with
          | [] => Some k0
          | _ :: _ => exact_victim (time_calls s) d2
          end) (tick s)
  /\ (d2 <> [] ->
      exists k, exact_victim (time_calls s) d2 = Some k
                /\ In k (PyDict_Keys d2)).
Proof.
  intros Ed Hs Hz. split; [|apply exact_victim_In].
  assert (E : exact_victim (time_calls s) (dict (self s))
              = match d2 with
                | [] => Some k0
                | _ :: _ => exact_victim (time_calls s) d2
                end).
  { unfold exact_victim. rewrite Ed, lfu_scan_app. cbn [lfu_scan].
    rewrite (@lfu_compare_zero_weight _ k0 w0 _ Hz)
      by (apply lfu_scan_fst_nonneg; simpl; lia).
    destruct d2 as [|p d2]; [reflexivity|].
    now rewrite (@lfu_scan_from_zero _ (p :: d2) (Some k0) None). }
  destruct d2 as [|p d2].
  - exact (lfu_exact s Hs E).
  - destruct (@exact_victim_In (time_calls s) (p :: d2)) as (k & Ek & _);
      [discriminate|].
    rewrite Ek in *. exact (lfu_exact s Hs E).
Qed.

Lemma lfu_empty (s : Interp) :
  dict (self s) = [] ->
  LFUCache_lfu s
  = Done None (mkInterp (self s) (Some PyExc_KeyError)
                        (S (time_calls s)) (rand_calls s)).
Proof.
  intros E. unfold LFUCache_lfu. run. run. run. cbn [self dict].
  rewrite E. reflexivity.
Qed.

(** X5.  [lfu] never changes the cache: on an empty cache it fails with
    [KeyError] after one reading of the clock; whenever it returns a key, in
    either regime, that key is in the cache. *)
Theorem lfu_only_reads (s : Interp) :
  (dict (self s) = [] ->
   LFUCache_lfu s
   = Done None (mkInterp (self s) (Some PyExc_KeyError)
                         (S (time_calls s)) (rand_calls s)))
  /\ (forall r s',
        LFUCache_lfu s = Done r s' ->
        self s' = self s
        /\ (r = None -> dict (self s) = [])
        /\ (forall k, r = Some k -> In k (PyDict_Keys (dict (self s))))).
Proof.
  split; [apply lfu_empty|].
  - intros r s' E.
    pose proof (@post_Done _ _ _ _ _ _ (lfu_spec s) E) as [Es Hr].
    split; [exact Es|]. split.
    + intros ->. exact Hr.
    + intros k ->. exact Hr.
Qed.

Lemma evict_spec_remove (s : Interp) :
  post LFUCache_evict s (fun r s' =>
    r = Some Py_None /\ frame s s'
    /\ (dict (self s) = [] /\ dict (self s') = []
        \/ exists k, In k (PyDict_Keys (dict (self s)))
                     /\ dict (self s') = dict_remove (dict (self s)) k)).
Proof.
  unfold LFUCache_evict. apply post_bind.
  eapply post_weaken; [apply lfu_spec|].
  intros [k|] s1 [E H].
  - step. rewrite E.
    pose proof (GetItem_In _ _ H) as G. unfold PyDict_DelItem.
    destruct (PyDict_GetItem (dict (self s)) k) as [w|] eqn:Ew; [|congruence].
    step. apply post_ret. cbn. rewrite E.
    split; [reflexivity|]. split; [repeat split|].
    right. exists k. split; [exact H|reflexivity].
  - step. apply post_ret. cbn. rewrite E, H.
    split; [reflexivity|]. split; [repeat split|]. left. split; reflexivity.
Qed.

(** X6.  [evict] never reports an error.  On an empty cache it returns
    [None], clears the error indicator and changes nothing; otherwise,
    whenever it returns, it returns [None] and the dictionary is the old one
    without the entry of one of its keys; capacity and counters are
    untouched. *)
Theorem evict_removes_one_entry (s : Interp) :
  (dict (self s) = [] ->
   LFUCache_evict s
   = Done (Some Py_None) (mkInterp (self s) None
                                   (S (time_calls s)) (rand_calls s)))
  /\ (forall r s',
        LFUCache_evict s = Done r s' ->
        r = Some Py_None
        /\ capacity (self s') = capacity (self s)
        /\ hits (self s') = hits (self s)
        /\ misses (self s') = misses (self s)
        /\ (dict (self s) = [] /\ dict (self s') = []
            \/ exists k, In k (PyDict_Keys (dict (self s)))
                         /\ dict (self s')
                            = dict_remove (dict (self s)) k)).
Proof.
  split.
  - intros E. unfold LFUCache_evict.
    rewrite (@bind_Done _ _ _ _ _ _ _ (lfu_empty s E)). reflexivity.
  - intros r s' E.
    pose proof (@post_Done _ _ _ _ _ _ (evict_spec_remove s) E)
      as (Er & (Fc & Fh & Fm) & Hd).
    repeat split; assumption.
Qed.

(** ** The sampling regime *)

Lemma wp_ret (b : bool) {A} (a : A) (s : Interp) (Q : A -> Interp -> Prop) :
  Q a s -> wp b (ret a) s Q.
Proof. exact (fun H => H). Qed.

Lemma wp_bind (b : bool) {A B} (m : M A) (f : A -> M B) (s : Interp)
    (Q : B -> Interp -> Prop) :
  wp b m s (fun a s1 => wp b (f a) s1 Q) -> wp b (bind m f) s Q.
Proof. unfold wp, bind. destruct (m s); auto. Qed.

Lemma wp_step (b : bool) {A B} (m : M A) (f : A -> M B) (s s1 : Interp)
    (a : A) (Q : B -> Interp -> Prop) :
  m s = Done a s1 -> wp b (f a) s1 Q -> wp b (bind m f) s Q.
Proof. unfold wp, bind. intros E. now rewrite E. Qed.

Lemma wp_weaken (b : bool) {A} (m : M A) (s : Interp)
    (Q Q' : A -> Interp -> Prop) :
  wp b m s Q -> (forall a s', Q a s' -> Q' a s') -> wp b m s Q'.
Proof. unfold wp. destruct (m s); auto. Qed.

Ltac wstep :=
  eapply wp_step; [reflexivity|];
  cbn [self err time_calls rand_calls dict capacity hits misses fst snd].

Lemma rand_limit_loop_wp (lenient : bool) (fuel : nat) (divisor limit : Z)
    (s : Interp) :
  0 < divisor ->
  (forall n, 0 <= rand n) ->
  (lenient = false ->
   fuel <> O /\ forall n, Z.quot (rand n) divisor <= limit) ->
  wp lenient (rand_limit_loop fuel divisor limit) s (fun rv s' =>
    0 <= rv <= limit /\ same_but_draws s s').
Proof.
  intros Hd Hr. revert s.
  induction fuel as [|fuel IH]; intros s Hl; simpl.
  - unfold wp, timeout. destruct lenient; [reflexivity|].
    destruct (Hl eq_refl) as [N _]. congruence.
  - wstep.
    assert (Hq : 0 <= Z.quot (rand (rand_calls s)) divisor).
    { apply Z.quot_pos; [apply Hr|lia]. }
    destruct (Z.gtb_spec (Z.quot (rand (rand_calls s)) divisor) limit)
      as [G|G].
    + destruct lenient.
      * eapply wp_weaken; [apply IH; discriminate|].
        intros rv s' [B (E1 & E2 & E3)]. split; [exact B|].
        repeat split; assumption.
      * destruct (Hl eq_refl) as [_ NR]. specialize (NR (rand_calls s)). lia.
    + apply wp_ret. split; [lia|]. repeat split.
Qed.

Lemma rand_limit_wp (lenient : bool) (limit : Z) (s : Interp) :
  0 <= limit < INT_MAX ->
  limit < RAND_MAX ->
  (forall n, 0 <= rand n) ->
  (lenient = false ->
   rand_limit_fuel <> O
   /\ forall n, Z.quot (rand n) (Z.quot RAND_MAX (limit + 1)) <= limit) ->
  wp lenient (rand_limit limit) s (fun rv s' =>
    0 <= rv <= limit /\ same_but_draws s s').
Proof.
  intros Hl Hm Hr Hs. unfold rand_limit.
  destruct (Z.eqb_spec limit INT_MAX); [lia|].
  destruct (Z.eqb_spec (limit + 1) 0); [lia|]. cbn [orb].
  assert (Hd : 0 < Z.quot RAND_MAX (limit + 1)).
  { rewrite Z.quot_div_nonneg by lia.
    apply Z.div_str_pos. lia. }
  destruct (Z.eqb_spec (Z.quot RAND_MAX (limit + 1)) 0); [lia|].
  now apply rand_limit_loop_wp.
Qed.

(** X7.  [rand_limit], for a limit from 0 to [INT_MAX - 1] that is below
    [RAND_MAX], with [rand()] never negative: it does not crash and whatever
    it returns lies between 0 and the limit; it touches nothing but the
    random source.  If moreover no draw needs a retry, it returns after one
    draw. *)
Theorem rand_limit_within_limit (limit : Z) (s : Interp) :
  0 <= limit < INT_MAX ->
  limit < RAND_MAX ->
  (forall n, 0 <= rand n) ->
  match rand_limit limit s with
  | Done rv s' => 0 <= rv <= limit /\ same_but_draws s s'
  | Crash => False
  | Timeout => True
  end
  /\ (rand_limit_fuel <> O ->
      (forall n, Z.quot (rand n) (Z.quot RAND_MAX (limit + 1)) <= limit) ->
      rand_limit limit s
      = Done (Z.quot (rand (rand_calls s)) (Z.quot RAND_MAX (limit + 1)))
             (mkInterp (self s) (err s) (time_calls s) (S (rand_calls s)))).
Proof.
  intros Hl Hm Hr. split.
  - assert (W : wp true (rand_limit limit) s (fun rv s' =>
                  0 <= rv <= limit /\ same_but_draws s s')).
    { apply rand_limit_wp; auto. discriminate. }
    unfold wp in W. destruct (rand_limit limit s); auto.
  - intros Hf NR. unfold rand_limit.
    destruct (Z.eqb_spec limit INT_MAX); [lia|].
    destruct (Z.eqb_spec (limit + 1) 0); [lia|]. cbn [orb].
    assert (Hd : 0 < Z.quot RAND_MAX (limit + 1)).
    { rewrite Z.quot_div_nonneg by lia. apply Z.div_str_pos. lia. }
    destruct (Z.eqb_spec (Z.quot RAND_MAX (limit + 1)) 0); [lia|].
    destruct rand_limit_fuel as [|fuel]; [congruence|].
    cbn [rand_limit_loop]. run.
    destruct (Z.gtb_spec (Z.quot (rand (rand_calls s))
                                 (Z.quot RAND_MAX (limit + 1))) limit)
      as [G|G]; [|reflexivity].
    specialize (NR (rand_calls s)). lia.
Qed.

Lemma nth_error_Keys_GetItem (d : PyDict) (n : nat) (k : K) :
  nth_error (PyDict_Keys d) n = Some k -> PyDict_GetItem d k <> None.
Proof. intros E. apply GetItem_In. exact (nth_error_In _ _ E). Qed.

Lemma nth_error_in_range {A} (l : list A) (pos : Z) :
  0 <= pos < Z.of_nat (length l) ->
  exists a, nth_error l (Z.to_nat pos) = Some a.
Proof.
  intros H. destruct (nth_error l (Z.to_nat pos)) as [a|] eqn:E; [eauto|].
  apply nth_error_None in E. lia.
Qed.

Lemma lfu_compare_sampled (bound now : Z) (keys : list K) (key : K)
    (w : LFUWrapper) (st : Z * option K) :
  among_first bound keys key -> sampled bound keys (snd st) ->
  sampled bound keys (snd (lfu_compare now key w st)).
Proof.
  intros A S. unfold lfu_compare. destruct (_ || _); [|exact S].
  intros k E. injection E as <-. exact A.
Qed.

Lemma lfu_buckets_wp (lenient : bool) (todo : nat) (i now b : Z)
    (d : PyDict) (st : Z * option K) (key : option K) (s : Interp) :
  1 <= b < INT_MAX ->
  b < RAND_MAX ->
  7 * b < Z.of_nat (length d) ->
  (forall n, 0 <= rand n) ->
  (lenient = false ->
   rand_limit_fuel <> O
   /\ forall n, Z.quot (rand n) (Z.quot RAND_MAX (b + 1)) <= b) ->
  0 <= i -> i + Z.of_nat todo <= 7 ->
  sampled (7 * b) (PyDict_Keys d) (snd st) ->
  sampled (7 * b) (PyDict_Keys d) key ->
  (fst st = 0 /\ todo <> O) \/ (snd st <> None /\ key <> None) ->
  wp lenient (lfu_buckets todo i now b d (PyDict_Keys d) st key) s
     (fun res s' =>
        same_but_draws s s'
        /\ sampled (7 * b) (PyDict_Keys d) (snd (fst res))
        /\ sampled (7 * b) (PyDict_Keys d) (snd res)
        /\ snd (fst res) <> None /\ snd res <> None).
Proof.
  intros Hb Hm Hn Hr Hs. revert i st key s.
  induction todo as [|todo IH]; intros i st key s Hi Ht S1 S2 Hready;
    cbn [lfu_buckets].
  - apply wp_ret. destruct Hready as [[_ N]|[N1 N2]]; [congruence|].
    split; [repeat split|]. auto.
  - rewrite to_int_small by (unfold INT_MAX in *; lia).
    apply wp_bind. eapply wp_weaken.
    { apply rand_limit_wp; [lia|exact Hm|exact Hr|exact Hs]. }
    intros r s1 [Br (E1 & E2 & E3)]. cbv zeta.
    assert (Hpos : 0 <= i * b + r <= 7 * b) by nia.
    apply wp_bind. unfold PyList_GET_ITEM.
    destruct (Z.ltb_spec (i * b + r) 0); [lia|].
    destruct (@nth_error_in_range _ (PyDict_Keys d) (i * b + r)) as [k Ek].
    { unfold PyDict_Keys. rewrite length_map. lia. }
    rewrite Ek. apply wp_ret.
    destruct (PyDict_GetItem d k) as [w|] eqn:G;
      [|exfalso; exact (nth_error_Keys_GetItem _ _ Ek G)].
    assert (A : among_first (7 * b) (PyDict_Keys d) k).
    { exists (i * b + r). split; [exact Hpos|exact Ek]. }
    eapply wp_weaken.
    + apply IH.
      * lia.
      * lia.
      * now apply lfu_compare_sampled.
      * intros k' E. injection E as <-. exact A.
      * right. split; [|discriminate].
        apply lfu_compare_some.
        destruct Hready as [[Z0 _]|[N _]]; [now right|now left].
    + intros res s2 ((F1 & F2 & F3) & R).
      split; [|exact R]. repeat split; congruence.
Qed.

Lemma lfu_remainder_wp (lenient : bool) (now b : Z) (d : PyDict)
    (st : Z * option K) (key : option K) (s : Interp) :
  0 <= b ->
  LFU_BUCKET * b <= PyDict_Size d ->
  Z.rem (PyDict_Size d) LFU_BUCKET = PyDict_Size d - LFU_BUCKET * b ->
  sampled (7 * b) (PyDict_Keys d) (snd st) ->
  sampled (7 * b) (PyDict_Keys d) key ->
  snd st <> None -> key <> None ->
  wp lenient
     (lfu_remainder now (PyDict_Size d) b d (PyDict_Keys d) st key) s
     (fun rv s' =>
        s' = s /\ sampled (7 * b) (PyDict_Keys d) rv /\ rv <> None).
Proof.
  intros Hb Hle Hrem S1 S2 N1 N2. unfold lfu_remainder.
  destruct (Z.eqb_spec (Z.rem (PyDict_Size d) LFU_BUCKET) 0) as [E|N].
  - apply wp_ret. auto.
  - cbv zeta. apply wp_bind. unfold PyList_GetItem.
    assert (Hq : 0 <= Z.quot (PyDict_Size d - LFU_BUCKET * b) 2
                 < PyDict_Size d - LFU_BUCKET * b).
    { split; [apply Z.quot_pos; lia|apply Z.quot_lt; lia]. }
    destruct (Z.ltb_spec
                (LFU_BUCKET * b
                 + Z.quot (PyDict_Size d - LFU_BUCKET * b) 2) 0);
      [unfold LFU_BUCKET in *; lia|].
    destruct (@nth_error_in_range _ (PyDict_Keys d)
                (LFU_BUCKET * b
                 + Z.quot (PyDict_Size d - LFU_BUCKET * b) 2)) as [k Ek].
    { unfold PyDict_Keys, PyDict_Size in *. rewrite length_map. lia. }
    rewrite Ek. apply wp_ret. apply wp_bind. unfold weight_at.
    destruct (PyDict_GetItem d k) as [w|] eqn:G;
      [|exfalso; exact (nth_error_Keys_GetItem _ _ Ek G)].
    apply wp_ret. destruct (_ || _); apply wp_ret; auto.
Qed.

Lemma lfu_sampling_wp (lenient : bool) (s : Interp) :
  LFU_BUCKET_SIZE <= PyDict_Size (dict (self s)) ->
  Z.quot (PyDict_Size (dict (self s))) LFU_BUCKET < INT_MAX ->
  Z.quot (PyDict_Size (dict (self s))) LFU_BUCKET < RAND_MAX ->
  (forall n, 0 <= rand n) ->
  (lenient = false ->
   rand_limit_fuel <> O
   /\ forall n,
        Z.quot (rand n)
               (Z.quot RAND_MAX
                  (Z.quot (PyDict_Size (dict (self s))) LFU_BUCKET + 1))
        <= Z.quot (PyDict_Size (dict (self s))) LFU_BUCKET) ->
  wp lenient LFUCache_lfu s (fun r s' =>
    self s' = self s /\ err s' = err s
    /\ time_calls s' = S (time_calls s)
    /\ exists k,
         r = Some k
         /\ among_first
              (7 * Z.quot (PyDict_Size (dict (self s))) LFU_BUCKET)
              (PyDict_Keys (dict (self s))) k).
Proof.
  intros Hn Hi Hm Hr Hs.
  set (n := PyDict_Size (dict (self s))) in *.
  assert (Hq : n = LFU_BUCKET * Z.quot n LFU_BUCKET + Z.rem n LFU_BUCKET).
  { apply Z.quot_rem'. }
  assert (Hrem : 0 <= Z.rem n LFU_BUCKET < LFU_BUCKET).
  { apply Z.rem_bound_pos; unfold LFU_BUCKET_SIZE, LFU_BUCKET in *; lia. }
  assert (Hb : 32 <= Z.quot n LFU_BUCKET).
  { unfold LFU_BUCKET_SIZE, LFU_BUCKET in *. lia. }
  unfold LFUCache_lfu. wstep. wstep. wstep. fold n.
  destruct (Z.eqb_spec n 0); [unfold LFU_BUCKET_SIZE in *; lia|].
  destruct (Z.ltb_spec n LFU_BUCKET_SIZE); [lia|].
  cbv zeta. apply wp_bind. eapply wp_weaken.
  { apply lfu_buckets_wp with (b := Z.quot n LFU_BUCKET); try assumption.
    - lia.
    - unfold n, PyDict_Size, LFU_BUCKET in *. lia.
    - lia.
    - unfold LFU_BUCKET. simpl. lia.
    - intros k E. discriminate E.
    - intros k E. discriminate E.
    - left. split; [reflexivity|]. unfold LFU_BUCKET. simpl. discriminate. }
  intros [st key] s1 ((F1 & F2 & F3) & S1 & S2 & N1 & N2).
  cbn [fst snd] in *. apply wp_bind. eapply wp_weaken.
  { unfold n. apply lfu_remainder_wp; try assumption; fold n.
    - lia.
    - lia.
    - lia. }
  intros rv s2 (-> & S3 & N3).
  destruct rv as [k|]; [|congruence].
  apply wp_ret. cbn in F1, F2, F3.
  split; [exact F1|]. split; [exact F2|]. split; [exact F3|].
  exists k. split; [reflexivity|]. now apply S3.
Qed.

(** X8.  Sampling regime (256 entries or more), with the bucket size
    [size / 8] below [INT_MAX] and below [RAND_MAX] and [rand()] never
    negative: [lfu] does not crash (every list access is within bounds) and
    whatever it returns is a key found among the first [7 * (size / 8) + 1]
    keys in iteration order, so the keys after them are never selected; the
    cache and the error indicator are untouched.  If moreover no draw needs
    a retry, [lfu] returns such a key. *)
Theorem lfu_sampling_safe (s : Interp) :
  LFU_BUCKET_SIZE <= PyDict_Size (dict (self s)) ->
  Z.quot (PyDict_Size (dict (self s))) LFU_BUCKET < INT_MAX ->
  Z.quot (PyDict_Size (dict (self s))) LFU_BUCKET < RAND_MAX ->
  (forall n, 0 <= rand n) ->
  match LFUCache_lfu s with
  | Done r s' =>
      self s' = self s /\ err s' = err s
      /\ exists k,
           r = Some k
           /\ among_first
                (7 * Z.quot (PyDict_Size (dict (self s))) LFU_BUCKET)
                (PyDict_Keys (dict (self s))) k
  | Crash => False
  | Timeout => True
  end
  /\ (rand_limit_fuel <> O ->
      (forall n,
         Z.quot (rand n)
                (Z.quot RAND_MAX
                   (Z.quot (PyDict_Size (dict (self s))) LFU_BUCKET + 1))
         <= Z.quot (PyDict_Size (dict (self s))) LFU_BUCKET) ->
      exists k s',
        LFUCache_lfu s = Done (Some k) s'
        /\ among_first
             (7 * Z.quot (PyDict_Size (dict (self s))) LFU_BUCKET)
             (PyDict_Keys (dict (self s))) k).
Proof.
  intros Hn Hi Hm Hr. split.
  - assert (W := @lfu_sampling_wp true s Hn Hi Hm Hr
                   (fun E => False_ind _ (Bool.diff_true_false E))).
    unfold wp in W. destruct (LFUCache_lfu s); auto.
    destruct W as (E1 & E2 & _ & Hk). auto.
  - intros Hf NR.
    assert (W := @lfu_sampling_wp false s Hn Hi Hm Hr (fun _ => conj Hf NR)).
    unfold wp in W. destruct (LFUCache_lfu s) as [r s'| |];
      [|contradiction|discriminate].
    destruct W as (_ & _ & _ & k & -> & A). eauto.
Qed.

(** X9.  Sampling regime, when the bucket size [size / 8] reaches
    [RAND_MAX]: [rand_limit] divides by zero and [lfu] crashes. *)
Theorem lfu_sampling_divides_by_zero (s : Interp) :
  LFU_BUCKET_SIZE <= PyDict_Size (dict (self s)) ->
  0 <= RAND_MAX <= Z.quot (PyDict_Size (dict (self s))) LFU_BUCKET ->
  Z.quot (PyDict_Size (dict (self s))) LFU_BUCKET < INT_MAX ->
  LFUCache_lfu s = Crash.
Proof.
  intros Hn Hm Hi.
  set (n := PyDict_Size (dict (self s))) in *.
  unfold LFUCache_lfu. run. run. run. cbn [self dict]. fold n.
  destruct (Z.eqb_spec n 0); [unfold LFU_BUCKET_SIZE in *; lia|].
  destruct (Z.ltb_spec n LFU_BUCKET_SIZE); [lia|].
  cbv zeta. change (Z.to_nat (LFU_BUCKET - 1)) with 7%nat.
  cbn [lfu_buckets]. unfold bind at 1 2.
  assert (E : forall s0, rand_limit (to_int (Z.quot n LFU_BUCKET)) s0 = Crash).
  { intros s0. unfold rand_limit.
    rewrite to_int_small by (unfold INT_MAX in *; lia).
    destruct (Z.eqb_spec (Z.quot n LFU_BUCKET) INT_MAX); [lia|].
    destruct (Z.eqb_spec (Z.quot n LFU_BUCKET + 1) 0); [lia|]. cbn [orb].
    rewrite Z.quot_small by lia. reflexivity. }
  now rewrite E.
Qed.

(** ** Storing, reading and deleting *)

Lemma GetItem_app_new (d : PyDict) (key : K) (w : LFUWrapper) :
  PyDict_GetItem d key = None ->
  PyDict_GetItem (d ++ [(key, w)]) key = Some w.
Proof.
  induction d as [|[k w0] d IH]; simpl.
  - intros _. destruct (key_eq_dec key key); [reflexivity|congruence].
  - destruct (key_eq_dec key k); [discriminate|exact IH].
Qed.

Lemma GetItem_app_other (d : PyDict) (key k' : K) (w : LFUWrapper) :
  k' <> key ->
  PyDict_GetItem (d ++ [(key, w)]) k' = PyDict_GetItem d k'.
Proof.
  intros N. induction d as [|[k w0] d IH]; simpl.
  - destruct (key_eq_dec k' key); [contradiction|reflexivity].
  - destruct (key_eq_dec k' k); [reflexivity|exact IH].
Qed.

Lemma GetItem_SetItem_same (d : PyDict) (key : K) (w : LFUWrapper) :
  PyDict_GetItem (PyDict_SetItem d key w) key = Some w.
Proof.
  unfold PyDict_SetItem. destruct (PyDict_GetItem d key) as [w0|] eqn:G.
  - exact (GetItem_store_same _ _ w G).
  - now apply GetItem_app_new.
Qed.

Lemma GetItem_remove_other (d : PyDict) (key k' : K) :
  k' <> key ->
  PyDict_GetItem (dict_remove d key) k' = PyDict_GetItem d k'.
Proof.
  intros N. induction d as [|[k w0] d IH]; simpl; [reflexivity|].
  destruct (key_eq_dec key k) as [E|Ne].
  - subst k. destruct (key_eq_dec k' key); [contradiction|reflexivity].
  - simpl. destruct (key_eq_dec k' k); [reflexivity|exact IH].
Qed.

Lemma wrapped_present (s : Interp) (key : K) (w : LFUWrapper) :
  PyDict_GetItem (dict (self s)) key = Some w ->
  LFUWrapper_wrapped key s
  = Done (wrapped w)
      (tick (with_dict (dict_store (dict (self s)) key
                                   (visited (time_calls s) w)) s)).
Proof.
  intros G. unfold LFUWrapper_wrapped, bind, get_self. rewrite G.
  reflexivity.
Qed.

Lemma SetItem_with_room (s : Interp) (key : K) (value : V) :
  PyDict_GetItem (dict (self s)) key = None ->
  PyDict_Size (dict (self s)) + 1 <= capacity (self s) ->
  PyLFUCache_SetItem key value s
  = Done 0 (tick (with_dict (dict (self s)
                             ++ [(key, fresh (time_calls s) value)]) s)).
Proof.
  intros G Hroom. unfold PyLFUCache_SetItem. run. rewrite G. run.
  cbn [self dict].
  destruct (Z.gtb_spec (PyDict_Size (dict (self s)) + 1) (capacity (self s)));
    [lia|].
  run. cbv beta iota. run. run. cbn.
  unfold PyDict_SetItem. rewrite G. reflexivity.
Qed.

(** What a store leaves at its key, in either regime. *)
Lemma SetItem_lookup (key : K) (value : V) (s : Interp) :
  post (PyLFUCache_SetItem key value) s (fun r s' =>
    r = 0 /\ frame s s'
    /\ exists w',
         PyDict_GetItem (dict (self s')) key = Some w'
         /\ wrapped w' = value
         /\ (PyDict_GetItem (dict (self s)) key = None ->
             visit_count w' = LFU_INIT_VAL)
         /\ (forall w, PyDict_GetItem (dict (self s)) key = Some w ->
               last_visit w' = last_visit w
               /\ visit_count w' = visit_count w)).
Proof.
  unfold PyLFUCache_SetItem. step.
  destruct (PyDict_GetItem (dict (self s)) key) as [w|] eqn:Ew.
  - step. apply post_ret. split; [reflexivity|]. split; [repeat split|].
    eexists. split; [exact (GetItem_store_same _ _ _ Ew)|].
    split; [reflexivity|]. split; [discriminate|].
    intros w1 E. injection E as <-. split; reflexivity.
  - step. apply post_bind.
    apply post_weaken with (Q := fun r s1 => r = Some Py_None /\ frame s s1).
    { destruct (_ >? _).
      - eapply post_weaken; [apply evict_spec|].
        intros r s1 (Er & F & _). auto.
      - apply post_ret. split; [reflexivity|apply frame_refl]. }
    intros r s1 [-> (Fc & Fh & Fm)].
    step. step. step. apply post_ret.
    split; [reflexivity|]. split; [repeat split; assumption|].
    eexists. split; [apply GetItem_SetItem_same|].
    split; [reflexivity|]. split; [reflexivity|]. discriminate.
Qed.

(** X10.  Storing a key that is absent while there is room: nothing is
    evicted, the clock is read once, and the new entry goes to the end with
    count [LFU_INIT_VAL] and the current minute; every other key maps to
    what it did. *)
Theorem SetItem_new_key_with_room (s : Interp) (key : K) (value : V) :
  PyDict_GetItem (dict (self s)) key = None ->
  PyDict_Size (dict (self s)) + 1 <= capacity (self s) ->
  exec (Call_setitem key value) s
  = Done (Some (R_Int 0))
      (tick (with_dict (dict (self s)
                        ++ [(key, fresh (time_calls s) value)]) s))
  /\ PyDict_GetItem (dict (self s) ++ [(key, fresh (time_calls s) value)]) key
     = Some (fresh (time_calls s) value)
  /\ (forall k', k' <> key ->
        PyDict_GetItem (dict (self s) ++ [(key, fresh (time_calls s) value)])
                       k'
        = PyDict_GetItem (dict (self s)) k').
Proof.
  intros G Hroom. split; [|split].
  - cbn [exec LFUCache_mp_ass_sub]. unfold of_status.
    rewrite (@bind_Done _ _ _ _ _ _ _ (SetItem_with_room s key value G Hroom)).
    reflexivity.
  - now apply GetItem_app_new.
  - intros k' N. now apply GetItem_app_other.
Qed.

(** X11.  Store, then read: whenever [c[key] = value] returns, in either
    regime and whether or not it evicted, it reports success, and the read
    [c[key]] that follows returns [value] and counts one hit ([hits] below
    [PY_SSIZE_T_MAX]). *)
Theorem setitem_then_getitem (s s1 : Interp) (key : K) (value : V)
    (r : option PyResult) :
  exec (Call_setitem key value) s = Done r s1 ->
  0 <= hits (self s) < PY_SSIZE_T_MAX ->
  r = Some (R_Int 0)
  /\ exists s2,
       exec (Call_getitem key) s1 = Done (Some (R_Obj value)) s2
       /\ hits (self s2) = hits (self s) + 1
       /\ misses (self s2) = misses (self s).
Proof.
  intros E Hh. cbn [exec LFUCache_mp_ass_sub] in E. unfold of_status in E.
  unfold bind in E.
  destruct (PyLFUCache_SetItem key value s) as [r0 s0| |] eqn:ES;
    try discriminate E.
  pose proof (@post_Done _ _ _ _ _ _ (SetItem_lookup key value s) ES)
    as (-> & (_ & Fh & Fm) & w' & G & Ew & _).
  injection E as <- <-. split; [reflexivity|].
  eexists. split.
  - cbn [exec]. unfold of_ptr.
    rewrite (@bind_Done _ _ _ _ _ _ _ (mp_subscript_hit s0 key G)).
    rewrite Ew. reflexivity.
  - cbn. rewrite Fh, Fm. split; [|reflexivity].
    apply to_ssize_small. unfold PY_SSIZE_T_MAX in *. lia.
Qed.

(** X12.  Delete, then ask: deleting a key that is present succeeds and
    removes its entry only: the size goes down by one and every other key
    maps to what it did.  With unique keys the key is then absent: the
    containment check answers 0 and the read fails with [KeyError]. *)
Theorem delitem_then_miss (s : Interp) (key : K) (w : LFUWrapper) :
  PyDict_GetItem (dict (self s)) key = Some w ->
  NoDup (PyDict_Keys (dict (self s))) ->
  exists s1,
    exec (Call_delitem key) s = Done (Some (R_Int 0)) s1
    /\ s1 = with_dict (dict_remove (dict (self s)) key) s
    /\ PyDict_Size (dict (self s1)) = PyDict_Size (dict (self s)) - 1
    /\ (forall k', k' <> key ->
          PyDict_GetItem (dict (self s1)) k'
          = PyDict_GetItem (dict (self s)) k')
    /\ exec (Call_contains key) s1 = Done (Some (R_Int 0)) s1
    /\ exists s2,
         exec (Call_getitem key) s1 = Done None s2
         /\ err s2 = Some PyExc_KeyError.
Proof.
  intros G ND.
  assert (G1 : PyDict_GetItem (dict_remove (dict (self s)) key) key = None).
  { now apply GetItem_remove_same. }
  eexists. split.
  { cbn [exec LFUCache_mp_ass_sub]. unfold of_status.
    rewrite (@bind_Done _ _ _ _ _ _ _ (DelItem_present s key G)).
    reflexivity. }
  split; [reflexivity|]. split.
  { unfold PyDict_Size. cbn. pose proof (length_remove _ _ G). lia. }
  split.
  { intros k' N. cbn. now apply GetItem_remove_other. }
  split.
  { cbn [exec]. unfold LFUCache_Contains, bind, get_self, ret.
    cbn [self dict with_dict]. rewrite G1. reflexivity. }
  eexists. split.
  - cbn [exec]. unfold of_ptr.
    rewrite (@bind_Done _ _ _ _ _ _ _
               (mp_subscript_miss
                  (with_dict (dict_remove (dict (self s)) key) s) key G1)).
    reflexivity.
  - reflexivity.
Qed.

(** ** Capacity *)

(** X13.  [set_capacity] refuses an argument that does not convert to a
    positive integer and leaves the cache alone: a number from [LLONG_MIN]
    to 0 (with no error pending) gives [ValueError], a number outside
    [long long] gives [OverflowError], and when the conversion of an object
    that is not an int fails, its exception is what the caller sees
    ([TypeError] for an object without [__index__]).  An object that is not
    an int but converts to [n] is treated as the int [n]. *)
Theorem set_capacity_rejects (s : Interp) (arg : PyArg) :
  (forall n, PyNumber_Index arg = inl n ->
     LLONG_MIN <= n <= 0 -> err s = None ->
     LFUCache_set_capacity arg s
     = Done None (mkInterp (self s) (Some PyExc_ValueError)
                           (time_calls s) (rand_calls s)))
  /\ (forall n, PyNumber_Index arg = inl n ->
        n < LLONG_MIN \/ LLONG_MAX < n ->
        LFUCache_set_capacity arg s
        = Done None (mkInterp (self s) (Some PyExc_OverflowError)
                              (time_calls s) (rand_calls s)))
  /\ (forall e, PyNumber_Index arg = inr e ->
        LFUCache_set_capacity arg s
        = Done None (mkInterp (self s) (Some e)
                              (time_calls s) (rand_calls s)))
  /\ (forall n, PyNumber_Index arg = inl n ->
        LFUCache_set_capacity arg s = LFUCache_set_capacity (PyLong n) s).
Proof.
  split; [|split; [|split]].
  - intros n Ea Hn He. unfold LFUCache_set_capacity.
    rewrite (PyLong_AsLongLong_index arg Ea) by (unfold LLONG_MAX; lia).
    run. destruct (Z.leb_spec n 0); [|lia].
    run. cbn [err self]. rewrite He. reflexivity.
  - intros n Ea Hn. unfold LFUCache_set_capacity, PyLong_AsLongLong.
    rewrite Ea.
    assert (E : (LLONG_MIN <=? n) && (n <=? LLONG_MAX) = false).
    { destruct (Z.leb_spec LLONG_MIN n); destruct (Z.leb_spec n LLONG_MAX);
        try reflexivity. lia. }
    rewrite E. reflexivity.
  - intros e Ea. unfold LFUCache_set_capacity, PyLong_AsLongLong.
    rewrite Ea. reflexivity.
  - intros n Ea. unfold LFUCache_set_capacity, PyLong_AsLongLong.
    rewrite Ea. reflexivity.
Qed.

(** X14.  [set_capacity] with a positive capacity that is not below the
    size, or not below the old capacity: nothing is evicted, the clock is
    not read, and only the capacity changes. *)
Theorem set_capacity_without_eviction (s : Interp) (cap : Z) :
  0 < cap <= LLONG_MAX ->
  PyDict_Size (dict (self s)) <= cap \/ capacity (self s) <= cap ->
  LFUCache_set_capacity (PyLong cap) s
  = Done (Some Py_None)
      (mkInterp (mkCache (dict (self s)) cap (hits (self s))
                         (misses (self s)))
                (err s) (time_calls s) (rand_calls s)).
Proof.
  intros Hc Hroom. unfold LFUCache_set_capacity.
  rewrite PyLong_AsLongLong_in_range by (unfold LLONG_MIN in *; lia).
  run. destruct (Z.leb_spec cap 0); [lia|]. run. run. cbn [self dict].
  assert (E : (cap <? capacity (self s))
              && (PyDict_Size (dict (self s)) >? cap) = false).
  { destruct (Z.ltb_spec cap (capacity (self s)));
      destruct (Z.gtb_spec (PyDict_Size (dict (self s))) cap);
      try reflexivity. lia. }
  rewrite E. reflexivity.
Qed.

(** X15.  [tp_init] accepts an argument that converts to a positive
    capacity and zeroes the counters; it refuses a capacity that is zero or
    negative with [ValueError], after having stored it; when the argument
    does not fit a [Py_ssize_t] ([OverflowError]) or its conversion fails
    (with the exception of the conversion, [TypeError] for an object
    without [__index__]) nothing is stored.  It never touches the
    dictionary. *)
Theorem init_checks_capacity (s : Interp) (arg : PyArg) :
  (forall n, PyNumber_Index arg = inl n ->
     0 < n <= PY_SSIZE_T_MAX ->
     LFUCache_init arg s
     = Done 0 (mkInterp (mkCache (dict (self s)) n 0 0)
                        (err s) (time_calls s) (rand_calls s)))
  /\ (forall n, PyNumber_Index arg = inl n ->
        - PY_SSIZE_T_MAX - 1 <= n <= 0 ->
        LFUCache_init arg s
        = Done (-1)
            (mkInterp (mkCache (dict (self s)) n (hits (self s))
                               (misses (self s)))
                      (Some PyExc_ValueError) (time_calls s) (rand_calls s)))
  /\ (forall n, PyNumber_Index arg = inl n ->
        n < - PY_SSIZE_T_MAX - 1 \/ PY_SSIZE_T_MAX < n ->
        LFUCache_init arg s
        = Done (-1) (mkInterp (self s) (Some PyExc_OverflowError)
                              (time_calls s) (rand_calls s)))
  /\ (forall e, PyNumber_Index arg = inr e ->
        LFUCache_init arg s
        = Done (-1) (mkInterp (self s) (Some e)
                              (time_calls s) (rand_calls s)))
  /\ (forall r s',
        LFUCache_init arg s = Done r s' -> dict (self s') = dict (self s)).
Proof.
  assert (R : forall n, - PY_SSIZE_T_MAX - 1 <= n <= PY_SSIZE_T_MAX ->
                (- PY_SSIZE_T_MAX - 1 <=? n) && (n <=? PY_SSIZE_T_MAX) = true).
  { intros n Hn.
    destruct (Z.leb_spec (- PY_SSIZE_T_MAX - 1) n); [|lia].
    destruct (Z.leb_spec n PY_SSIZE_T_MAX); [reflexivity|lia]. }
  split; [|split; [|split; [|split]]].
  - intros n Ea Hn. unfold LFUCache_init. rewrite Ea.
    rewrite R by (unfold PY_SSIZE_T_MAX in *; lia).
    run. run. destruct (Z.leb_spec n 0); [lia|]. reflexivity.
  - intros n Ea Hn. unfold LFUCache_init. rewrite Ea.
    rewrite R by (unfold PY_SSIZE_T_MAX in *; lia).
    run. run. destruct (Z.leb_spec n 0); [|lia]. reflexivity.
  - intros n Ea Hn. unfold LFUCache_init. rewrite Ea.
    assert (E : (- PY_SSIZE_T_MAX - 1 <=? n) && (n <=? PY_SSIZE_T_MAX)
                = false).
    { destruct (Z.leb_spec (- PY_SSIZE_T_MAX - 1) n);
        destruct (Z.leb_spec n PY_SSIZE_T_MAX); try reflexivity. lia. }
    rewrite E. reflexivity.
  - intros e Ea. unfold LFUCache_init. rewrite Ea. reflexivity.
  - intros r s' E. unfold LFUCache_init in E.
    destruct (PyNumber_Index arg) as [n|e];
      [|injection E as _ <-; reflexivity].
    destruct (_ && _); [|injection E as _ <-; reflexivity].
    unfold bind, get_self, put_self in E. cbn in E.
    destruct (n <=? 0); injection E as _ <-; reflexivity.
Qed.

(** ** Views *)

Lemma GetItem_app_skip (d1 d2 : PyDict) (key : K) :
  ~ In key (PyDict_Keys d1) ->
  PyDict_GetItem (d1 ++ d2) key = PyDict_GetItem d2 key.
Proof.
  unfold PyDict_Keys. induction d1 as [|[k w] d1 IH]; simpl; [reflexivity|].
  intros N. destruct (key_eq_dec key k) as [E|_].
  - exfalso. apply N. left. now symmetry.
  - apply IH. intros I. apply N. now right.
Qed.

Lemma dict_store_app_skip (d1 d2 : PyDict) (key : K) (w w' : LFUWrapper) :
  ~ In key (PyDict_Keys d1) ->
  dict_store (d1 ++ (key, w) :: d2) key w' = d1 ++ (key, w') :: d2.
Proof.
  unfold PyDict_Keys. induction d1 as [|[k w0] d1 IH]; simpl.
  - intros _. destruct (key_eq_dec key key); [reflexivity|congruence].
  - intros N. destruct (key_eq_dec key k) as [E|_].
    + exfalso. apply N. left. now symmetry.
    + f_equal. apply IH. intros I. apply N. now right.
Qed.

Lemma wrapped_each_visits (suf pre : PyDict) (s : Interp) :
  dict (self s) = pre ++ suf ->
  NoDup (PyDict_Keys (pre ++ suf)) ->
  wrapped_each (PyDict_Keys suf) s
  = Done (map (fun kw => (fst kw, wrapped (snd kw))) suf)
      (mkInterp (mkCache (pre ++ visit_all (time_calls s) suf)
                         (capacity (self s)) (hits (self s))
                         (misses (self s)))
                (err s) (length suf + time_calls s) (rand_calls s)).
Proof.
  revert pre s. induction suf as [|[k w] suf IH]; intros pre s Ed ND.
  - simpl. rewrite app_nil_r in *. rewrite <- Ed.
    destruct s as [[d c h m] e t n]. reflexivity.
  - assert (Nk : ~ In k (PyDict_Keys pre)).
    { unfold PyDict_Keys in *. rewrite map_app in ND. simpl in ND.
      apply NoDup_remove_2 in ND. intros I. apply ND.
      apply in_or_app. now left. }
    assert (G : PyDict_GetItem (dict (self s)) k = Some w).
    { rewrite Ed, GetItem_app_skip by exact Nk. simpl.
      destruct (key_eq_dec k k); [reflexivity|congruence]. }
    cbn [PyDict_Keys map fst wrapped_each].
    rewrite (@bind_Done _ _ _ _ _ _ _ (wrapped_present s k G)).
    rewrite Ed, (@dict_store_app_skip pre suf k w _ Nk).
    change (map fst suf) with (PyDict_Keys suf).
    set (s1 := tick (with_dict
                 (pre ++ (k, visited (time_calls s) w) :: suf) s)).
    assert (E1 : wrapped_each (PyDict_Keys suf) s1
                 = Done (map (fun kw => (fst kw, wrapped (snd kw))) suf)
                     (mkInterp
                        (mkCache ((pre ++ [(k, visited (time_calls s) w)])
                                  ++ visit_all (time_calls s1) suf)
                                 (capacity (self s1)) (hits (self s1))
                                 (misses (self s1)))
                        (err s1) (length suf + time_calls s1)
                        (rand_calls s1))).
    { apply IH.
      - cbn. rewrite <- app_assoc. reflexivity.
      - rewrite <- app_assoc. cbn [app].
        unfold PyDict_Keys in *. rewrite map_app in *. exact ND. }
    rewrite (@bind_Done _ _ _ _ _ _ _ E1).
    cbn. unfold ret. f_equal. f_equal; [|lia]. f_equal.
    rewrite <- app_assoc. reflexivity.
Qed.

(** X16.  [values] and [items] (keys unique): they return the stored values,
    respectively the pairs, in iteration order, and record a visit on every
    entry on the way, each with a clock reading of its own; capacity and
    counters are untouched. *)
Theorem values_visit_every_entry (s : Interp) :
  NoDup (PyDict_Keys (dict (self s))) ->
  LFUCache_values s
  = Done (Some (map (fun kw => wrapped (snd kw)) (dict (self s))))
      (mkInterp (mkCache (visit_all (time_calls s) (dict (self s)))
                         (capacity (self s)) (hits (self s))
                         (misses (self s)))
                (err s) (length (dict (self s)) + time_calls s)
                (rand_calls s))
  /\ LFUCache_items s
     = Done (Some (map (fun kw => (fst kw, wrapped (snd kw))) (dict (self s))))
         (mkInterp (mkCache (visit_all (time_calls s) (dict (self s)))
                            (capacity (self s)) (hits (self s))
                            (misses (self s)))
                   (err s) (length (dict (self s)) + time_calls s)
                   (rand_calls s)).
Proof.
  intros ND.
  pose proof (@wrapped_each_visits (dict (self s)) [] s eq_refl ND) as E.
  cbn [app] in E. split.
  - unfold LFUCache_values. run.
    rewrite (@bind_Done _ _ _ _ _ _ _ E). unfold ret. rewrite map_map.
    reflexivity.
  - unfold LFUCache_items. run.
    rewrite (@bind_Done _ _ _ _ _ _ _ E). reflexivity.
Qed.

(** X17.  The calls that only ask ([len], containment, iteration, [keys],
    [hints], [_store], [get]) return a value and leave the whole state as it
    was, error indicator and clock included.  [len] is the number of
    entries, containment is 1 exactly for the keys that have an entry, and
    iteration and [keys] give the keys in iteration order. *)
Theorem queries_change_nothing (s : Interp) :
  (forall call, is_query call = true ->
     exists r, exec call s = Done (Some r) s)
  /\ exec Call_len s = Done (Some (R_Int (PyDict_Size (dict (self s))))) s
  /\ (forall key,
        exec (Call_contains key) s
        = Done (Some (R_Int (match PyDict_GetItem (dict (self s)) key with
                             | Some _ => 1
                             | None => 0
                             end))) s)
  /\ exec Call_keys s = Done (Some (R_Keys (PyDict_Keys (dict (self s))))) s
  /\ exec Call_iter s = Done (Some (R_Keys (PyDict_Keys (dict (self s))))) s.
Proof.
  split; [|repeat split].
  intros call Hq. destruct call; try discriminate Hq;
    try (eexists; reflexivity).
  cbn [exec]. unfold of_ptr, LFUCache_get, PyLFUCache_GetItem, bind, get_self,
    ret.
  destruct (PyDict_GetItem (dict (self s)) key); [|destruct _default];
    eexists; reflexivity.
Qed.

(** X18.  On a miss, [get] and [pop] return the default, or [None] when no
    default is given, raise nothing and leave the whole state as it was. *)
Theorem get_and_pop_on_a_miss (s : Interp) (key : K) (_default : option V) :
  PyDict_GetItem (dict (self s)) key = None ->
  LFUCache_get key _default s
  = Done (Some (match _default with Some d => d | None => Py_None end)) s
  /\ LFUCache_pop key _default s
     = Done (Some (match _default with Some d => d | None => Py_None end)) s.
Proof.
  intros G. unfold LFUCache_get, LFUCache_pop, PyLFUCache_GetItem, bind,
    get_self, ret. rewrite G. destruct _default; split; reflexivity.
Qed.

(** ** Insert-if-absent and bulk update *)

(** X19.  [setdefault]: on a hit it returns the stored value, ignores the
    default and records a visit; on a miss, whenever it returns, it returns
    the default ([None] when there is none) and that value is then stored
    at the key in a new entry.  Capacity and counters are untouched. *)
Theorem setdefault_returns_what_is_stored (s : Interp) (key : K)
    (_default : option V) :
  (forall w, PyDict_GetItem (dict (self s)) key = Some w ->
     LFUCache_setdefault key _default s
     = Done (Some (wrapped w))
         (tick (with_dict (dict_store (dict (self s)) key
                                      (visited (time_calls s) w)) s)))
  /\ (PyDict_GetItem (dict (self s)) key = None ->
      forall r s',
        LFUCache_setdefault key _default s = Done r s' ->
        r = Some (match _default with Some d => d | None => Py_None end)
        /\ frame s s'
        /\ exists w',
             PyDict_GetItem (dict (self s')) key = Some w'
             /\ wrapped w'
                = match _default with Some d => d | None => Py_None end
             /\ visit_count w' = LFU_INIT_VAL).
Proof.
  split.
  - intros w G. unfold LFUCache_setdefault. run. rewrite G.
    rewrite (@bind_Done _ _ _ _ _ _ _ (wrapped_present s key G)).
    reflexivity.
  - intros G r s' E. unfold LFUCache_setdefault in E.
    erewrite bind_Done in E; [|reflexivity]. rewrite G in E.
    cbv zeta in E. unfold bind in E.
    destruct (PyLFUCache_SetItem key _ s) as [r0 s0| |] eqn:ES;
      try discriminate E.
    pose proof (@post_Done _ _ _ _ _ _ (SetItem_lookup key _ s) ES)
      as (-> & F & w' & G' & Ew & Hc & _).
    injection E as <- <-. split; [reflexivity|]. split; [exact F|].
    exists w'. split; [exact G'|]. split; [exact Ew|]. exact (Hc G).
Qed.

(** X20.  [setnx]: an object that is not callable is refused with
    [TypeError] before the key is looked up; on a hit the callback is not
    consulted (whatever it would produce, the stored value is returned and a
    visit recorded); on a miss with a callback that returns [v], whenever
    [setnx] returns, it returns [v] and [v] is then stored at the key in a
    new entry. *)
Theorem setnx_calls_back_only_on_a_miss (s : Interp) (key : K) :
  LFUCache_setnx key NotCallable s
  = Done None (mkInterp (self s) (Some PyExc_TypeError)
                        (time_calls s) (rand_calls s))
  /\ (forall w result,
        PyDict_GetItem (dict (self s)) key = Some w ->
        LFUCache_setnx key (Callable result) s
        = Done (Some (wrapped w))
            (tick (with_dict (dict_store (dict (self s)) key
                                         (visited (time_calls s) w)) s)))
  /\ (PyDict_GetItem (dict (self s)) key = None ->
      forall v r s',
        LFUCache_setnx key (Callable (inl v)) s = Done r s' ->
        r = Some v
        /\ frame s s'
        /\ exists w',
             PyDict_GetItem (dict (self s')) key = Some w'
             /\ wrapped w' = v
             /\ visit_count w' = LFU_INIT_VAL).
Proof.
  split; [reflexivity|]. split.
  - intros w result G. unfold LFUCache_setnx. run. rewrite G.
    rewrite (@bind_Done _ _ _ _ _ _ _ (wrapped_present s key G)).
    reflexivity.
  - intros G v r s' E. unfold LFUCache_setnx in E.
    erewrite bind_Done in E; [|reflexivity]. rewrite G in E.
    erewrite bind_Done in E; [|reflexivity]. cbv beta iota in E.
    unfold bind in E.
    destruct (PyLFUCache_SetItem key v s) as [r0 s0| |] eqn:ES;
      try discriminate E.
    pose proof (@post_Done _ _ _ _ _ _ (SetItem_lookup key v s) ES)
      as (-> & F & w' & G' & Ew & Hc & _).
    injection E as <- <-. split; [reflexivity|]. split; [exact F|].
    exists w'. split; [exact G'|]. split; [exact Ew|]. exact (Hc G).
Qed.



(** X22.  [update] with a positional dictionary and keyword arguments: the
    position reached in the first dictionary is where the walk over the
    keyword arguments starts, so as many keyword arguments as the
    dictionary has entries are skipped; keyword arguments that are not more
    numerous than those entries have no effect at all. *)
Theorem update_skips_keyword_arguments (s : Interp)
    (l kwargs : list (K * V)) :
  LFUCache_update (Some l) (Some kwargs) s
  = match LFUCache_update (Some l) None s with
    | Done (Some _) s1 =>
        LFUCache_update None (Some (skipn (length l) kwargs)) s1
    | other => other
    end
  /\ ((length kwargs <= length l)%nat ->
      LFUCache_update (Some l) (Some kwargs) s
      = LFUCache_update (Some l) None s).
Proof.
  split.
  - unfold LFUCache_update, bind.
    destruct (update_loop l s) as [[|] s1| |]; reflexivity.
  - intros H. unfold LFUCache_update. rewrite skipn_all2 by exact H.
    unfold bind. destruct (update_loop l s) as [[|] s1| |]; reflexivity.
Qed.

(** ** Clearing and shrinking *)

(** X23.  [clear] returns [None], removes every entry, zeroes the counters
    and keeps the capacity; afterwards every containment check answers 0,
    [lfu] fails with [KeyError], and with a positive capacity the next
    store of any key needs no eviction and leaves exactly that entry. *)
Theorem clear_then_empty (s : Interp) (key : K) (value : V) :
  0 < capacity (self s) ->
  exists s1,
    exec Call_clear s = Done (Some (R_Obj Py_None)) s1
    /\ self s1 = mkCache [] (capacity (self s)) 0 0
    /\ err s1 = err s
    /\ exec (Call_contains key) s1 = Done (Some (R_Int 0)) s1
    /\ (exists s2, exec Call_lfu s1 = Done None s2
                   /\ err s2 = Some PyExc_KeyError /\ self s2 = self s1)
    /\ exists s3,
         exec (Call_setitem key value) s1 = Done (Some (R_Int 0)) s3
         /\ dict (self s3) = [(key, fresh (time_calls s) value)].
Proof.
  intros Hc. eexists. split.
  { cbn [exec]. unfold of_ptr.
    rewrite (@bind_Done _ _ _ _ _ _ _ (clear_Done s)). reflexivity. }
  split; [reflexivity|]. split; [reflexivity|]. split; [reflexivity|].
  split.
  - eexists. split.
    + cbn [exec]. unfold of_ptr.
      erewrite (@bind_Done _ _ _ _ _ _ _ (lfu_empty _ _)); reflexivity.
    + split; reflexivity.
  - eexists. split.
    + cbn [exec LFUCache_mp_ass_sub]. unfold of_status.
      erewrite (@bind_Done _ _ _ _ _ _ _ (SetItem_with_room _ key value _ _));
        reflexivity.
    + reflexivity.
  Unshelve.
  all: cbn; try reflexivity.
  unfold PyDict_Size. simpl. lia.
Qed.

Lemma evict_loop_removes (r : nat) (s : Interp) :
  (r <= length (dict (self s)))%nat ->
  post (evict_loop r) s (fun ok s' =>
    ok = true /\ frame s s'
    /\ exists ks,
         length ks = r
         /\ dict (self s') = fold_left dict_remove ks (dict (self s))
         /\ (length (dict (self s')) + r)%nat = length (dict (self s))).
Proof.
  revert s. induction r as [|r IH]; intros s Hr; cbn [evict_loop].
  - apply post_ret. split; [reflexivity|]. split; [apply frame_refl|].
    exists []. repeat split. lia.
  - apply post_bind. eapply post_weaken; [apply evict_spec_remove|].
    intros e s1 (-> & F1 & [[E _]|(k & Hin & E1)]).
    { rewrite E in Hr. simpl in Hr. lia. }
    destruct (PyDict_GetItem (dict (self s)) k) as [w|] eqn:G;
      [|exfalso; exact (GetItem_In _ _ Hin G)].
    pose proof (length_remove _ _ G) as L.
    eapply post_weaken.
    + apply IH. rewrite E1. lia.
    + intros ok s2 (-> & F2 & ks & Lk & E2 & L2).
      split; [reflexivity|]. split; [exact (frame_trans F1 F2)|].
      exists (k :: ks). split; [simpl; lia|].
      split; [rewrite E2, E1; reflexivity|]. rewrite E1 in L2. lia.
Qed.

(** X24.  [set_capacity] below the size, in either regime, for a cache
    within its capacity whose size fits in an [int]: whenever it returns, it
    returns [None]; exactly [size - cap] entries have been removed, one
    key at a time, and the others are as they were; the size and the
    capacity are [cap]; the counters are untouched. *)
Theorem set_capacity_shrinks (s s' : Interp) (cap : Z) (r : option V) :
  0 < cap ->
  cap < PyDict_Size (dict (self s)) ->
  PyDict_Size (dict (self s)) <= capacity (self s) ->
  PyDict_Size (dict (self s)) <= INT_MAX ->
  LFUCache_set_capacity (PyLong cap) s = Done r s' ->
  r = Some Py_None
  /\ capacity (self s') = cap
  /\ PyDict_Size (dict (self s')) = cap
  /\ hits (self s') = hits (self s)
  /\ misses (self s') = misses (self s)
  /\ exists ks,
       Z.of_nat (length ks) = PyDict_Size (dict (self s)) - cap
       /\ dict (self s') = fold_left dict_remove ks (dict (self s)).
Proof.
  intros Hpos Hlt Hinv Hint E.
  unfold LFUCache_set_capacity in E.
  rewrite PyLong_AsLongLong_in_range in E
    by (unfold LLONG_MIN, LLONG_MAX, INT_MAX in *; lia).
  erewrite bind_Done in E; [|reflexivity].
  destruct (Z.leb_spec cap 0); [lia|].
  erewrite bind_Done in E; [|reflexivity].
  erewrite bind_Done in E; [|reflexivity]. cbn [self dict] in E.
  destruct (Z.ltb_spec cap (capacity (self s))); [|lia].
  destruct (Z.gtb_spec (PyDict_Size (dict (self s))) cap); [|lia].
  cbn [andb] in E.
  rewrite to_int_small in E by (unfold INT_MAX in *; lia).
  unfold bind at 1 in E.
  destruct (evict_loop _ s) as [ok s1| |] eqn:EL; try discriminate E.
  assert (P := @evict_loop_removes
                 (Z.to_nat (PyDict_Size (dict (self s)) - cap)) s).
  unfold PyDict_Size in *.
  pose proof (@post_Done _ _ _ _ _ _ (P ltac:(lia)) EL)
    as (-> & (Fc & Fh & Fm) & ks & Lk & Ed & L).
  unfold bind, get_self, put_self, ret in E. injection E as <- <-. cbn.
  split; [reflexivity|]. split; [reflexivity|]. split; [lia|].
  split; [exact Fh|]. split; [exact Fm|].
  exists ks. split; [lia|exact Ed].
Qed.

(** ** More on stores, reads and weights *)

(** X25.  Storing a key that is absent into a full cache that is not empty,
    in either regime: whenever the store returns, it reports success, one
    entry of the old dictionary has been removed, the others are as they
    were, and the new entry has been appended with count
    [LFU_INIT_VAL]. *)
Theorem SetItem_full_evicts_one (s s' : Interp) (key : K) (value : V)
    (r : Z) :
  PyDict_GetItem (dict (self s)) key = None ->
  PyDict_Size (dict (self s)) + 1 > capacity (self s) ->
  dict (self s) <> [] ->
  PyLFUCache_SetItem key value s = Done r s' ->
  r = 0
  /\ exists k w',
       In k (PyDict_Keys (dict (self s)))
       /\ dict (self s') = dict_remove (dict (self s)) k ++ [(key, w')]
       /\ wrapped w' = value
       /\ visit_count w' = LFU_INIT_VAL.
Proof.
  intros G Hfull N E.
  assert (P : post (PyLFUCache_SetItem key value) s (fun r s' =>
            r = 0
            /\ exists k w',
                 In k (PyDict_Keys (dict (self s)))
                 /\ dict (self s') = dict_remove (dict (self s)) k ++ [(key, w')]
                 /\ wrapped w' = value
                 /\ visit_count w' = LFU_INIT_VAL)).
  { unfold PyLFUCache_SetItem. step. rewrite G. step.
    destruct (Z.gtb_spec (PyDict_Size (dict (self s)) + 1)
                         (capacity (self s))); [|lia].
    apply post_bind. eapply post_weaken; [apply evict_spec_remove|].
    intros e s1 (-> & _ & [[E0 _]|(k & Hin & E1)]); [congruence|].
    step. step. step. apply post_ret.
    split; [reflexivity|]. exists k.
    exists (mkWrapper value (minutes_of (time (time_calls s1))) LFU_INIT_VAL).
    split; [exact Hin|]. split; [|split; reflexivity].
    cbn. rewrite E1. unfold PyDict_SetItem.
    rewrite (@GetItem_remove_None _ _ k G). reflexivity. }
  exact (@post_Done _ _ _ _ _ _ P E).
Qed.

(** X26.  A hit of the indexed read changes the entry of its key only: the
    keys and their order, every other entry and the capacity are as they
    were; a miss leaves the dictionary as it was. *)
Theorem getitem_touches_its_entry_only (s s' : Interp) (key : K)
    (r : option V) :
  LFUCache_mp_subscript key s = Done r s' ->
  PyDict_Keys (dict (self s')) = PyDict_Keys (dict (self s))
  /\ capacity (self s') = capacity (self s)
  /\ (forall k', k' <> key ->
        PyDict_GetItem (dict (self s')) k'
        = PyDict_GetItem (dict (self s)) k')
  /\ (PyDict_GetItem (dict (self s)) key = None ->
      dict (self s') = dict (self s) /\ r = None).
Proof.
  intros E.
  destruct (PyDict_GetItem (dict (self s)) key) as [w|] eqn:G.
  - rewrite (mp_subscript_hit s key G) in E. injection E as <- <-. cbn.
    split; [apply Keys_store|]. split; [reflexivity|].
    split; [|discriminate]. intros k' N. now apply GetItem_store_other.
  - rewrite (mp_subscript_miss s key G) in E. injection E as <- <-. cbn.
    repeat split.
Qed.

(** X27.  Delete, then store again (keys unique, cache within its
    capacity): the key comes back at the end of the iteration order, in a
    new entry with count [LFU_INIT_VAL] and the current minute, and nothing
    is evicted; the weight the entry had is lost. *)
Theorem delitem_then_setitem_starts_afresh (s : Interp) (key : K)
    (value : V) (w : LFUWrapper) :
  PyDict_GetItem (dict (self s)) key = Some w ->
  NoDup (PyDict_Keys (dict (self s))) ->
  PyDict_Size (dict (self s)) <= capacity (self s) ->
  exists s1 s2,
    exec (Call_delitem key) s = Done (Some (R_Int 0)) s1
    /\ exec (Call_setitem key value) s1 = Done (Some (R_Int 0)) s2
    /\ dict (self s2)
       = dict_remove (dict (self s)) key
         ++ [(key, fresh (time_calls s) value)]
    /\ time_calls s2 = S (time_calls s).
Proof.
  intros G ND Hinv.
  assert (G1 : PyDict_GetItem (dict_remove (dict (self s)) key) key = None).
  { now apply GetItem_remove_same. }
  pose proof (length_remove _ _ G) as L.
  exists (with_dict (dict_remove (dict (self s)) key) s). eexists.
  split.
  { cbn [exec LFUCache_mp_ass_sub]. unfold of_status.
    rewrite (@bind_Done _ _ _ _ _ _ _ (DelItem_present s key G)).
    reflexivity. }
  split.
  { cbn [exec LFUCache_mp_ass_sub]. unfold of_status.
    rewrite (@bind_Done _ _ _ _ _ _ _
               (@SetItem_with_room
                  (with_dict (dict_remove (dict (self s)) key) s)
                  key value G1 ltac:(unfold PyDict_Size in *; cbn; lia))).
    reflexivity. }
  split; reflexivity.
Qed.

(** X28.  Whatever the clock reads, the weight of an entry lies between 0
    and its [visit_count]. *)
Theorem weight_between_zero_and_count (w : LFUWrapper) (now : Z) :
  0 <= visit_count w <= UINT32_MAX ->
  0 <= LFUWrapper_WEIGHT w now <= visit_count w.
Proof.
  intros Hc. unfold LFUWrapper_WEIGHT.
  pose proof (to_uint32_range (now - last_visit w)) as R.
  destruct (Z.gtb_spec (to_uint32 (now - last_visit w)) (visit_count w));
    [lia|].
  rewrite to_uint32_small by lia. lia.
Qed.

(** ** C7: the entries that shrinking removes *)

Lemma spec_scan_positive (now : Z) (d : PyDict) (best : option (Z * K)) :
  (forall k w, In (k, w) d -> 0 < LFUWrapper_WEIGHT w now) ->
  (forall m k, best = Some (m, k) -> 0 < m) ->
  forall m k, spec_scan now d best = Some (m, k) -> 0 < m.
Proof.
  revert best. induction d as [|[k1 w1] d IH]; intros best Hpos Hb; simpl.
  - exact Hb.
  - apply IH.
    + intros k w I. apply (Hpos k w). now right.
    + assert (H1 : 0 < LFUWrapper_WEIGHT w1 now).
      { apply (Hpos k1 w1). now left. }
      intros m k E. destruct best as [[m0 k0']|].
      * destruct (_ <? _); [|exact (Hb m k E)].
        injection E as <- _. exact H1.
      * injection E as <- _. exact H1.
Qed.

Lemma spec_scan_zero (now : Z) (d : PyDict) (k0 : K) :
  spec_scan now d (Some (0, k0)) = Some (0, k0).
Proof.
  induction d as [|[k w] d IH]; simpl; [reflexivity|].
  pose proof (WEIGHT_nonneg w now).
  destruct (Z.ltb_spec (LFUWrapper_WEIGHT w now) 0); [lia|exact IH].
Qed.

(** The first entry of weight zero is the victim of the specification. *)
Lemma spec_victim_first_zero (now : Z) (d1 d2 : PyDict) (k0 : K)
    (w0 : LFUWrapper) :
  (forall k w, In (k, w) d1 -> 0 < LFUWrapper_WEIGHT w now) ->
  LFUWrapper_WEIGHT w0 now = 0 ->
  spec_victim now (d1 ++ (k0, w0) :: d2) = Some k0.
Proof.
  intros Hpos Hz. unfold spec_victim.
  assert (A : forall best,
            (forall m k, best = Some (m, k) -> 0 < m) ->
            spec_scan now (d1 ++ (k0, w0) :: d2) best = Some (0, k0)).
  { intros best Hb.
    assert (S : forall d best',
              spec_scan now (d ++ (k0, w0) :: d2) best'
              = spec_scan now ((k0, w0) :: d2) (spec_scan now d best')).
    { induction d as [|[k w] d IH]; intros best'; simpl; [reflexivity|].
      apply IH. }
    rewrite S. simpl. rewrite Hz.
    pose proof (@spec_scan_positive now d1 best Hpos Hb) as P.
    destruct (spec_scan now d1 best) as [[m k]|].
    - destruct (Z.ltb_spec 0 m) as [_|G]; [apply spec_scan_zero|].
      specialize (P m k eq_refl). lia.
    - apply spec_scan_zero. }
  rewrite A; [reflexivity|]. intros m k E. discriminate E.
Qed.

(** After an entry of weight zero the exact scan starts afresh. *)
Lemma exact_victim_after_zero (t : nat) (d1 d2 : PyDict) (k0 : K)
    (w0 : LFUWrapper) :
  LFUWrapper_WEIGHT w0 (minutes_of (time t)) = 0 ->
  d2 <> [] ->
  exact_victim t (d1 ++ (k0, w0) :: d2) = exact_victim t d2.
Proof.
  intros Hz N. unfold exact_victim. rewrite lfu_scan_app. cbn [lfu_scan].
  rewrite (@lfu_compare_zero_weight _ k0 w0 _ Hz)
    by (apply lfu_scan_fst_nonneg; simpl; lia).
  now rewrite (@lfu_scan_from_zero _ d2 (Some k0) None N).
Qed.

(** C7.  Exact-scan regime, cache within its capacity, keys unique.  Let
    [k0] be the first entry whose weight is zero at the minute of the call,
    with entries after it.  That entry is the victim of the selection as the
    specification words it (least weight, first met).  [set_capacity] with
    the size less one returns [None] and removes one entry, but not that
    one: it removes the key of an entry that comes after [k0], and [k0]
    stays in the cache. *)
Theorem set_capacity_evicts_past_zero_weight (s : Interp) (d1 d2 : PyDict)
    (k0 : K) (w0 : LFUWrapper) :
  dict (self s) = d1 ++ (k0, w0) :: d2 ->
  d2 <> [] ->
  NoDup (PyDict_Keys (dict (self s))) ->
  PyDict_Size (dict (self s)) < LFU_BUCKET_SIZE ->
  PyDict_Size (dict (self s)) <= capacity (self s) ->
  (forall k w, In (k, w) d1 ->
     0 < LFUWrapper_WEIGHT w (minutes_of (time (time_calls s)))) ->
  LFUWrapper_WEIGHT w0 (minutes_of (time (time_calls s))) = 0 ->
  spec_victim (minutes_of (time (time_calls s))) (dict (self s)) = Some k0
  /\ exists k s',
       LFUCache_set_capacity (PyLong (PyDict_Size (dict (self s)) - 1)) s
       = Done (Some Py_None) s'
       /\ k <> k0
       /\ In k (PyDict_Keys d2)
       /\ dict (self s') = dict_remove (dict (self s)) k
       /\ PyDict_GetItem (dict (self s')) k0 = Some w0
       /\ capacity (self s') = PyDict_Size (dict (self s)) - 1.
Proof.
  intros Ed N ND Hsmall Hinv Hpos Hz.
  split; [rewrite Ed; now apply spec_victim_first_zero|].
  destruct (exact_victim_In (time_calls s) N) as (k & Ek & Hin).
  assert (Ev : exact_victim (time_calls s) (dict (self s)) = Some k).
  { rewrite Ed, (@exact_victim_after_zero (time_calls s) d1 d2 k0 w0 Hz N).
    exact Ek. }
  assert (Hall : In k (PyDict_Keys (dict (self s)))).
  { rewrite Ed. unfold PyDict_Keys in *. rewrite map_app.
    apply in_or_app. right. right. exact Hin. }
  assert (Keys : PyDict_Keys (dict (self s))
                 = PyDict_Keys d1 ++ k0 :: PyDict_Keys d2).
  { rewrite Ed. unfold PyDict_Keys. now rewrite map_app. }
  rewrite Keys in ND.
  pose proof (NoDup_remove_2 _ _ _ ND) as Nk0.
  assert (Nk : k <> k0).
  { intros ->. apply Nk0, in_or_app. now right. }
  assert (Nd1 : ~ In k0 (PyDict_Keys d1)).
  { intros I. apply Nk0, in_or_app. now left. }
  assert (Hlen : 2 <= PyDict_Size (dict (self s))).
  { rewrite Ed. unfold PyDict_Size. rewrite length_app. cbn [length].
    destruct d2; [congruence|]. cbn [length]. lia. }
  assert (Hb : PyDict_Size (dict (self s)) < 256) by exact Hsmall.
  exists k, (mkInterp (mkCache (dict_remove (dict (self s)) k)
                               (PyDict_Size (dict (self s)) - 1)
                               (hits (self s)) (misses (self s)))
                      (err s) (S (time_calls s)) (rand_calls s)).
  split.
  - unfold LFUCache_set_capacity.
    rewrite PyLong_AsLongLong_in_range
      by (unfold LLONG_MIN, LLONG_MAX; lia).
    run.
    destruct (Z.leb_spec (PyDict_Size (dict (self s)) - 1) 0); [lia|].
    run. run. cbn [self dict].
    destruct (Z.ltb_spec (PyDict_Size (dict (self s)) - 1)
                         (capacity (self s))); [|lia].
    destruct (Z.gtb_spec (PyDict_Size (dict (self s)))
                         (PyDict_Size (dict (self s)) - 1)); [|lia].
    cbn [andb].
    replace (PyDict_Size (dict (self s))
             - (PyDict_Size (dict (self s)) - 1)) with 1 by lia.
    change (Z.to_nat (to_int 1)) with 1%nat.
    destruct (@evict_loop_exact 1 s Hsmall) as [E _].
    { unfold PyDict_Size in Hlen. lia. }
    cbn [evictions] in E. rewrite Ev in E.
    rewrite (@bind_Done _ _ _ _ _ _ _ E). reflexivity.
  - split; [exact Nk|]. split; [exact Hin|]. split; [reflexivity|].
    split; [|reflexivity]. cbn [self dict].
    rewrite (@GetItem_remove_other _ k k0) by (intros E; now apply Nk).
    rewrite Ed, (@GetItem_app_skip d1 ((k0, w0) :: d2) k0 Nd1). simpl.
    destruct (key_eq_dec k0 k0); [reflexivity|congruence].
Qed.

(** ** C6: more entries than the capacity *)

(** C6.  [set_capacity] keeps the number of evictions, [size - cap], in a
    C [int].  When that number does not fit and is truncated to zero or
    less, a cache within its capacity evicts nothing, takes the new
    capacity and reports success: it is left with more entries than its
    capacity. *)
Theorem set_capacity_truncates_evictions (s : Interp) (cap : Z) :
  0 < cap <= LLONG_MAX ->
  cap < PyDict_Size (dict (self s)) ->
  Inv (self s) ->
  to_int (PyDict_Size (dict (self s)) - cap) <= 0 ->
  exists s',
    exec (Call_set_capacity (PyLong cap)) s = Done (Some (R_Obj Py_None)) s'
    /\ dict (self s') = dict (self s)
    /\ capacity (self s') = cap
    /\ capacity (self s') < PyDict_Size (dict (self s')).
Proof.
  intros Hc Hlt [_ Hs] Ht.
  exists (mkInterp (mkCache (dict (self s)) cap (hits (self s))
                            (misses (self s)))
                   (err s) (time_calls s) (rand_calls s)).
  split; [|split; [reflexivity|split; [reflexivity|exact Hlt]]].
  assert (R : Z.to_nat (to_int (PyDict_Size (dict (self s)) - cap)) = O).
  { lia. }
  assert (E : LFUCache_set_capacity (PyLong cap) s
              = Done (Some Py_None)
                  (mkInterp (mkCache (dict (self s)) cap (hits (self s))
                                     (misses (self s)))
                            (err s) (time_calls s) (rand_calls s))).
  { unfold LFUCache_set_capacity.
    rewrite PyLong_AsLongLong_in_range by (unfold LLONG_MIN in *; lia).
    run. destruct (Z.leb_spec cap 0); [lia|].
    run. run. cbn [self dict].
    destruct (Z.ltb_spec cap (capacity (self s))); [|lia].
    destruct (Z.gtb_spec (PyDict_Size (dict (self s))) cap); [|lia].
    cbn [andb]. rewrite R. reflexivity. }
  cbn [exec]. unfold of_ptr.
  rewrite (@bind_Done _ _ _ _ _ _ _ E). reflexivity.
Qed.

End LFU.

Arguments Crash {K V A}.
Arguments Timeout {K V A}.

(** * A concrete cache *)

(** Keys and values are strings; the clock shows minute 0 at its first
    reading and minute 300 from then on. *)

Local Open Scope string_scope.

Definition demo_time (n : nat) : Z :=
  match n with
  | O => 0
  | S _ => 18000
  end.

Definition demo_rand (n : nat) : Z := 0.

Definition demo_exec : @Call string string -> M (option PyResult) :=
  exec string_dec "None" demo_time demo_rand 2147483647 16.

Definition demo_lfu : @M string string (option string) :=
  LFUCache_lfu string_dec demo_time demo_rand 2147483647 16.

Definition demo_set_capacity : PyArg -> @M string string (option string) :=
  LFUCache_set_capacity string_dec "None" demo_time demo_rand
                        2147483647 16.

Definition demo_setnx
    : string -> PyCallback -> @M string string (option string) :=
  LFUCache_setnx string_dec "None" demo_time demo_rand 2147483647 16.

(** What [tp_new] hands to [tp_init]. *)
Definition demo_fresh : @Interp string string :=
  mkInterp (LFUCache_new 0 0 0) None 0 0.

Definition demo_a : @LFUWrapper string := mkWrapper "1" 0 255.
Definition demo_b : @LFUWrapper string := mkWrapper "2" 300 255.

(** Capacity 2; [a] was stored at minute 0 and [b] at minute 300. *)
Definition demo_full : @Interp string string :=
  mkInterp (mkCache [("a", demo_a); ("b", demo_b)] 2 0 0)
           None 2 0.

(** The same cache after three hits and two misses. *)
Definition demo_used : @Interp string string :=
  mkInterp (mkCache [("a", demo_a); ("b", demo_b)] 2 3 2)
           None 2 0.

(** ** C1: the victim of the exact scan *)

(** C1, as the code has it.  With capacity 2, [a] is stored at minute 0 and
    [b] at minute 300.  At minute 300 the weight of [a] is 0 and the weight
    of [b] is 255, yet the scan selects [b]: the minimum 0 found at [a]
    reads as "no minimum yet" at the next entry.  Storing [c] then evicts
    [b] and keeps [a]. *)
Theorem lfu_selects_fresh_entry_over_zero_weight :
  (exists s1 s2,
     LFUCache_init (PyLong 2) demo_fresh = Done 0 s1
     /\ demo_exec (Call_setitem "a" "1") s1 = Done (Some (R_Int 0)) s2
     /\ demo_exec (Call_setitem "b" "2") s2 = Done (Some (R_Int 0)) demo_full)
  /\ LFUWrapper_WEIGHT demo_a 300 = 0
  /\ LFUWrapper_WEIGHT demo_b 300 = 255
  /\ demo_lfu demo_full = Done (Some "b") (tick demo_full)
  /\ (exists s',
        demo_exec (Call_setitem "c" "3") demo_full = Done (Some (R_Int 0)) s'
        /\ PyDict_Keys (dict (self s')) = ["a"; "c"]).
Proof.
  split.
  { exists (mkInterp (mkCache [] 2 0 0) None 0 0).
    exists (mkInterp (mkCache [("a", demo_a)] 2 0 0) None 1 0).
    split; [reflexivity|]. split; vm_compute; reflexivity. }
  split; [reflexivity|]. split; [reflexivity|].
  split; [vm_compute; reflexivity|].
  exists (mkInterp
            (mkCache [("a", demo_a); ("c", mkWrapper "3" 300 255)] 2 0 0)
            None 4 0).
  split; vm_compute; reflexivity.
Qed.

(** ** Instances of the theorems *)

(** [pop] of [a] from the cache that holds [a] and [b]. *)
Lemma pop_present_witness :
  LFUCache_pop string_dec "None" "a" None demo_full
  = Done None (with_dict [("b", demo_b)] demo_full)
  /\ PyDict_GetItem string_dec [("b", demo_b)] "a" = None.
Proof.
  destruct (pop_present_returns_NULL string_dec "None" demo_full
              "a" None (w := demo_a) eq_refl) as [E H].
  split; [exact E|]. apply H.
  constructor; [|constructor; [|constructor]].
  - intros [D|[]]. discriminate D.
  - intros [].
Defined.

(** Deleting [z] from the cache that holds [a] and [b]. *)
Lemma DelItem_absent_witness :
  PyLFUCache_DelItem string_dec "z" demo_full
  = Done (-1) (mkInterp (self demo_full) (Some PyExc_TypeError) 2 0)
  /\ demo_exec (Call_delitem "z") demo_full
     = Done None (mkInterp (self demo_full) (Some PyExc_TypeError) 2 0).
Proof.
  exact (DelItem_absent_sets_TypeError string_dec "None" demo_time
           demo_rand 2147483647 16 demo_full "z" eq_refl).
Defined.

(** [setnx] of the absent key [z] with a callback that raises. *)
Lemma setnx_failing_callback_witness :
  demo_setnx "z" (Callable (inr (PyExc_Raised 0))) demo_full = Crash.
Proof.
  exact (setnx_failing_callback_crashes string_dec "None" demo_time
           demo_rand 2147483647 16 demo_full "z" (PyExc_Raised 0)
           eq_refl).
Defined.

(** [clear] is a call other than the indexed read, and it changes both
    counters. *)
Lemma clear_changes_counters :
  exists s',
    demo_exec Call_clear demo_used = Done (Some (R_Obj "None")) s'
    /\ hits (self demo_used) = 3 /\ hits (self s') = 0
    /\ misses (self demo_used) = 2 /\ misses (self s') = 0.
Proof.
  exists (mkInterp (mkCache [] 2 0 0) None 2 0). repeat split.
Qed.

(** A hit on [a] at minute 300, from three hits and two misses. *)
Lemma counters_witness :
  exists s',
    demo_exec (Call_getitem "a") demo_used
    = Done (Some (R_Obj "1")) s'
    /\ hits (self s') = 4
    /\ misses (self s') = 2
    /\ PyDict_GetItem string_dec (dict (self s')) "a"
       = Some (mkWrapper "1" 300 256).
Proof.
  destruct (counters_change_in_getitem_and_clear string_dec "None"
              demo_time demo_rand 2147483647 16 demo_used) as [H _].
  apply (H "a" demo_a).
  - reflexivity.
  - split; [discriminate|reflexivity].
Defined.

(** Shrinking the full cache to capacity 1. *)
Lemma size_le_capacity_witness :
  exists s',
    demo_exec (Call_set_capacity (PyLong 1)) demo_full
    = Done (Some (R_Obj "None")) s'
    /\ Inv (self demo_full)
    /\ PyDict_Size (dict (self demo_full)) <= INT_MAX
    /\ Inv (self s').
Proof.
  assert (HI : Inv (self demo_full)).
  { split; [reflexivity|discriminate]. }
  assert (Hm : PyDict_Size (dict (self demo_full)) <= INT_MAX).
  { discriminate. }
  exists (mkInterp (mkCache [("a", demo_a)] 1 0 0) None 3 0).
  split; [vm_compute; reflexivity|]. split; [exact HI|]. split; [exact Hm|].
  destruct (size_le_capacity_invariant string_dec "None" demo_time
              demo_rand 2147483647 16) as (_ & H & _).
  exact (H (Call_set_capacity (PyLong 1)) demo_full _ _ HI
           (fun _ _ => Hm) eq_refl).
Defined.

(** Two entries, new capacity 1: one eviction. *)
Lemma set_capacity_shrinks_witness :
  exists s',
    demo_set_capacity (PyLong 1) demo_full = Done (Some "None") s'
    /\ dict (self s') = evictions string_dec demo_time 1 2 (dict (self demo_full))
    /\ PyDict_Size (dict (self s')) = 1
    /\ capacity (self s') = 1
    /\ hits (self s') = hits (self demo_full)
    /\ misses (self s') = misses (self demo_full).
Proof.
  apply (set_capacity_shrinks_exact string_dec "None" demo_time
           demo_rand 2147483647 16 demo_full (cap := 1));
    first [reflexivity | discriminate].
Defined.

(** The entry [a] (count 255, last visit at minute 0) at minutes 20 and
    400. *)
Lemma WEIGHT_decay_witness :
  LFUWrapper_WEIGHT demo_a 400 <= LFUWrapper_WEIGHT demo_a 20
  /\ 0 <= LFUWrapper_WEIGHT demo_a 400
  /\ (forall t, last_visit demo_a <= t <= UINT32_MAX ->
        LFUWrapper_WEIGHT demo_a t =
        if (t - last_visit demo_a <=? visit_count demo_a)%Z
        then visit_count demo_a - (t - last_visit demo_a) else 0).
Proof.
  apply (LFUWrapper_WEIGHT_decay demo_a (t1 := 20) (t2 := 400));
    split; first [reflexivity | discriminate].
Defined.

(** Storing a new value at the present key [a]. *)
Lemma SetItem_present_witness :
  exists s',
    PyLFUCache_SetItem string_dec "None" demo_time demo_rand
                       2147483647 16 "a" "9" demo_full
    = Done 0 s'
    /\ PyDict_GetItem string_dec (dict (self s')) "a"
       = Some (mkWrapper "9" 0 255).
Proof.
  destruct (SetItem_present_in_place string_dec "None" demo_time
              demo_rand 2147483647 16 demo_full "a" "9"
              (w := demo_a) eq_refl) as (s' & E & G & _).
  exists s'. split; [exact E|exact G].
Defined.

(** [get] of the present key [a] with a default. *)
Lemma get_present_witness :
  LFUCache_get string_dec "None" "a" (Some "d") demo_full
  = Done (Some "1") demo_full.
Proof.
  exact (get_present_records_no_visit string_dec "None" demo_full
           "a" (Some "d") (w := demo_a) eq_refl).
Defined.

(** * Instances of the further properties *)

(** The entry [b] (count 255, last visit at minute 300) at minute 299. *)
Lemma weight_when_clock_is_behind_witness :
  LFUWrapper_WEIGHT demo_b 299
  = if (visit_count demo_b + (last_visit demo_b - 299) <? 2 ^ 32)%Z then 0
    else visit_count demo_b + (last_visit demo_b - 299) - 2 ^ 32.
Proof.
  apply (weight_when_clock_is_behind demo_b (now := 299));
    repeat split; discriminate.
Defined.

(** Three entries visited at minute 300, none of weight zero then; room for
    two more. *)
Definition demo_warm : @Interp string string :=
  mkInterp (mkCache [("a", mkWrapper "1" 300 260);
                     ("b", mkWrapper "2" 300 255);
                     ("c", mkWrapper "3" 300 255)] 5 0 0)
           None 2 0.

(** A cache of 260 entries with integer keys, all stored at minute 0. *)
Definition demo_large : @Interp Z string :=
  mkInterp (mkCache (map (fun i => (Z.of_nat i, mkWrapper "v" 0 255))
                         (seq 0 260)) 260 0 0)
           None 2 0.

(** A cache of 512 * 512 entries. *)
Definition demo_huge : @Interp Z string :=
  mkInterp (mkCache (map (fun i => (Z.of_nat i, mkWrapper "v" 0 255))
                         (seq 0 (512 * 512))) 1000000 0 0)
           None 2 0.

(** An empty cache of capacity 2, with an error pending. *)
Definition demo_empty : @Interp string string :=
  mkInterp (mkCache [] 2 0 0) (Some PyExc_ValueError) 0 0.

(** An entry whose count is at [UINT32_MAX]. *)
Definition demo_hot : @LFUWrapper string := mkWrapper "h" 0 4294967295.

Lemma demo_rand_nonneg : forall n, 0 <= demo_rand n.
Proof. intros n H. discriminate H. Qed.

(** A visit on the entry whose count is at [UINT32_MAX]. *)
Lemma visit_then_weight_witness :
  exists w',
    LFUWrapper_UPDATE_WEIGHT demo_time demo_hot demo_full
    = Done w' (tick demo_full)
    /\ visit_count w' = 0
    /\ LFUWrapper_WEIGHT w' (last_visit w') = 0.
Proof.
  destruct (visit_then_weight demo_time demo_hot "x" demo_full)
    as [(w' & E & _ & _ & Ec & _ & Hz) _].
  exists w'. split; [exact E|]. split; [exact Ec|]. apply Hz. reflexivity.
Defined.

(** The scan over [a] (260), [b] (255), [c] (255) at minute 300. *)
Lemma lfu_exact_first_minimum_witness :
  exists d1 k w d2,
    dict (self demo_warm) = (d1 ++ (k, w) :: d2)%list
    /\ demo_lfu demo_warm = Done (Some k) (tick demo_warm)
    /\ (forall k' w', In (k', w') d1 ->
          LFUWrapper_WEIGHT w (minutes_of (demo_time 2))
          < LFUWrapper_WEIGHT w' (minutes_of (demo_time 2)))
    /\ (forall k' w', In (k', w') d2 ->
          LFUWrapper_WEIGHT w (minutes_of (demo_time 2))
          <= LFUWrapper_WEIGHT w' (minutes_of (demo_time 2))).
Proof.
  apply (lfu_exact_first_minimum string_dec demo_time demo_rand
           2147483647 16 demo_warm).
  - discriminate.
  - reflexivity.
  - intros k w [E|[E|[E|[]]]]; injection E as <- <-; reflexivity.
Defined.

(** The scan over [a] (weight 0) and [b] at minute 300. *)
Lemma lfu_exact_forgets_witness :
  demo_lfu demo_full
  = Done (exact_victim demo_time 2 [("b", demo_b)])
         (tick demo_full)
  /\ exact_victim demo_time 2 [("b", demo_b)] = Some "b".
Proof.
  destruct (lfu_exact_forgets_up_to_zero_weight string_dec demo_time
              demo_rand 2147483647 16 demo_full [] [("b", demo_b)]
              "a" demo_a eq_refl eq_refl eq_refl) as [E _].
  split; [exact E|reflexivity].
Defined.

(** [lfu] and [evict] on an empty cache. *)
Lemma lfu_only_reads_witness :
  demo_lfu demo_empty
  = Done None (mkInterp (mkCache [] 2 0 0) (Some PyExc_KeyError) 1 0).
Proof.
  destruct (lfu_only_reads string_dec demo_time demo_rand 2147483647 16
              demo_empty) as [H _].
  exact (H eq_refl).
Defined.

Lemma evict_removes_one_entry_witness :
  LFUCache_evict string_dec "None" demo_time demo_rand 2147483647 16
                 demo_empty
  = Done (Some "None") (mkInterp (mkCache [] 2 0 0) None 1 0).
Proof.
  destruct (evict_removes_one_entry string_dec "None" demo_time demo_rand
              2147483647 16 demo_empty) as [H _].
  exact (H eq_refl).
Defined.

(** [rand_limit 32] with [RAND_MAX] 2^31 - 1 and draws that are all 0. *)
Lemma rand_limit_within_limit_witness :
  rand_limit demo_rand 2147483647 16 32 demo_full
  = Done 0 (mkInterp (self demo_full) None 2 1).
Proof.
  destruct (@rand_limit_within_limit string string demo_rand 2147483647 16
              32 demo_full) as [_ H].
  - split; [discriminate|reflexivity].
  - reflexivity.
  - exact demo_rand_nonneg.
  - apply H; [discriminate|]. intros n E. discriminate E.
Defined.

(** Victim selection over 260 entries: the bucket size is 32. *)
Lemma lfu_sampling_safe_witness :
  exists k s',
    LFUCache_lfu Z.eq_dec demo_time demo_rand 2147483647 16 demo_large
    = Done (Some k) s'
    /\ among_first 224 (PyDict_Keys (dict (self demo_large))) k.
Proof.
  destruct (@lfu_sampling_safe Z string Z.eq_dec demo_time demo_rand
              2147483647 16 demo_large) as [_ H].
  - vm_compute. discriminate.
  - vm_compute. reflexivity.
  - vm_compute. reflexivity.
  - exact demo_rand_nonneg.
  - apply H; [discriminate|]. intros n E. vm_compute in E. discriminate E.
Defined.

Lemma demo_huge_size : PyDict_Size (dict (self demo_huge)) = 262144.
Proof.
  unfold PyDict_Size, demo_huge. cbn [self dict].
  rewrite length_map, length_seq, Nat2Z.inj_mul. reflexivity.
Qed.

(** Victim selection over 512 * 512 entries with [RAND_MAX] 32767. *)
Lemma lfu_sampling_divides_by_zero_witness :
  LFUCache_lfu Z.eq_dec demo_time demo_rand 32767 16 demo_huge = Crash.
Proof.
  apply lfu_sampling_divides_by_zero; rewrite demo_huge_size.
  - discriminate.
  - split; discriminate.
  - reflexivity.
Defined.

Lemma demo_keys_unique : NoDup (PyDict_Keys (dict (self demo_full))).
Proof.
  constructor; [|constructor; [|constructor]].
  - intros [D|[]]. discriminate D.
  - intros [].
Qed.

(** Storing [d] into the cache of three entries and capacity 5. *)
Lemma SetItem_new_key_with_room_witness :
  demo_exec (Call_setitem "d" "4") demo_warm
  = Done (Some (R_Int 0))
      (tick (with_dict (dict (self demo_warm)
                        ++ [("d", mkWrapper "4" 300 255)])%list demo_warm)).
Proof.
  destruct (SetItem_new_key_with_room string_dec "None" demo_time demo_rand
              2147483647 16 demo_warm "d" "4") as [E _].
  - reflexivity.
  - discriminate.
  - exact E.
Defined.

(** Storing [c] into the full cache, which evicts, then reading [c]. *)
Lemma setitem_then_getitem_witness :
  exists s2,
    demo_exec (Call_getitem "c")
      (mkInterp (mkCache [("a", demo_a); ("c", mkWrapper "3" 300 255)] 2 0 0)
                None 4 0)
    = Done (Some (R_Obj "3")) s2
    /\ hits (self s2) = 1
    /\ misses (self s2) = 0.
Proof.
  destruct (@setitem_then_getitem string string string_dec "None" demo_time
              demo_rand 2147483647 16 demo_full
              (mkInterp
                 (mkCache [("a", demo_a); ("c", mkWrapper "3" 300 255)] 2 0 0)
                 None 4 0)
              "c" "3" (Some (R_Int 0))) as [_ H].
  - vm_compute. reflexivity.
  - split; [discriminate|reflexivity].
  - exact H.
Defined.

(** Deleting [a] from the cache that holds [a] and [b]. *)
Lemma delitem_then_miss_witness :
  exists s1,
    demo_exec (Call_delitem "a") demo_full = Done (Some (R_Int 0)) s1
    /\ s1 = with_dict [("b", demo_b)] demo_full
    /\ demo_exec (Call_contains "a") s1 = Done (Some (R_Int 0)) s1
    /\ exists s2,
         demo_exec (Call_getitem "a") s1 = Done None s2
         /\ err s2 = Some PyExc_KeyError.
Proof.
  destruct (delitem_then_miss string_dec "None" demo_time demo_rand
              2147483647 16 demo_full "a" (w := demo_a) eq_refl
              demo_keys_unique)
    as (s1 & E & Es & _ & _ & Ec & H).
  exists s1. split; [exact E|]. split; [exact Es|]. split; [exact Ec|exact H].
Defined.

(** [set_capacity(-1)]: the value [-1] without an error is not mistaken for
    a failed conversion; and an object without [__index__]. *)
Lemma set_capacity_rejects_witness :
  demo_set_capacity (PyLong (-1)) demo_full
  = Done None (mkInterp (self demo_full) (Some PyExc_ValueError) 2 0)
  /\ demo_set_capacity (PyNotLong (inr PyExc_TypeError)) demo_full
     = Done None (mkInterp (self demo_full) (Some PyExc_TypeError) 2 0).
Proof.
  split.
  - destruct (set_capacity_rejects string_dec "None" demo_time demo_rand
                2147483647 16 demo_full (PyLong (-1))) as [H _].
    apply (H (-1)); [reflexivity|split; discriminate|reflexivity].
  - destruct (set_capacity_rejects string_dec "None" demo_time demo_rand
                2147483647 16 demo_full (PyNotLong (inr PyExc_TypeError)))
      as (_ & _ & H & _).
    apply H. reflexivity.
Defined.

(** Raising the capacity of the full cache from 2 to 10. *)
Lemma set_capacity_without_eviction_witness :
  demo_set_capacity (PyLong 10) demo_full
  = Done (Some "None")
      (mkInterp (mkCache (dict (self demo_full)) 10 0 0) None 2 0).
Proof.
  apply (set_capacity_without_eviction string_dec "None" demo_time demo_rand
           2147483647 16 demo_full (cap := 10)).
  - split; [reflexivity|discriminate].
  - left. discriminate.
Defined.

(** The constructor with capacity 2, and again on the full cache with an
    object whose [__index__] gives 1. *)
Lemma init_checks_capacity_witness :
  LFUCache_init (PyLong 2) demo_fresh
  = Done 0 (mkInterp (mkCache [] 2 0 0) None 0 0)
  /\ LFUCache_init (PyNotLong (inl 1)) demo_used
     = Done 0 (mkInterp (mkCache (dict (self demo_used)) 1 0 0) None 2 0).
Proof.
  split.
  - destruct (init_checks_capacity demo_fresh (PyLong 2)) as [H _].
    apply H; [reflexivity|split; [reflexivity|discriminate]].
  - destruct (init_checks_capacity demo_used (PyNotLong (inl 1))) as [H _].
    apply H; [reflexivity|split; [reflexivity|discriminate]].
Defined.

(** [values] on the cache that holds [a] and [b], at clock readings 2 and
    3. *)
Lemma values_visit_every_entry_witness :
  LFUCache_values string_dec demo_time demo_full
  = Done (Some ["1"; "2"])
      (mkInterp (mkCache [("a", mkWrapper "1" 300 256);
                          ("b", mkWrapper "2" 300 256)] 2 0 0)
                None 4 0).
Proof.
  destruct (values_visit_every_entry string_dec demo_time demo_full
              demo_keys_unique) as [E _].
  exact E.
Defined.

(** [hints] on the cache with three hits and two misses. *)
Lemma queries_change_nothing_witness :
  exists r, demo_exec Call_hints demo_used = Done (Some r) demo_used.
Proof.
  destruct (queries_change_nothing string_dec "None" demo_time demo_rand
              2147483647 16 demo_used) as [H _].
  exact (H Call_hints eq_refl).
Defined.

(** [get] and [pop] of the absent key [z] with a default. *)
Lemma get_and_pop_on_a_miss_witness :
  LFUCache_get string_dec "None" "z" (Some "d") demo_full
  = Done (Some "d") demo_full
  /\ LFUCache_pop string_dec "None" "z" (Some "d") demo_full
     = Done (Some "d") demo_full.
Proof.
  exact (get_and_pop_on_a_miss string_dec "None" demo_full "z" (Some "d")
           eq_refl).
Defined.

(** [setdefault] of the present key [a]. *)
Lemma setdefault_witness :
  LFUCache_setdefault string_dec "None" demo_time demo_rand 2147483647 16
                      "a" (Some "d") demo_full
  = Done (Some "1")
      (mkInterp (mkCache [("a", mkWrapper "1" 300 256); ("b", demo_b)] 2 0 0)
                None 3 0).
Proof.
  destruct (setdefault_returns_what_is_stored string_dec "None" demo_time
              demo_rand 2147483647 16 demo_full "a" (Some "d")) as [H _].
  exact (H demo_a eq_refl).
Defined.

(** [setnx] of the present key [a] with a callback that would raise. *)
Lemma setnx_witness :
  demo_setnx "a" (Callable (inr (PyExc_Raised 0))) demo_full
  = Done (Some "1")
      (mkInterp (mkCache [("a", mkWrapper "1" 300 256); ("b", demo_b)] 2 0 0)
                None 3 0).
Proof.
  destruct (setnx_calls_back_only_on_a_miss string_dec "None" demo_time
              demo_rand 2147483647 16 demo_full "a") as (_ & H & _).
  exact (H demo_a (inr (PyExc_Raised 0)) eq_refl).
Defined.


(** [update({d: 4}, e=5)]: the keyword argument is skipped. *)
Lemma update_skips_keyword_arguments_witness :
  LFUCache_update string_dec "None" demo_time demo_rand 2147483647 16
                  (Some [("d", "4")]) (Some [("e", "5")]) demo_warm
  = LFUCache_update string_dec "None" demo_time demo_rand 2147483647 16
                    (Some [("d", "4")]) None demo_warm.
Proof.
  destruct (update_skips_keyword_arguments string_dec "None" demo_time
              demo_rand 2147483647 16 demo_warm [("d", "4")] [("e", "5")])
    as [_ H].
  apply H. apply le_n.
Defined.

(** [clear] on the cache with three hits and two misses, then a store. *)
Lemma clear_then_empty_witness :
  exists s1,
    demo_exec Call_clear demo_used = Done (Some (R_Obj "None")) s1
    /\ self s1 = mkCache [] 2 0 0
    /\ exists s3,
         demo_exec (Call_setitem "k" "v") s1 = Done (Some (R_Int 0)) s3
         /\ dict (self s3) = [("k", mkWrapper "v" 300 255)].
Proof.
  destruct (clear_then_empty string_dec "None" demo_time demo_rand
              2147483647 16 demo_used "k" "v" eq_refl)
    as (s1 & E & Es & _ & _ & _ & H).
  exists s1. split; [exact E|]. split; [exact Es|exact H].
Defined.

(** The cache of 260 entries after [set_capacity(250)]: five evictions by
    sampling, then five by the exact scan. *)
Definition demo_large_shrunk : @Interp Z string :=
  Eval vm_compute in
    match LFUCache_set_capacity Z.eq_dec "None" demo_time demo_rand
                                2147483647 16 (PyLong 250) demo_large with
    | Done _ s' => s'
    | _ => demo_large
    end.

Lemma set_capacity_shrinks_sampling_witness :
  capacity (self demo_large_shrunk) = 250
  /\ PyDict_Size (dict (self demo_large_shrunk)) = 250
  /\ exists ks,
       Z.of_nat (length ks) = 10
       /\ dict (self demo_large_shrunk)
          = fold_left (dict_remove Z.eq_dec) ks (dict (self demo_large)).
Proof.
  destruct (@set_capacity_shrinks Z string Z.eq_dec "None" demo_time
              demo_rand 2147483647 16 demo_large demo_large_shrunk 250
              (Some "None")) as (_ & Hc & Hs & _ & _ & ks & Lk & Ed).
  - reflexivity.
  - vm_compute. reflexivity.
  - vm_compute. discriminate.
  - vm_compute. discriminate.
  - vm_compute. reflexivity.
  - split; [exact Hc|]. split; [exact Hs|]. exists ks. split; [|exact Ed].
    rewrite Lk. vm_compute. reflexivity.
Defined.

(** Storing [c] into the full cache that holds [a] and [b]. *)
Lemma SetItem_full_evicts_one_witness :
  exists k w',
    In k (PyDict_Keys (dict (self demo_full)))
    /\ [("a", demo_a); ("c", mkWrapper "3" 300 255)]
       = (dict_remove string_dec (dict (self demo_full)) k ++ [("c", w')])%list
    /\ wrapped w' = "3"
    /\ visit_count w' = LFU_INIT_VAL.
Proof.
  destruct (@SetItem_full_evicts_one string string string_dec "None"
              demo_time demo_rand 2147483647 16 demo_full
              (mkInterp
                 (mkCache [("a", demo_a); ("c", mkWrapper "3" 300 255)] 2 0 0)
                 None 4 0)
              "c" "3" 0) as [_ H].
  - reflexivity.
  - reflexivity.
  - discriminate.
  - vm_compute. reflexivity.
  - exact H.
Defined.

(** A hit on [a] in the cache that holds [a] and [b]. *)
Lemma getitem_touches_its_entry_only_witness :
  PyDict_Keys [("a", mkWrapper "1" 300 256); ("b", demo_b)]
  = PyDict_Keys (dict (self demo_full))
  /\ PyDict_GetItem string_dec
       [("a", mkWrapper "1" 300 256); ("b", demo_b)] "b"
     = PyDict_GetItem string_dec (dict (self demo_full)) "b".
Proof.
  destruct (@getitem_touches_its_entry_only string string string_dec
              demo_time demo_full
              (mkInterp
                 (mkCache [("a", mkWrapper "1" 300 256); ("b", demo_b)] 2 1 0)
                 None 3 0)
              "a" (Some "1")) as (Hk & _ & Ho & _).
  - vm_compute. reflexivity.
  - split; [exact Hk|]. apply Ho. discriminate.
Defined.

(** Deleting [a] and storing it again. *)
Lemma delitem_then_setitem_witness :
  exists s1 s2,
    demo_exec (Call_delitem "a") demo_full = Done (Some (R_Int 0)) s1
    /\ demo_exec (Call_setitem "a" "9") s1 = Done (Some (R_Int 0)) s2
    /\ dict (self s2) = [("b", demo_b); ("a", mkWrapper "9" 300 255)].
Proof.
  destruct (delitem_then_setitem_starts_afresh string_dec "None" demo_time
              demo_rand 2147483647 16 demo_full "a" "9" (w := demo_a)
              eq_refl demo_keys_unique)
    as (s1 & s2 & E1 & E2 & Ed & _).
  - discriminate.
  - exists s1, s2. split; [exact E1|]. split; [exact E2|exact Ed].
Defined.

(** The entry [a] (count 255, last visit at minute 0) at minute 1000. *)
Lemma weight_between_zero_and_count_witness :
  0 <= LFUWrapper_WEIGHT demo_a 1000 <= visit_count demo_a.
Proof.
  apply (weight_between_zero_and_count demo_a 1000).
  split; discriminate.
Defined.

(** * Instances for shrinking *)

(** Shrinking the cache that holds [a] (weight 0 at minute 300) and [b]
    (weight 255) to one entry: the specification's victim is [a], the entry
    removed is [b]. *)
Lemma set_capacity_evicts_past_zero_weight_witness :
  LFUWrapper_WEIGHT demo_a 300 = 0
  /\ LFUWrapper_WEIGHT demo_b 300 = 255
  /\ spec_victim 300 (dict (self demo_full)) = Some "a"
  /\ exists s',
       demo_set_capacity (PyLong 1) demo_full = Done (Some "None") s'
       /\ dict (self s') = [("a", demo_a)]
       /\ capacity (self s') = 1.
Proof.
  split; [reflexivity|]. split; [reflexivity|].
  destruct (@set_capacity_evicts_past_zero_weight string string string_dec
              "None" demo_time demo_rand 2147483647 16 demo_full
              [] [("b", demo_b)] "a" demo_a)
    as (Hv & k & s' & E & _ & Hin & Ed & _ & Ec).
  - reflexivity.
  - discriminate.
  - exact demo_keys_unique.
  - reflexivity.
  - discriminate.
  - intros k w [].
  - reflexivity.
  - split; [exact Hv|]. exists s'. split; [exact E|]. split; [|exact Ec].
    destruct Hin as [<-|[]]. exact Ed.
Defined.

(** A cache of capacity 2^32 that holds 2^31 + 1 entries. *)
Definition demo_giant : @Interp Z string :=
  mkInterp (mkCache (map (fun i => (Z.of_nat i, mkWrapper "v" 0 255))
                         (seq 0 (Z.to_nat 2147483649))) 4294967296 0 0)
           None 0 0.

Lemma demo_giant_size : PyDict_Size (dict (self demo_giant)) = 2147483649.
Proof.
  unfold PyDict_Size, demo_giant. cbn [self dict].
  rewrite length_map, length_seq. apply Z2Nat.id. discriminate.
Qed.

(** [set_capacity(1)] on that cache: 2^31 evictions are due, the [int]
    that counts them is -2^31, and none takes place. *)
Lemma set_capacity_truncates_evictions_witness :
  to_int (2147483649 - 1) = -2147483648
  /\ exists s',
       exec Z.eq_dec "None" demo_time demo_rand 2147483647 16
            (Call_set_capacity (PyLong 1)) demo_giant
       = Done (Some (R_Obj "None")) s'
       /\ capacity (self s') = 1
       /\ PyDict_Size (dict (self s')) = 2147483649.
Proof.
  split; [reflexivity|].
  destruct (set_capacity_truncates_evictions Z.eq_dec "None" demo_time
              demo_rand 2147483647 16 demo_giant (cap := 1))
    as (s' & E & Ed & Ec & _).
  - split; [reflexivity|discriminate].
  - rewrite demo_giant_size. reflexivity.
  - split; [reflexivity|]. rewrite demo_giant_size. discriminate.
  - rewrite demo_giant_size. discriminate.
  - exists s'. split; [exact E|]. split; [exact Ec|].
    rewrite Ed. exact demo_giant_size.
Defined.
